(** * Staged entry of court monthly data: validators and the three-step workflow

    A shallow embedding of [validators.py] and of the three data-entry tools
    of [server.py] ([insert_step1_basic_metrics], [insert_step2_age_breakdowns],
    [insert_step3_additional_metrics]), followed by the properties of the
    staged-entry workflow.

    Numbers.  The validators are written against Python's numeric protocol
    ([+], [-], [==], [!=], [>], [<=]) and run unchanged on [int] and on
    [float]; the tools of [server.py] declare every count as [float].  The
    embedding is therefore generic in the number type (class [PyNum]) and is
    instantiated at [Z] (Python [int], exact) and at the kernel's binary64
    floats (Python [float], IEEE 754 round-to-nearest-even).

    Effects.  A tool is a function from a world (the module-level
    [partial_data_store], the database, the queries sent so far) to a response
    and a new world; the body of its [try] block runs in a small state and
    exit monad.  Each call runs to completion: what other coroutines do while a
    call awaits the database is not modelled, but the database may change
    between two calls.

    Beside the workflow.  The file also embeds the statements that
    [query_ftsc_summary] and [query_spc_data] of [db.py] build at run time,
    and the tools [get_court_info], [check_data_exists] and
    [delete_monthly_data] of [server.py], which run on the same store and
    database. *)

From Stdlib Require Import ZArith Floats Ascii.
From stdpp Require Import base option strings gmap fin_maps pretty.

Set Default Proof Using "Type".

(** ** Python's numeric protocol *)

Class PyNum (N : Type) : Type := {
  zero : N;                  (* the literal 0 *)
  add : N -> N -> N;         (* __add__ *)
  sub : N -> N -> N;         (* __sub__ *)
  eqb : N -> N -> bool;      (* __eq__; [!=] is its negation *)
  gtb : N -> N -> bool;      (* __gt__ *)
  leb : N -> N -> bool       (* __le__ *)
}.

Declare Scope py_scope.
Delimit Scope py_scope with py.
Notation "a + b" := (add a b) : py_scope.
Notation "a - b" := (sub a b) : py_scope.
Notation "a == b" := (eqb a b) (at level 70, no associativity) : py_scope.
Notation "a != b" := (negb (eqb a b)) (at level 70, no associativity) : py_scope.
Notation "a > b" := (gtb a b) : py_scope.
Notation "a <= b" := (leb a b) : py_scope.

(** Python [int]: unbounded integers. *)
#[export] Instance PyNum_int : PyNum Z := {|
  zero := 0%Z;
  add := Z.add;
  sub := Z.sub;
  eqb := Z.eqb;
  gtb := Z.gtb;
  leb := Z.leb
|}.

(** Python [float]: binary64.  [a > b] is [b < a] in IEEE 754 arithmetic. *)
#[export] Instance PyNum_float : PyNum float := {|
  zero := 0%float;
  add := PrimFloat.add;
  sub := PrimFloat.sub;
  eqb := PrimFloat.eqb;
  gtb := fun a b => PrimFloat.ltb b a;
  leb := PrimFloat.leb
|}.

(** The order fragment the validators rely on: a value that is [<=] a bound
    is not [>] that bound.  (The converse fails on [float]: a NaN is neither.) *)
Class PyOrder (N : Type) `{PyNum N} : Prop :=
  leb_not_gtb : forall a b : N, leb a b = true -> gtb a b = false.

(** ** Integers in a number type *)

(** [m * 2^n] on binary mantissas. *)
Fixpoint pow2_mul (n : nat) (m : positive) : positive :=
  match n with
  | O => m
  | S n' => xO (pow2_mul n' m)
  end.

(** The number of bits of a mantissa. *)
Definition mantissa_digits (m : positive) : nat := Pos.to_nat (digits2_pos m).

(** The binary64 float of sign [s] and magnitude [m], for [m] below [2^53]:
    a mantissa of exactly 53 bits. *)
Definition canonical_float (s : bool) (m : positive) : spec_float :=
  S754_finite s (pow2_mul (53 - mantissa_digits m) m)
              (Z.of_nat (mantissa_digits m) - 53).

Definition Zsign (z : Z) : bool := (z <? 0)%Z.

(** [float(z)]: the integer [z] rounded to binary64, first in the format of
    the specification of the float operations, then as a float. *)
Definition SFofZ (z : Z) : spec_float := binary_normalize prec emax z 0 false.

Definition float_of_Z (z : Z) : float := SF2Prim (SFofZ z).

(** A number type that computes exactly on the integers of a range: every
    Python [int], and the integers of magnitude below [2^53] among the
    [float]s. *)
Class ExactOnIntegers (N : Type) `{PyNum N} : Type := {
  of_int : Z -> N;
  in_range : Z -> Prop;
  in_range_le : forall a b : Z, in_range a -> (Z.abs b <= Z.abs a)%Z -> in_range b;
  add_of_int : forall a b : Z,
    in_range a -> in_range b -> in_range (a + b)%Z ->
    add (of_int a) (of_int b) = of_int (a + b)%Z;
  sub_of_int : forall a b : Z,
    in_range a -> in_range b -> in_range (a - b)%Z ->
    sub (of_int a) (of_int b) = of_int (a - b)%Z;
  eqb_of_int_refl : forall a : Z, in_range a -> eqb (of_int a) (of_int a) = true;
  of_int_negative : forall a : Z,
    in_range a -> (a < 0)%Z -> gtb zero (of_int a) = true
}.

(** ** Results and exceptions *)

Inductive result (E A : Type) : Type :=
| Ok (a : A)
| Raise (e : E).
Arguments Ok {E A} a.
Arguments Raise {E A} e.


Inductive Category := RAPE | POCSO.
Inductive Breakdown := Pendency | Disposal.
Inductive SubsetField := Contested | Disposal5y | PendingOver5y.

(** [ValidationError] with the data its message interpolates:
    - ["Pending calculation mismatch"];
    - ["RAPE pendency breakdown sum (s) != pending_rape (p)"] and its three
      siblings;
    - ["contested_rape (v) cannot exceed disposed_rape (b)"] and its five
      siblings;
    - ["Month must be between 1-12, got m"];
    - ["Year seems invalid: y"]. *)
Inductive ValidationError (N : Type) : Type :=
| PendingCalculationMismatch
| BreakdownSumMismatch (cat : Category) (which : Breakdown) (total given : N)
| CannotExceed (field : SubsetField) (cat : Category) (value bound : N)
| MonthOutOfRange (month : Z)
| YearInvalid (year : Z).
Arguments PendingCalculationMismatch {N}.
Arguments BreakdownSumMismatch {N} cat which total given.
Arguments CannotExceed {N} field cat value bound.
Arguments MonthOutOfRange {N} month.
Arguments YearInvalid {N} year.

(** The failure kinds of the specification's taxonomy a [ValidationError]
    falls under. *)
Inductive ErrorKind :=
| RangeError | EntityNotFound | DuplicateEntry | StepOrderViolation
| SumMismatch | SubsetViolation | InvariantViolation | StorageFailure.

Definition validation_kind {N} (e : ValidationError N) : ErrorKind :=
  match e with
  | PendingCalculationMismatch => InvariantViolation
  | BreakdownSumMismatch _ _ _ _ => SumMismatch
  | CannotExceed _ _ _ _ => SubsetViolation
  | MonthOutOfRange _ | YearInvalid _ => RangeError
  end.

(** ** The dictionaries the validators return *)

Record BasicMetrics (N : Type) : Type := {
  balance_rape : N; balance_pocso : N; balance_total : N;
  new_rape : N; new_pocso : N; new_total : N;
  disposed_rape : N; disposed_pocso : N; disposed_total : N;
  pending_rape : N; pending_pocso : N; pending_total : N
}.
Arguments balance_rape {N}. Arguments balance_pocso {N}. Arguments balance_total {N}.
Arguments new_rape {N}. Arguments new_pocso {N}. Arguments new_total {N}.
Arguments disposed_rape {N}. Arguments disposed_pocso {N}. Arguments disposed_total {N}.
Arguments pending_rape {N}. Arguments pending_pocso {N}. Arguments pending_total {N}.

Record AgeBreakdowns (N : Type) : Type := {
  pending_less_2m_rape : N; pending_less_2m_pocso : N;
  pending_2_12m_rape : N; pending_2_12m_pocso : N;
  pending_12m_5y_rape : N; pending_12m_5y_pocso : N;
  pending_beyond_5y_rape : N; pending_beyond_5y_pocso : N;
  total_pendency_rape : N; total_pendency_pocso : N;
  disposal_within_2m_rape : N; disposal_within_2m_pocso : N;
  disposal_2_12m_rape : N; disposal_2_12m_pocso : N;
  disposal_beyond_12m_rape : N; disposal_beyond_12m_pocso : N;
  total_disposal_rape : N; total_disposal_pocso : N
}.
Arguments pending_less_2m_rape {N}. Arguments pending_less_2m_pocso {N}.
Arguments pending_2_12m_rape {N}. Arguments pending_2_12m_pocso {N}.
Arguments pending_12m_5y_rape {N}. Arguments pending_12m_5y_pocso {N}.
Arguments pending_beyond_5y_rape {N}. Arguments pending_beyond_5y_pocso {N}.
Arguments total_pendency_rape {N}. Arguments total_pendency_pocso {N}.
Arguments disposal_within_2m_rape {N}. Arguments disposal_within_2m_pocso {N}.
Arguments disposal_2_12m_rape {N}. Arguments disposal_2_12m_pocso {N}.
Arguments disposal_beyond_12m_rape {N}. Arguments disposal_beyond_12m_pocso {N}.
Arguments total_disposal_rape {N}. Arguments total_disposal_pocso {N}.

Record AdditionalMetrics (N : Type) : Type := {
  contested_rape : N; contested_pocso : N; contested_total : N;
  disposal_5y_rape : N; disposal_5y_pocso : N; disposal_5y_total : N;
  pending_over_5y_rape : N; pending_over_5y_pocso : N; pending_over_5y_total : N;
  convictions_rape : N; convictions_pocso : N
}.
Arguments contested_rape {N}. Arguments contested_pocso {N}. Arguments contested_total {N}.
Arguments disposal_5y_rape {N}. Arguments disposal_5y_pocso {N}. Arguments disposal_5y_total {N}.
Arguments pending_over_5y_rape {N}. Arguments pending_over_5y_pocso {N}.
Arguments pending_over_5y_total {N}.
Arguments convictions_rape {N}. Arguments convictions_pocso {N}.

(** ** validators.py *)

Section Validators.
Context {N : Type} `{PyNum N}.
Local Open Scope py_scope.

Definition validate_basic_metrics
    (balance_rape balance_pocso new_rape new_pocso
     disposed_rape disposed_pocso : N)
  : result (ValidationError N) (BasicMetrics N) :=
  (* Calculate pending *)
  let pending_rape := balance_rape + new_rape - disposed_rape in
  let pending_pocso := balance_pocso + new_pocso - disposed_pocso in
  (* Calculate totals *)
  let balance_total := balance_rape + balance_pocso in
  let new_total := new_rape + new_pocso in
  let disposed_total := disposed_rape + disposed_pocso in
  let pending_total := pending_rape + pending_pocso in
  (* Validate pending calculation *)
  if pending_total != balance_total + new_total - disposed_total
  then Raise PendingCalculationMismatch
  else Ok {|
    balance_rape := balance_rape;
    balance_pocso := balance_pocso;
    balance_total := balance_total;
    new_rape := new_rape;
    new_pocso := new_pocso;
    new_total := new_total;
    disposed_rape := disposed_rape;
    disposed_pocso := disposed_pocso;
    disposed_total := disposed_total;
    pending_rape := pending_rape;
    pending_pocso := pending_pocso;
    pending_total := pending_total
  |}.

Definition validate_age_breakdowns
    (pending_rape pending_pocso disposed_rape disposed_pocso
     pending_less_2m_rape pending_less_2m_pocso
     pending_2_12m_rape pending_2_12m_pocso
     pending_12m_5y_rape pending_12m_5y_pocso
     pending_beyond_5y_rape pending_beyond_5y_pocso
     disposal_within_2m_rape disposal_within_2m_pocso
     disposal_2_12m_rape disposal_2_12m_pocso
     disposal_beyond_12m_rape disposal_beyond_12m_pocso : N)
  : result (ValidationError N) (AgeBreakdowns N) :=
  (* Calculate pendency sums *)
  let total_pendency_rape :=
    pending_less_2m_rape + pending_2_12m_rape
    + pending_12m_5y_rape + pending_beyond_5y_rape in
  let total_pendency_pocso :=
    pending_less_2m_pocso + pending_2_12m_pocso
    + pending_12m_5y_pocso + pending_beyond_5y_pocso in
  (* Validate pendency sums *)
  if total_pendency_rape != pending_rape
  then Raise (BreakdownSumMismatch RAPE Pendency total_pendency_rape pending_rape)
  else
  if total_pendency_pocso != pending_pocso
  then Raise (BreakdownSumMismatch POCSO Pendency total_pendency_pocso pending_pocso)
  else
  (* Calculate disposal sums *)
  let total_disposal_rape :=
    disposal_within_2m_rape + disposal_2_12m_rape + disposal_beyond_12m_rape in
  let total_disposal_pocso :=
    disposal_within_2m_pocso + disposal_2_12m_pocso + disposal_beyond_12m_pocso in
  (* Validate disposal sums *)
  if total_disposal_rape != disposed_rape
  then Raise (BreakdownSumMismatch RAPE Disposal total_disposal_rape disposed_rape)
  else
  if total_disposal_pocso != disposed_pocso
  then Raise (BreakdownSumMismatch POCSO Disposal total_disposal_pocso disposed_pocso)
  else Ok {|
    pending_less_2m_rape := pending_less_2m_rape;
    pending_less_2m_pocso := pending_less_2m_pocso;
    pending_2_12m_rape := pending_2_12m_rape;
    pending_2_12m_pocso := pending_2_12m_pocso;
    pending_12m_5y_rape := pending_12m_5y_rape;
    pending_12m_5y_pocso := pending_12m_5y_pocso;
    pending_beyond_5y_rape := pending_beyond_5y_rape;
    pending_beyond_5y_pocso := pending_beyond_5y_pocso;
    total_pendency_rape := total_pendency_rape;
    total_pendency_pocso := total_pendency_pocso;
    disposal_within_2m_rape := disposal_within_2m_rape;
    disposal_within_2m_pocso := disposal_within_2m_pocso;
    disposal_2_12m_rape := disposal_2_12m_rape;
    disposal_2_12m_pocso := disposal_2_12m_pocso;
    disposal_beyond_12m_rape := disposal_beyond_12m_rape;
    disposal_beyond_12m_pocso := disposal_beyond_12m_pocso;
    total_disposal_rape := total_disposal_rape;
    total_disposal_pocso := total_disposal_pocso
  |}.

Definition validate_additional_metrics
    (pending_rape pending_pocso disposed_rape disposed_pocso
     contested_rape contested_pocso
     disposal_5y_rape disposal_5y_pocso
     pending_over_5y_rape pending_over_5y_pocso
     convictions_rape convictions_pocso : N)
  : result (ValidationError N) (AdditionalMetrics N) :=
  (* Validate contested is subset of disposed *)
  if contested_rape > disposed_rape
  then Raise (CannotExceed Contested RAPE contested_rape disposed_rape)
  else
  if contested_pocso > disposed_pocso
  then Raise (CannotExceed Contested POCSO contested_pocso disposed_pocso)
  else
  (* Validate disposal_5y is subset of disposed *)
  if disposal_5y_rape > disposed_rape
  then Raise (CannotExceed Disposal5y RAPE disposal_5y_rape disposed_rape)
  else
  if disposal_5y_pocso > disposed_pocso
  then Raise (CannotExceed Disposal5y POCSO disposal_5y_pocso disposed_pocso)
  else
  (* Validate pending_over_5y is subset of pending *)
  if pending_over_5y_rape > pending_rape
  then Raise (CannotExceed PendingOver5y RAPE pending_over_5y_rape pending_rape)
  else
  if pending_over_5y_pocso > pending_pocso
  then Raise (CannotExceed PendingOver5y POCSO pending_over_5y_pocso pending_pocso)
  else
  (* Calculate totals *)
  let contested_total := contested_rape + contested_pocso in
  let disposal_5y_total := disposal_5y_rape + disposal_5y_pocso in
  let pending_over_5y_total := pending_over_5y_rape + pending_over_5y_pocso in
  Ok {|
    contested_rape := contested_rape;
    contested_pocso := contested_pocso;
    contested_total := contested_total;
    disposal_5y_rape := disposal_5y_rape;
    disposal_5y_pocso := disposal_5y_pocso;
    disposal_5y_total := disposal_5y_total;
    pending_over_5y_rape := pending_over_5y_rape;
    pending_over_5y_pocso := pending_over_5y_pocso;
    pending_over_5y_total := pending_over_5y_total;
    convictions_rape := convictions_rape;
    convictions_pocso := convictions_pocso
  |}.

(** [month] and [year] are [int]s. *)
Definition validate_month_year (month year : Z)
  : result (ValidationError N) bool :=
  if negb ((1 <=? month)%Z && (month <=? 12)%Z)
  then Raise (MonthOutOfRange month)
  else
  if negb ((2020 <=? year)%Z && (year <=? 2030)%Z)
  then Raise (YearInvalid year)
  else Ok true.

End Validators.

(** ** db.py: the persistence collaborator *)

(** A row of [courts] joined with its district, as [get_court_by_name]
    selects it: [id], [name], [type], [district_name]. *)
Record Court : Type := {
  c_id : Z;
  c_name : string;
  c_type : string;
  c_district_name : string
}.

(** What reaches an [except Exception] clause: a missing dictionary key, or
    whatever the database driver raises. *)
Inductive Exception :=
| KeyError (key : string)
| DatabaseError (msg : string).

(** The 44 values [insert_court_monthly_data] passes to [db.execute], grouped
    by the dictionary they come from. *)
Record Row (N : Type) : Type := {
  row_court_id : Z;
  row_month : Z;
  row_year : Z;
  row_basic : BasicMetrics N;
  row_age : AgeBreakdowns N;
  row_additional : AdditionalMetrics N
}.
Arguments row_court_id {N}. Arguments row_month {N}. Arguments row_year {N}.
Arguments row_basic {N}. Arguments row_age {N}. Arguments row_additional {N}.

(** The database itself is outside the repository: any state type with the
    three queries the workflow runs, each of which may raise.  The two
    SELECTs leave the state alone; the INSERT returns the new state. *)
Class Database (N : Type) : Type := {
  db_state : Type;
  (* SELECT c.id, c.name, c.type, d.name ... WHERE c.name = $1 *)
  fetchrow_court : db_state -> string -> result Exception (option Court);
  (* SELECT EXISTS(... WHERE court_id = $1 AND month = $2 AND year = $3) *)
  fetchval_exists : db_state -> Z -> Z -> Z -> result Exception bool;
  (* INSERT INTO court_monthly_data (...) VALUES (...) *)
  execute_insert : db_state -> Row N -> result Exception db_state
}.

(** The queries sent to the database, oldest first. *)
Inductive DbCall (N : Type) : Type :=
| SelectCourt (court_name : string)
| SelectExists (court_id month year : Z)
| InsertRow (row : Row N).
Arguments SelectCourt {N} court_name.
Arguments SelectExists {N} court_id month year.
Arguments InsertRow {N} row.

Definition is_insert {N} (c : DbCall N) : bool :=
  match c with
  | InsertRow _ => true
  | _ => false
  end.

(** ** server.py: the partial-data store *)

(** An entry of [partial_data_store].  Step 1 creates it from [court_id],
    [court_name], [month], [year], the twelve keys of [calculated] and
    [step1_complete]; step 2 adds the eighteen keys of [age_data] and
    [step2_complete].  The three key sets are disjoint, so the entry is kept
    as a record of its parts; a flag is the truth value of
    [entry.get('step1_complete')], [false] when the key is absent. *)
Record PartialData (N : Type) : Type := {
  court_id : Z;
  court_name : string;
  month : Z;
  year : Z;
  calculated : BasicMetrics N;
  step1_complete : bool;
  age_data : option (AgeBreakdowns N);
  step2_complete : bool
}.
Arguments court_id {N}. Arguments court_name {N}. Arguments month {N}.
Arguments year {N}. Arguments calculated {N}. Arguments step1_complete {N}.
Arguments age_data {N}. Arguments step2_complete {N}.

(** [entry.update(age_data)] *)
Definition dict_update_age_data {N} (age : AgeBreakdowns N) (entry : PartialData N)
  : PartialData N :=
  {| court_id := court_id entry;
     court_name := court_name entry;
     month := month entry;
     year := year entry;
     calculated := calculated entry;
     step1_complete := step1_complete entry;
     age_data := Some age;
     step2_complete := step2_complete entry |}.

(** [entry['step2_complete'] = True] *)
Definition set_step2_complete {N} (entry : PartialData N) : PartialData N :=
  {| court_id := court_id entry;
     court_name := court_name entry;
     month := month entry;
     year := year entry;
     calculated := calculated entry;
     step1_complete := step1_complete entry;
     age_data := age_data entry;
     step2_complete := true |}.

(** [{**partial_data, **additional}] *)
Record CompleteData (N : Type) : Type := {
  partial_data : PartialData N;
  additional : AdditionalMetrics N
}.
Arguments partial_data {N}. Arguments additional {N}.

(** No character of [s] is the underscore that separates the parts of a key. *)
Fixpoint no_underscore (s : string) : bool :=
  match s with
  | EmptyString => true
  | String a s' => negb (Ascii.eqb a "_"%char) && no_underscore s'
  end.

(** [f"{court['id']}_{month}_{year}"] *)
Definition store_key (court_id month year : Z) : string :=
  pretty court_id +:+ "_" +:+ pretty month +:+ "_" +:+ pretty year.

(** What a tool returns: one constructor per message of [server.py], with
    the values the message interpolates. *)
Inductive Response (N : Type) : Type :=
(* "Error: Court '{court_name}' not found" *)
| CourtNotFound (court_name : string)
(* "Error: Data already exists for {court_name} - {month}/{year}. ..." *)
| DataAlreadyExists (court_name : string) (month year : Z)
(* step 2: "Error: You must complete STEP 1 (insert_step1_basic_metrics) first" *)
| MustCompleteStep1
(* step 3: "Error: You must complete STEP 1 first" *)
| MustCompleteStep1First
(* step 3: "Error: You must complete STEP 2 first" *)
| MustCompleteStep2First
(* "Validation Error: {e}" *)
| ValidationErrorResponse (e : ValidationError N)
(* "Error: {e}" *)
| ErrorResponse (e : Exception)
(* "✓ STEP 1 COMPLETE for ..." *)
| Step1Complete (court_name : string) (month year : Z) (calculated : BasicMetrics N)
(* "✓ STEP 2 COMPLETE for ..." *)
| Step2Complete (court_name : string) (month year : Z) (age_data : AgeBreakdowns N)
(* "✓✓✓ DATA ENTRY COMPLETE for ..." *)
| DataEntryComplete (court : Court) (month year : Z) (complete_data : CompleteData N).
Arguments CourtNotFound {N} court_name.
Arguments DataAlreadyExists {N} court_name month year.
Arguments MustCompleteStep1 {N}.
Arguments MustCompleteStep1First {N}.
Arguments MustCompleteStep2First {N}.
Arguments ValidationErrorResponse {N} e.
Arguments ErrorResponse {N} e.
Arguments Step1Complete {N} court_name month year calculated.
Arguments Step2Complete {N} court_name month year age_data.
Arguments DataEntryComplete {N} court month year complete_data.

(** The failure kind of a response, [None] for a success. *)
Definition response_kind {N} (r : Response N) : option ErrorKind :=
  match r with
  | CourtNotFound _ => Some EntityNotFound
  | DataAlreadyExists _ _ _ => Some DuplicateEntry
  | MustCompleteStep1 | MustCompleteStep1First | MustCompleteStep2First =>
      Some StepOrderViolation
  | ValidationErrorResponse e => Some (validation_kind e)
  | ErrorResponse _ => Some StorageFailure   (* whatever [except Exception] caught *)
  | Step1Complete _ _ _ _ | Step2Complete _ _ _ _ | DataEntryComplete _ _ _ _ => None
  end.

(** ** server.py: the three data-entry tools *)

Section Server.
Context {N : Type} `{PyNum N} `{Database N}.

(** The state a tool runs in: the module-level [partial_data_store], the
    database, and the queries sent so far. *)
Record World : Type := {
  partial_data_store : gmap string (PartialData N);
  db : db_state;
  db_calls : list (DbCall N)
}.

(** How the body of a tool's [try] block stops before its last line. *)
Inductive Exit : Type :=
| Return (r : Response N)
| RaiseValidationError (e : ValidationError N)
| RaiseException (e : Exception).

(** A fragment of a [try] block: it runs in a world and either stops the
    block or goes on with a value. *)
Definition Body (A : Type) : Type := World -> (Exit + A) * World.

#[local] Instance Body_ret : MRet Body := fun A a w => (inr a, w).
#[local] Instance Body_bind : MBind Body := fun A B k m w =>
  match m w with
  | (inl x, w') => (inl x, w')
  | (inr a, w') => k a w'
  end.

Definition return_ {A} (r : Response N) : Body A := fun w => (inl (Return r), w).

(** A validator call: its [ValidationError] leaves the block. *)
Definition validated {A} (v : result (ValidationError N) A) : Body A := fun w =>
  match v with
  | Ok a => (inr a, w)
  | Raise e => (inl (RaiseValidationError e), w)
  end.

(** An awaited read query: the call is sent, the database answers. *)
Definition query {A} (c : DbCall N) (q : db_state -> result Exception A) : Body A :=
  fun w =>
    let w' := {| partial_data_store := partial_data_store w;
                 db := db w;
                 db_calls := db_calls w ++ [c] |} in
    match q (db w) with
    | Ok a => (inr a, w')
    | Raise e => (inl (RaiseException e), w')
    end.

Definition get_court_by_name (court_name : string) : Body (option Court) :=
  query (SelectCourt court_name) (fun d => fetchrow_court d court_name).

Definition check_existing_data (court_id month year : Z) : Body bool :=
  query (SelectExists court_id month year)
        (fun d => fetchval_exists d court_id month year).

(** [insert_court_monthly_data]: the 44 arguments of [db.execute] are read
    from [data] first, so a missing key raises [KeyError] before any query is
    sent; the first key that can be missing is ['pending_less_2m_rape']. *)
Definition insert_court_monthly_data
    (court_id month year : Z) (data : CompleteData N) : Body unit := fun w =>
  match age_data (partial_data data) with
  | None => (inl (RaiseException (KeyError "pending_less_2m_rape")), w)
  | Some age =>
      let row := {| row_court_id := court_id;
                    row_month := month;
                    row_year := year;
                    row_basic := calculated (partial_data data);
                    row_age := age;
                    row_additional := additional data |} in
      let calls := db_calls w ++ [InsertRow row] in
      match execute_insert (db w) row with
      | Ok d' => (inr tt, {| partial_data_store := partial_data_store w;
                             db := d';
                             db_calls := calls |})
      | Raise e => (inl (RaiseException e),
                    {| partial_data_store := partial_data_store w;
                       db := db w;
                       db_calls := calls |})
      end
  end.

(** Reads and writes of [partial_data_store]. *)
Definition store_get (key : string) : Body (option (PartialData N)) := fun w =>
  (inr (partial_data_store w !! key), w).

Definition store_set (key : string) (entry : PartialData N) : Body unit := fun w =>
  (inr tt, {| partial_data_store := <[key := entry]> (partial_data_store w);
              db := db w;
              db_calls := db_calls w |}).

(** [partial_data_store[key].update(...)], [partial_data_store[key][k] = v]:
    the entry is changed in place. *)
Definition store_modify (key : string) (f : PartialData N -> PartialData N)
  : Body unit := fun w =>
  (inr tt, {| partial_data_store := alter f key (partial_data_store w);
              db := db w;
              db_calls := db_calls w |}).

(** [del partial_data_store[key]], run on a key that was just looked up. *)
Definition store_del (key : string) : Body unit := fun w =>
  (inr tt, {| partial_data_store := delete key (partial_data_store w);
              db := db w;
              db_calls := db_calls w |}).

(** [try: ... except ValidationError as e: ... except Exception as e: ...] *)
Definition try_except (body : Body (Response N)) (w : World) : Response N * World :=
  match body w with
  | (inr r, w') => (r, w')
  | (inl (Return r), w') => (r, w')
  | (inl (RaiseValidationError e), w') => (ValidationErrorResponse e, w')
  | (inl (RaiseException e), w') => (ErrorResponse e, w')
  end.

Definition insert_step1_basic_metrics
    (court_name : string) (month year : Z)
    (balance_rape balance_pocso new_rape new_pocso
     disposed_rape disposed_pocso : N)
  : World -> Response N * World :=
  try_except (
    (* Validate month/year *)
    _ ← validated (validate_month_year month year);
    (* Get court *)
    court ← get_court_by_name court_name;
    match court with
    | None => return_ (CourtNotFound court_name)
    | Some court =>
      (* Check if data already exists *)
      exists_ ← check_existing_data (c_id court) month year;
      if (exists_ : bool)
      then return_ (DataAlreadyExists court_name month year)
      else
      (* Validate and calculate *)
      calculated ← validated (validate_basic_metrics
        balance_rape balance_pocso new_rape new_pocso
        disposed_rape disposed_pocso);
      (* Store in partial data *)
      let key := store_key (c_id court) month year in
      _ ← store_set key {|
        court_id := c_id court;
        court_name := court_name;
        month := month;
        year := year;
        calculated := calculated;
        step1_complete := true;
        age_data := None;
        step2_complete := false
      |};
      mret (Step1Complete court_name month year calculated)
    end).

Definition insert_step2_age_breakdowns
    (court_name : string) (month year : Z)
    (pending_less_2m_rape pending_less_2m_pocso
     pending_2_12m_rape pending_2_12m_pocso
     pending_12m_5y_rape pending_12m_5y_pocso
     pending_beyond_5y_rape pending_beyond_5y_pocso
     disposal_within_2m_rape disposal_within_2m_pocso
     disposal_2_12m_rape disposal_2_12m_pocso
     disposal_beyond_12m_rape disposal_beyond_12m_pocso : N)
  : World -> Response N * World :=
  try_except (
    (* Get court *)
    court ← get_court_by_name court_name;
    match court with
    | None => return_ (CourtNotFound court_name)
    | Some court =>
      (* Check if step 1 was completed *)
      let key := store_key (c_id court) month year in
      entry ← store_get key;
      match entry with
      | None => return_ MustCompleteStep1
      | Some partial_data =>
        if negb (step1_complete partial_data)
        then return_ MustCompleteStep1
        else
        (* Validate age breakdowns *)
        age_data ← validated (validate_age_breakdowns
          (pending_rape (calculated partial_data))
          (pending_pocso (calculated partial_data))
          (disposed_rape (calculated partial_data))
          (disposed_pocso (calculated partial_data))
          pending_less_2m_rape pending_less_2m_pocso
          pending_2_12m_rape pending_2_12m_pocso
          pending_12m_5y_rape pending_12m_5y_pocso
          pending_beyond_5y_rape pending_beyond_5y_pocso
          disposal_within_2m_rape disposal_within_2m_pocso
          disposal_2_12m_rape disposal_2_12m_pocso
          disposal_beyond_12m_rape disposal_beyond_12m_pocso);
        (* Update partial data *)
        _ ← store_modify key (dict_update_age_data age_data);
        _ ← store_modify key set_step2_complete;
        mret (Step2Complete court_name month year age_data)
      end
    end).

Definition insert_step3_additional_metrics
    (court_name : string) (month year : Z)
    (contested_rape contested_pocso
     disposal_5y_rape disposal_5y_pocso
     pending_over_5y_rape pending_over_5y_pocso
     convictions_rape convictions_pocso : N)
  : World -> Response N * World :=
  try_except (
    (* Get court *)
    court ← get_court_by_name court_name;
    match court with
    | None => return_ (CourtNotFound court_name)
    | Some court =>
      (* Check if steps 1 & 2 were completed *)
      let key := store_key (c_id court) month year in
      entry ← store_get key;
      match entry with
      | None => return_ MustCompleteStep1First
      | Some partial_data =>
        if negb (step2_complete partial_data)
        then return_ MustCompleteStep2First
        else
        (* Validate additional metrics *)
        additional ← validated (validate_additional_metrics
          (pending_rape (calculated partial_data))
          (pending_pocso (calculated partial_data))
          (disposed_rape (calculated partial_data))
          (disposed_pocso (calculated partial_data))
          contested_rape contested_pocso
          disposal_5y_rape disposal_5y_pocso
          pending_over_5y_rape pending_over_5y_pocso
          convictions_rape convictions_pocso);
        (* Merge all data *)
        let complete_data :=
          {| partial_data := partial_data; additional := additional |} in
        (* Insert into database *)
        _ ← insert_court_monthly_data (c_id court) month year complete_data;
        (* Clean up partial data *)
        _ ← store_del key;
        mret (DataEntryComplete court month year complete_data)
      end
    end).

(** *** Sequences of tool calls *)

Inductive ToolCall : Type :=
| Step1 (court_name : string) (month year : Z)
        (balance_rape balance_pocso new_rape new_pocso
         disposed_rape disposed_pocso : N)
| Step2 (court_name : string) (month year : Z)
        (pending_less_2m_rape pending_less_2m_pocso
         pending_2_12m_rape pending_2_12m_pocso
         pending_12m_5y_rape pending_12m_5y_pocso
         pending_beyond_5y_rape pending_beyond_5y_pocso
         disposal_within_2m_rape disposal_within_2m_pocso
         disposal_2_12m_rape disposal_2_12m_pocso
         disposal_beyond_12m_rape disposal_beyond_12m_pocso : N)
| Step3 (court_name : string) (month year : Z)
        (contested_rape contested_pocso
         disposal_5y_rape disposal_5y_pocso
         pending_over_5y_rape pending_over_5y_pocso
         convictions_rape convictions_pocso : N).

Definition run (t : ToolCall) : World -> Response N * World :=
  match t with
  | Step1 c m y a1 a2 a3 a4 a5 a6 =>
      insert_step1_basic_metrics c m y a1 a2 a3 a4 a5 a6
  | Step2 c m y a1 a2 a3 a4 a5 a6 a7 a8 a9 a10 a11 a12 a13 a14 =>
      insert_step2_age_breakdowns c m y a1 a2 a3 a4 a5 a6 a7 a8 a9 a10 a11 a12 a13 a14
  | Step3 c m y a1 a2 a3 a4 a5 a6 a7 a8 =>
      insert_step3_additional_metrics c m y a1 a2 a3 a4 a5 a6 a7 a8
  end.

(** The arithmetic validator of a call raises on the values the call hands
    it: its own arguments and, for steps 2 and 3, the pending and disposed
    counts of the entry stored for the key. *)
Definition validator_raises (t : ToolCall) (w : World) : Prop :=
  match t with
  | Step1 c m y a1 a2 a3 a4 a5 a6 =>
      (exists e, validate_month_year (N:=N) m y = Raise e)
      \/ (exists e, validate_basic_metrics a1 a2 a3 a4 a5 a6 = Raise e)
  | Step2 c m y a1 a2 a3 a4 a5 a6 a7 a8 a9 a10 a11 a12 a13 a14 =>
      exists court entry e,
        fetchrow_court (db w) c = Ok (Some court)
        /\ partial_data_store w !! store_key (c_id court) m y = Some entry
        /\ validate_age_breakdowns
             (pending_rape (calculated entry)) (pending_pocso (calculated entry))
             (disposed_rape (calculated entry)) (disposed_pocso (calculated entry))
             a1 a2 a3 a4 a5 a6 a7 a8 a9 a10 a11 a12 a13 a14 = Raise e
  | Step3 c m y a1 a2 a3 a4 a5 a6 a7 a8 =>
      exists court entry e,
        fetchrow_court (db w) c = Ok (Some court)
        /\ partial_data_store w !! store_key (c_id court) m y = Some entry
        /\ validate_additional_metrics
             (pending_rape (calculated entry)) (pending_pocso (calculated entry))
             (disposed_rape (calculated entry)) (disposed_pocso (calculated entry))
             a1 a2 a3 a4 a5 a6 a7 a8 = Raise e
  end.

(** The step-order check of a call fails: the court is found, and the store
    has no entry for the key or the entry lacks the flag of the step before. *)
Definition step_order_violated (t : ToolCall) (w : World) : Prop :=
  match t with
  | Step1 _ _ _ _ _ _ _ _ _ => False
  | Step2 c m y _ _ _ _ _ _ _ _ _ _ _ _ _ _ =>
      exists court,
        fetchrow_court (db w) c = Ok (Some court)
        /\ (partial_data_store w !! store_key (c_id court) m y = None
            \/ exists entry,
                 partial_data_store w !! store_key (c_id court) m y = Some entry
                 /\ step1_complete entry = false)
  | Step3 c m y _ _ _ _ _ _ _ _ =>
      exists court,
        fetchrow_court (db w) c = Ok (Some court)
        /\ (partial_data_store w !! store_key (c_id court) m y = None
            \/ exists entry,
                 partial_data_store w !! store_key (c_id court) m y = Some entry
                 /\ step2_complete entry = false)
  end.

(** The worlds the server can be in: it starts with an empty store
    ([partial_data_store = {}]); every tool call moves it on; and the
    database, which other clients write to as well, may change between two
    calls. *)
Inductive reachable : World -> Prop :=
| reachable_start (d : db_state) :
    reachable {| partial_data_store := ∅; db := d; db_calls := [] |}
| reachable_run (t : ToolCall) (w : World) :
    reachable w -> reachable (run t w).2
| reachable_db (d : db_state) (w : World) :
    reachable w ->
    reachable {| partial_data_store := partial_data_store w;
                 db := d;
                 db_calls := db_calls w |}.

(** The [INSERT]s among the queries sent so far. *)
Definition inserts_issued (w : World) : list (DbCall N) :=
  filter (fun c => is_insert c = true) (db_calls w).

Definition period_in_bounds (month year : Z) : Prop :=
  (1 <= month <= 12)%Z /\ (2020 <= year <= 2030)%Z.

(** What every entry of a reachable store satisfies. *)
Definition entry_wf (key : string) (entry : PartialData N) : Prop :=
  key = store_key (court_id entry) (month entry) (year entry)
  /\ period_in_bounds (month entry) (year entry)
  /\ step1_complete entry = true
  /\ (step2_complete entry = true -> is_Some (age_data entry)).

Definition store_wf (store : gmap string (PartialData N)) : Prop :=
  forall key entry, store !! key = Some entry -> entry_wf key entry.

End Server.

(** ** A database to run the tools on concrete inputs *)

(** Modelled from the spec: the tables behind [db.py], which are not part of
    the sources.  [courts] holds the entities; [court_monthly_data] holds the
    committed records, at most one per (court_id, month, year): an insert that
    would break this unique key raises. *)
Record MemoryDb (N : Type) : Type := {
  courts : list Court;
  court_monthly_data : list (Row N)
}.
Arguments courts {N}. Arguments court_monthly_data {N}.

Definition same_key {N} (court_id month year : Z) (row : Row N) : bool :=
  (row_court_id row =? court_id)%Z && (row_month row =? month)%Z
  && (row_year row =? year)%Z.

#[export] Instance MemoryDb_Database (N : Type) : Database N := {|
  db_state := MemoryDb N;
  fetchrow_court d court_name :=
    Ok (List.find (fun c => String.eqb (c_name c) court_name) (courts d));
  fetchval_exists d court_id month year :=
    Ok (existsb (same_key court_id month year) (court_monthly_data d));
  execute_insert d row :=
    if existsb (same_key (row_court_id row) (row_month row) (row_year row))
               (court_monthly_data d)
    then Raise (DatabaseError "duplicate key value violates unique constraint")
    else Ok {| courts := courts d;
               court_monthly_data := court_monthly_data d ++ [row] |}
|}.

(** ** The walk-through of example.py *)

(** "FTSC Attingal - Thiruvananthapuram (ID: 1)" *)
Definition attingal : Court :=
  {| c_id := 1;
     c_name := "FTSC Attingal";
     c_type := "FTSC";
     c_district_name := "Thiruvananthapuram" |}.

Definition example_db : MemoryDb float :=
  {| courts := [attingal]; court_monthly_data := [] |}.

Definition start_world : World :=
  {| partial_data_store := ∅; db := example_db; db_calls := [] |}.

Definition example_step1 : ToolCall :=
  Step1 "FTSC Attingal" 1 2025 50%float 30%float 5%float 3%float 4%float 2%float.

Definition example_step2 : ToolCall :=
  Step2 "FTSC Attingal" 1 2025
        10%float 5%float 15%float 10%float 20%float 12%float 6%float 4%float
        1%float 1%float 2%float 1%float 1%float 0%float.

Definition example_step3 : ToolCall :=
  Step3 "FTSC Attingal" 1 2025
        3%float 2%float 3%float 2%float 6%float 4%float 2%float 1%float.

(** The database once the three steps have run: it holds the committed
    record of FTSC Attingal for 1/2025. *)
Definition committed_db : MemoryDb float :=
  db (run example_step3 (run example_step2 (run example_step1 start_world).2).2).2.

(** The same database seen from a server whose own store is [store]: the
    record was committed by another client. *)
Definition with_committed_db (w : World) : World :=
  {| partial_data_store := partial_data_store w;
     db := committed_db;
     db_calls := db_calls w |}.

(** ** Comparing the integers of a number type *)

(** On the integers it computes exactly on, a number type compares as the
    integers do. *)
Class OrderedOnIntegers (N : Type) `{ExactOnIntegers N} : Type := {
  zero_of_int : zero (N:=N) = of_int 0;
  eqb_of_int : forall a b : Z,
    in_range (N:=N) a -> in_range (N:=N) b ->
    eqb (N:=N) (of_int a) (of_int b) = (a =? b)%Z;
  gtb_of_int : forall a b : Z,
    in_range (N:=N) a -> in_range (N:=N) b ->
    gtb (N:=N) (of_int a) (of_int b) = (a >? b)%Z;
  leb_of_int : forall a b : Z,
    in_range (N:=N) a -> in_range (N:=N) b ->
    leb (N:=N) (of_int a) (of_int b) = (a <=? b)%Z
}.

(** ** db.py: the statements built at run time *)

(** A positional argument of [db.fetch]: the filters of the two views are
    strings and [int]s. *)
Inductive SqlParam : Type :=
| ParamStr (s : string)
| ParamInt (z : Z).

(** [if s:] on a [str]: the empty string is false. *)
Definition str_truth (s : string) : bool :=
  match s with
  | EmptyString => false
  | String _ _ => true
  end.

(** [if z:] on an [int]: zero is false. *)
Definition int_truth (z : Z) : bool := negb (z =? 0)%Z.

(** [query_ftsc_summary], up to its last line: the statement and the
    parameters it hands to [db.fetch(query, *params)]. *)
Definition query_ftsc_summary
    (district_name : option string) (month year : option Z)
  : string * list SqlParam :=
  let query := "SELECT * FROM ftsc_district_summary WHERE 1=1" in
  let params := [] in
  let param_count := 1%Z in
  let '(query, params, param_count) :=
    match district_name with
    | Some district_name =>
        if str_truth district_name
        then (query +:+ " AND district_name = $" +:+ pretty param_count,
              params ++ [ParamStr district_name],
              (param_count + 1)%Z)
        else (query, params, param_count)
    | None => (query, params, param_count)
    end in
  let '(query, params, param_count) :=
    match month with
    | Some month =>
        if int_truth month
        then (query +:+ " AND month = $" +:+ pretty param_count,
              params ++ [ParamInt month],
              (param_count + 1)%Z)
        else (query, params, param_count)
    | None => (query, params, param_count)
    end in
  let '(query, params, param_count) :=
    match year with
    | Some year =>
        if int_truth year
        then (query +:+ " AND year = $" +:+ pretty param_count,
              params ++ [ParamInt year],
              (param_count + 1)%Z)
        else (query, params, param_count)
    | None => (query, params, param_count)
    end in
  let query := query +:+ " ORDER BY display_order, year, month" in
  (query, params).

(** [query_spc_data], up to its last line. *)
Definition query_spc_data
    (court_name district_name : option string) (month year : option Z)
  : string * list SqlParam :=
  let query := "SELECT * FROM spc_court_data WHERE 1=1" in
  let params := [] in
  let param_count := 1%Z in
  let '(query, params, param_count) :=
    match court_name with
    | Some court_name =>
        if str_truth court_name
        then (query +:+ " AND court_name = $" +:+ pretty param_count,
              params ++ [ParamStr court_name],
              (param_count + 1)%Z)
        else (query, params, param_count)
    | None => (query, params, param_count)
    end in
  let '(query, params, param_count) :=
    match district_name with
    | Some district_name =>
        if str_truth district_name
        then (query +:+ " AND district_name = $" +:+ pretty param_count,
              params ++ [ParamStr district_name],
              (param_count + 1)%Z)
        else (query, params, param_count)
    | None => (query, params, param_count)
    end in
  let '(query, params, param_count) :=
    match month with
    | Some month =>
        if int_truth month
        then (query +:+ " AND month = $" +:+ pretty param_count,
              params ++ [ParamInt month],
              (param_count + 1)%Z)
        else (query, params, param_count)
    | None => (query, params, param_count)
    end in
  let '(query, params, param_count) :=
    match year with
    | Some year =>
        if int_truth year
        then (query +:+ " AND year = $" +:+ pretty param_count,
              params ++ [ParamInt year],
              (param_count + 1)%Z)
        else (query, params, param_count)
    | None => (query, params, param_count)
    end in
  let query := query +:+ " ORDER BY display_order, court_name, year, month" in
  (query, params).

(** [if value:] on an optional argument. *)
Definition opt_str_truth (value : option string) : bool :=
  from_option str_truth false value.

Definition opt_int_truth (value : option Z) : bool :=
  from_option int_truth false value.

(** The filters a call leaves in: an argument that is [None], the empty
    string or zero is dropped. *)
Definition given_str (column : string) (value : option string)
  : list (string * SqlParam) :=
  match value with
  | Some s => if str_truth s then [(column, ParamStr s)] else []
  | None => []
  end.

Definition given_int (column : string) (value : option Z)
  : list (string * SqlParam) :=
  match value with
  | Some z => if int_truth z then [(column, ParamInt z)] else []
  | None => []
  end.

(** [" AND c1 = $k AND c2 = $k+1 ..."]: one comparison per column, the
    placeholders numbered upwards from [k]. *)
Fixpoint numbered_filters (columns : list string) (k : Z) : string :=
  match columns with
  | [] => EmptyString
  | column :: columns =>
      " AND " +:+ column +:+ " = $" +:+ pretty k
      +:+ numbered_filters columns (k + 1)
  end.

(** The placeholders of a statement, in the order they occur: the number that
    follows each dollar sign. *)
Definition is_digit (a : ascii) : bool :=
  (48 <=? nat_of_ascii a)%nat && (nat_of_ascii a <=? 57)%nat.

Fixpoint read_number (s : string) (acc : Z) : Z :=
  match s with
  | String a s' =>
      if is_digit a
      then read_number s' (10 * acc + (Z.of_nat (nat_of_ascii a) - 48))%Z
      else acc
  | EmptyString => acc
  end.

Fixpoint placeholders (s : string) : list Z :=
  match s with
  | EmptyString => []
  | String a s' =>
      if Ascii.eqb a "$"%char
      then read_number s' 0 :: placeholders s'
      else placeholders s'
  end.

(** ** db.py and server.py: looking up and deleting committed data *)

(** The [DELETE] of [delete_court_monthly_data], the one statement of these
    tools that the data-entry workflow does not send. *)
Class DatabaseDelete (N : Type) `{Database N} : Type := {
  (* DELETE FROM court_monthly_data
     WHERE court_id = $1 AND month = $2 AND year = $3 *)
  execute_delete : db_state -> Z -> Z -> Z -> result Exception db_state
}.

(** What [get_court_info], [check_data_exists] and [delete_monthly_data]
    return: one constructor per message, with the values it interpolates. *)
Inductive Reply (N : Type) : Type :=
(* a message worded as in the data-entry tools:
   "Error: Court '{court_name}' not found", "Error: {e}" *)
| StepReply (r : Response N)
(* "Error: {e}" for a [ValidationError], which [except Exception] catches
   like any other exception *)
| ValidationErrorAsError (e : ValidationError N)
(* get_court_info: "Court '{court_name}' not found. Use list_ftsc() or
   list_spc() to see available courts." *)
| CourtInfoNotFound (court_name : string)
(* get_court_info: "Court: {name}\nType: {type}\nDistrict: {district_name}\n
   Court ID: {id}" *)
| CourtInfo (court : Court)
(* check_data_exists: "Court '{court_name}' not found" *)
| CheckCourtNotFound (court_name : string)
(* "✓ Data EXISTS for {court_name} - {month}/{year}" *)
| DataExists (court_name : string) (month year : Z)
(* "✗ No data found for {court_name} - {month}/{year}" *)
| NoDataFound (court_name : string) (month year : Z)
(* delete_monthly_data: "No data found to delete for {court_name} -
   {month}/{year}" *)
| NoDataToDelete (court_name : string) (month year : Z)
(* "✓ Deleted data for {court_name} - {month}/{year}" *)
| DeletedData (court_name : string) (month year : Z).
Arguments StepReply {N} r.
Arguments ValidationErrorAsError {N} e.
Arguments CourtInfoNotFound {N} court_name.
Arguments CourtInfo {N} court.
Arguments CheckCourtNotFound {N} court_name.
Arguments DataExists {N} court_name month year.
Arguments NoDataFound {N} court_name month year.
Arguments NoDataToDelete {N} court_name month year.
Arguments DeletedData {N} court_name month year.

Section OtherTools.
Context {N : Type} `{PyNum N} `{Database N} `{!DatabaseDelete N}.

(** The server as these tools see it: the world of the data-entry tools and,
    since [db_calls] has no place for them, the [DELETE]s sent so far, oldest
    first, each with its court id, month and year. *)
Record Server : Type := {
  world : World;
  delete_calls : list (Z * Z * Z)
}.

(** A fragment of a [try] block of these tools. *)
Definition Tool (A : Type) : Type := Server -> (@Exit N + A) * Server.

#[local] Instance Tool_ret : MRet Tool := fun A a s => (inr a, s).
#[local] Instance Tool_bind : MBind Tool := fun A B k m s =>
  match m s with
  | (inl x, s') => (inl x, s')
  | (inr a, s') => k a s'
  end.

(** A fragment of the data-entry tools, run on the world of the server. *)
Definition on_world {A} (m : Body A) : Tool A := fun s =>
  let '(x, w') := m (world s) in
  (x, {| world := w'; delete_calls := delete_calls s |}).

Definition delete_court_monthly_data (court_id month year : Z) : Tool unit :=
  fun s =>
    let calls := delete_calls s ++ [(court_id, month, year)] in
    match execute_delete (db (world s)) court_id month year with
    | Ok d' =>
        (inr tt,
         {| world := {| partial_data_store := partial_data_store (world s);
                        db := d';
                        db_calls := db_calls (world s) |};
            delete_calls := calls |})
    | Raise e =>
        (inl (RaiseException e), {| world := world s; delete_calls := calls |})
    end.

(** [try: ... except Exception as e: return f"Error: {str(e)}"] *)
Definition try_except_Exception (body : Tool (Reply N)) (s : Server)
  : Reply N * Server :=
  match body s with
  | (inr r, s') => (r, s')
  | (inl (Return r), s') => (StepReply r, s')
  | (inl (RaiseValidationError e), s') => (ValidationErrorAsError e, s')
  | (inl (RaiseException e), s') => (StepReply (ErrorResponse e), s')
  end.

Definition get_court_info (court_name : string) : Server -> Reply N * Server :=
  try_except_Exception (
    court ← on_world (get_court_by_name court_name);
    match court with
    | None => mret (CourtInfoNotFound court_name)
    | Some court => mret (CourtInfo court)
    end).

Definition check_data_exists (court_name : string) (month year : Z)
  : Server -> Reply N * Server :=
  try_except_Exception (
    court ← on_world (get_court_by_name court_name);
    match court with
    | None => mret (CheckCourtNotFound court_name)
    | Some court =>
      exists_ ← on_world (check_existing_data (c_id court) month year);
      if (exists_ : bool)
      then mret (DataExists court_name month year)
      else mret (NoDataFound court_name month year)
    end).

Definition delete_monthly_data (court_name : string) (month year : Z)
  : Server -> Reply N * Server :=
  try_except_Exception (
    court ← on_world (get_court_by_name court_name);
    match court with
    | None => on_world (return_ (CourtNotFound court_name))
    | Some court =>
      (* Check if data exists *)
      exists_ ← on_world (check_existing_data (c_id court) month year);
      if negb exists_
      then mret (NoDataToDelete court_name month year)
      else
      (* Delete *)
      _ ← delete_court_monthly_data (c_id court) month year;
      mret (DeletedData court_name month year)
    end).

End OtherTools.

(** Modelled from the spec: [deleteRecord] on the tables of [MemoryDb]
    removes the committed record of the key, if there is one. *)
#[export] Instance MemoryDb_DatabaseDelete (N : Type) : DatabaseDelete N := {|
  execute_delete d court_id month year :=
    Ok {| courts := courts d;
          court_monthly_data :=
            List.filter (fun row => negb (same_key court_id month year row))
                        (court_monthly_data d) |}
|}.

(** The example server before any call, and once the three steps of the
    walk-through have committed their record. *)
Definition start_server : Server :=
  {| world := start_world; delete_calls := [] |}.

Definition committed_server : Server :=
  {| world := with_committed_db start_world; delete_calls := [] |}.

(** ** What a committed row must satisfy *)

Section Consistency.
Context {N : Type} `{PyNum N}.
Local Open Scope py_scope.

(** The relations of the data model between the fields of a row, in the
    arithmetic and with the comparisons of the validators: what
    [validate_basic_metrics] computes and checks, ... *)
Definition basic_consistent (b : BasicMetrics N) : Prop :=
  pending_rape b = balance_rape b + new_rape b - disposed_rape b
  /\ pending_pocso b = balance_pocso b + new_pocso b - disposed_pocso b
  /\ balance_total b = balance_rape b + balance_pocso b
  /\ new_total b = new_rape b + new_pocso b
  /\ disposed_total b = disposed_rape b + disposed_pocso b
  /\ pending_total b = pending_rape b + pending_pocso b
  /\ (pending_total b == balance_total b + new_total b - disposed_total b) = true.

(** ... what [validate_age_breakdowns] computes and checks against the
    pending and disposed counts of step 1, ... *)
Definition age_consistent (b : BasicMetrics N) (a : AgeBreakdowns N) : Prop :=
  total_pendency_rape a
  = pending_less_2m_rape a + pending_2_12m_rape a
    + pending_12m_5y_rape a + pending_beyond_5y_rape a
  /\ total_pendency_pocso a
     = pending_less_2m_pocso a + pending_2_12m_pocso a
       + pending_12m_5y_pocso a + pending_beyond_5y_pocso a
  /\ total_disposal_rape a
     = disposal_within_2m_rape a + disposal_2_12m_rape a
       + disposal_beyond_12m_rape a
  /\ total_disposal_pocso a
     = disposal_within_2m_pocso a + disposal_2_12m_pocso a
       + disposal_beyond_12m_pocso a
  /\ (total_pendency_rape a == pending_rape b) = true
  /\ (total_pendency_pocso a == pending_pocso b) = true
  /\ (total_disposal_rape a == disposed_rape b) = true
  /\ (total_disposal_pocso a == disposed_pocso b) = true.

(** ... and what [validate_additional_metrics] checks against them and
    computes. *)
Definition additional_consistent (b : BasicMetrics N) (x : AdditionalMetrics N)
  : Prop :=
  (contested_rape x > disposed_rape b) = false
  /\ (contested_pocso x > disposed_pocso b) = false
  /\ (disposal_5y_rape x > disposed_rape b) = false
  /\ (disposal_5y_pocso x > disposed_pocso b) = false
  /\ (pending_over_5y_rape x > pending_rape b) = false
  /\ (pending_over_5y_pocso x > pending_pocso b) = false
  /\ contested_total x = contested_rape x + contested_pocso x
  /\ disposal_5y_total x = disposal_5y_rape x + disposal_5y_pocso x
  /\ pending_over_5y_total x = pending_over_5y_rape x + pending_over_5y_pocso x.

Definition row_consistent (row : Row N) : Prop :=
  period_in_bounds (row_month row) (row_year row)
  /\ basic_consistent (row_basic row)
  /\ age_consistent (row_basic row) (row_age row)
  /\ additional_consistent (row_basic row) (row_additional row).

End Consistency.

(** ** The server over time *)

Section ServerRuns.
Context {N : Type} `{PyNum N} `{Database N} `{!DatabaseDelete N}.

(** What holds of the world in every state of the server: the entries of the
    store are well formed and hold counts that the validators accepted, and
    every [INSERT] sent carried a consistent row. *)
Definition entry_consistent (entry : PartialData N) : Prop :=
  basic_consistent (calculated entry)
  /\ forall age, age_data entry = Some age ->
                 age_consistent (calculated entry) age.

Definition call_consistent (c : DbCall N) : Prop :=
  match c with
  | InsertRow row => row_consistent row
  | _ => True
  end.

Definition world_consistent (w : World) : Prop :=
  store_wf (partial_data_store w)
  /\ (forall key entry,
        partial_data_store w !! key = Some entry -> entry_consistent entry)
  /\ Forall call_consistent (db_calls w).

(** A call of one of the six tools modelled. *)
Inductive Call : Type :=
| DataEntry (t : @ToolCall N)
| GetCourtInfo (court_name : string)
| CheckDataExists (court_name : string) (month year : Z)
| DeleteMonthlyData (court_name : string) (month year : Z).

(** The state a call leaves the server in. *)
Definition serve (c : Call) (s : Server) : Server :=
  match c with
  | DataEntry t =>
      {| world := (run t (world s)).2; delete_calls := delete_calls s |}
  | GetCourtInfo court_name => (get_court_info court_name s).2
  | CheckDataExists court_name month year =>
      (check_data_exists court_name month year s).2
  | DeleteMonthlyData court_name month year =>
      (delete_monthly_data court_name month year s).2
  end.

(** The states the server can be in: it starts with an empty store and
    nothing sent; every call moves it on; and the database, which other
    clients write to as well, may change between two calls. *)
Inductive server_reachable : Server -> Prop :=
| server_start (d : db_state) :
    server_reachable
      {| world := {| partial_data_store := ∅; db := d; db_calls := [] |};
         delete_calls := [] |}
| server_serve (c : Call) (s : Server) :
    server_reachable s -> server_reachable (serve c s)
| server_db (d : db_state) (s : Server) :
    server_reachable s ->
    server_reachable
      {| world := {| partial_data_store := partial_data_store (world s);
                     db := d;
                     db_calls := db_calls (world s) |};
         delete_calls := delete_calls s |}.

End ServerRuns.

(** * Properties *)

(** ** The two number types *)

#[export] Instance PyOrder_int : PyOrder Z.
Proof.
  intros a b; cbn; intros Hle.
  apply Z.leb_le in Hle. rewrite Z.gtb_ltb. apply Z.ltb_ge. exact Hle.
Qed.

(** Swapping the operands of a binary64 comparison reverses its outcome. *)
Lemma SFcompare_swap (x y : spec_float) :
  SFcompare y x = option_map CompOpp (SFcompare x y).
Proof.
  destruct x as [sx|sx| |sx mx ex], y as [sy|sy| |sy my ey]; cbn;
    try reflexivity;
    try (destruct sx; reflexivity); try (destruct sy; reflexivity);
    try (destruct sx, sy; reflexivity).
  f_equal. rewrite (Z.compare_antisym ex ey).
  destruct sx, sy; cbn; try reflexivity;
    destruct (ex ?= ey)%Z; cbn; try reflexivity.
  - rewrite (ZC4 mx my), CompOpp_involutive. reflexivity.
  - apply ZC4.
Qed.

#[export] Instance PyOrder_float : PyOrder float.
Proof.
  intros a b; cbn. rewrite leb_spec, ltb_spec. unfold SFleb, SFltb.
  rewrite (SFcompare_swap (Prim2SF a) (Prim2SF b)).
  destruct (SFcompare (Prim2SF a) (Prim2SF b)) as [[]|]; cbn; congruence.
Qed.

(** ** Integers as binary64 floats

    Below [2^53] the floats hold the integers exactly, and their sums and
    differences are exact as long as they stay below [2^53]. *)

Lemma mantissa_digits_pow2_mul n m : mantissa_digits (pow2_mul n m) = mantissa_digits m + n.
Proof.
  unfold mantissa_digits. induction n as [|n IH]; cbn [pow2_mul digits2_pos].
  - lia.
  - rewrite Pos2Nat.inj_succ, IH. lia.
Qed.

Lemma Zdigits_pow2_mul n m :
  Zpos (digits2_pos (pow2_mul n m)) = (Z.of_nat (mantissa_digits m) + Z.of_nat n)%Z.
Proof.
  pose proof (mantissa_digits_pow2_mul n m) as Hd. unfold mantissa_digits in *. lia.
Qed.

Lemma iter_pos_nat {A} (f : A -> A) (p : positive) (x : A) :
  SpecFloat.iter_pos f p x = Nat.iter (Pos.to_nat p) f x.
Proof.
  revert x. induction p as [p IH|p IH|]; intros x; cbn [SpecFloat.iter_pos].
  - rewrite !IH, Pos2Nat.inj_xI.
    replace (S (2 * Pos.to_nat p)) with (Pos.to_nat p + (Pos.to_nat p + 1)) by lia.
    rewrite !Nat.iter_add. reflexivity.
  - rewrite !IH, Pos2Nat.inj_xO.
    replace (2 * Pos.to_nat p) with (Pos.to_nat p + Pos.to_nat p) by lia.
    rewrite Nat.iter_add. reflexivity.
  - reflexivity.
Qed.

Lemma pos_iter_xO m p : Pos.iter xO m p = pow2_mul (Pos.to_nat p) m.
Proof.
  rewrite Pos2Nat.inj_iter. induction (Pos.to_nat p) as [|n IH]; cbn; congruence.
Qed.

Lemma pow2_mul_add a b m : pow2_mul (a + b) m = pow2_mul a (pow2_mul b m).
Proof. induction a as [|a IH]; cbn; congruence. Qed.

Lemma shr_pow2_mul n m :
  Nat.iter n shr_1 {| shr_m := Zpos (pow2_mul n m); shr_r := false; shr_s := false |}
  = {| shr_m := Zpos m; shr_r := false; shr_s := false |}.
Proof.
  induction n as [|n IH]; [reflexivity|].
  rewrite Nat.iter_succ_r. cbn [pow2_mul shr_1 orb]. exact IH.
Qed.

Lemma Zpos_pow2_mul n m : Zpos (pow2_mul n m) = (Zpos m * 2 ^ Z.of_nat n)%Z.
Proof.
  induction n as [|n IH]; cbn [pow2_mul].
  - cbn. lia.
  - rewrite Pos2Z.inj_xO, IH, Nat2Z.inj_succ, Z.pow_succ_r by lia. lia.
Qed.

Lemma fexp_small (d : Z) :
  (-1000 <= d)%Z -> fexp prec emax d = (d - 53)%Z.
Proof. intros Hd. unfold fexp, SpecFloat.emin, prec, emax. lia. Qed.

Lemma shr_exact (m : positive) (n : nat) (e : Z) :
  shr (shr_record_of_loc (Zpos (pow2_mul n m)) loc_Exact) e (Z.of_nat n)
  = ({| shr_m := Zpos m; shr_r := false; shr_s := false |}, (e + Z.of_nat n)%Z).
Proof.
  destruct n as [|n].
  - change (Z.of_nat 0) with 0%Z. unfold shr, pow2_mul, shr_record_of_loc.
    f_equal. lia.
  - change (Z.of_nat (S n)) with (Zpos (Pos.of_succ_nat n)).
    unfold shr, shr_record_of_loc.
    rewrite iter_pos_nat, SuccNat2Pos.id_succ, shr_pow2_mul. reflexivity.
Qed.

(** A mantissa of 53 bits followed by [n] zero bits rounds to itself. *)
Lemma binary_round_aux_pow2_mul s m n e :
  mantissa_digits m = 53 -> (-1000 <= e <= 971)%Z ->
  binary_round_aux prec emax s (Zpos (pow2_mul n m)) (e - Z.of_nat n) loc_Exact
  = S754_finite s m e.
Proof.
  intros Hd He. unfold binary_round_aux, shr_fexp. cbn [Zdigits2].
  rewrite Zdigits_pow2_mul, Hd.
  rewrite fexp_small by lia.
  replace (Z.of_nat 53 + Z.of_nat n + (e - Z.of_nat n) - 53 - (e - Z.of_nat n))%Z
    with (Z.of_nat n) by lia.
  rewrite shr_exact. cbn [shr_m loc_of_shr_record round_nearest_even Zdigits2].
  replace (e - Z.of_nat n + Z.of_nat n)%Z with e by lia.
  replace (Zpos (digits2_pos m)) with 53%Z by (unfold mantissa_digits in Hd; lia).
  rewrite fexp_small by lia.
  replace (53 + e - 53 - e)%Z with (Z.of_nat 0) by lia.
  change (Zpos m) with (Zpos (pow2_mul 0 m)) at 1.
  rewrite shr_exact. cbn [shr_m].
  replace (e + Z.of_nat 0)%Z with e by lia.
  replace (e <=? emax - prec)%Z with true; [reflexivity|].
  symmetry. apply Z.leb_le. unfold emax, prec. lia.
Qed.

(** Rounding [m * 2^k] at exponent [-k], for [m] of at most 53 bits, yields
    the canonical_float float of [m]: nothing is lost. *)
Lemma binary_round_pow2_mul s m k :
  mantissa_digits m <= 53 -> k <= 1000 ->
  binary_round prec emax s (pow2_mul k m) (- Z.of_nat k) = canonical_float s m.
Proof.
  intros Hd Hk. unfold binary_round, shl_align.
  rewrite Zdigits_pow2_mul.
  replace (Z.of_nat (mantissa_digits m) + Z.of_nat k + - Z.of_nat k)%Z
    with (Z.of_nat (mantissa_digits m)) by lia.
  rewrite fexp_small by lia.
  assert (1 <= mantissa_digits m) as Hd1 by (unfold mantissa_digits; lia).
  assert (mantissa_digits (pow2_mul (53 - mantissa_digits m) m) = 53) as Hcanon
    by (rewrite mantissa_digits_pow2_mul; lia).
  unfold canonical_float.
  destruct (Z.of_nat (mantissa_digits m) - 53 - - Z.of_nat k)%Z as [|q|q] eqn:Hq.
  - (* exactly 53 bits already *)
    replace k with (53 - mantissa_digits m) by lia.
    replace (- Z.of_nat (53 - mantissa_digits m))%Z
      with (Z.of_nat (mantissa_digits m) - 53 - Z.of_nat 0)%Z by lia.
    change (pow2_mul (53 - mantissa_digits m) m)
      with (pow2_mul 0 (pow2_mul (53 - mantissa_digits m) m)) at 1.
    apply binary_round_aux_pow2_mul; [exact Hcanon | lia].
  - (* more than 53 bits: the low zero bits are shifted out *)
    replace k with (Pos.to_nat q + (53 - mantissa_digits m)) at 1 by lia.
    rewrite pow2_mul_add.
    replace (- Z.of_nat k)%Z
      with (Z.of_nat (mantissa_digits m) - 53 - Z.of_nat (Pos.to_nat q))%Z by lia.
    apply binary_round_aux_pow2_mul; [exact Hcanon | lia].
  - (* fewer than 53 bits: the mantissa is shifted left *)
    rewrite pos_iter_xO, <- pow2_mul_add.
    replace (Pos.to_nat q + k) with (53 - mantissa_digits m) by lia.
    replace (Z.of_nat (mantissa_digits m) - 53)%Z
      with (Z.of_nat (mantissa_digits m) - 53 - Z.of_nat 0)%Z at 1 by lia.
    change (pow2_mul (53 - mantissa_digits m) m)
      with (pow2_mul 0 (pow2_mul (53 - mantissa_digits m) m)) at 1.
    apply binary_round_aux_pow2_mul; [exact Hcanon | lia].
Qed.


Lemma digits2_pos_size m : digits2_pos m = Pos.size m.
Proof. induction m as [m IH|m IH|]; cbn; congruence. Qed.

Lemma digits_le (m : positive) (n : nat) :
  (Zpos m < 2 ^ Z.of_nat n)%Z -> mantissa_digits m <= n.
Proof.
  intros Hm. unfold mantissa_digits. rewrite digits2_pos_size.
  pose proof (Pos.size_le m) as Hsize.
  apply Pos2Z.pos_le_pos in Hsize.
  rewrite Pos2Z.inj_pow in Hsize.
  change (Zpos m~0) with (2 * Zpos m)%Z in Hsize.
  assert (2 ^ Zpos (Pos.size m) < 2 ^ (Z.of_nat n + 1))%Z as Hlt.
  { rewrite Z.pow_add_r, Z.pow_1_r by lia. lia. }
  apply (Z.pow_lt_mono_r_iff 2) in Hlt; [|lia|lia]. lia.
Qed.


Lemma SFofZ_canonical (z : Z) :
  z <> 0%Z -> (Z.abs z < 2 ^ 53)%Z ->
  SFofZ z = canonical_float (Zsign z) (Z.to_pos (Z.abs z)).
Proof.
  intros Hz Hlt. unfold SFofZ, binary_normalize.
  destruct z as [|m|m]; [contradiction| |]; cbn [Zsign Z.ltb Z.compare Z.abs Z.to_pos];
    apply (binary_round_pow2_mul _ m 0); try lia;
    apply (digits_le m 53); exact Hlt.
Qed.

(** Scaling an integer below [2^53] by a power of two and rounding at the
    opposite exponent gives the float of the integer. *)
Lemma binary_normalize_scaled (z : Z) (k : nat) :
  (Z.abs z < 2 ^ 53)%Z -> k <= 1000 ->
  binary_normalize prec emax (z * 2 ^ Z.of_nat k) (- Z.of_nat k) false = SFofZ z.
Proof.
  intros Hlt Hk. unfold SFofZ.
  destruct z as [|m|m]; [reflexivity| |].
  - rewrite <- Zpos_pow2_mul. unfold binary_normalize.
    rewrite binary_round_pow2_mul by (try apply (digits_le m 53); lia).
    symmetry. apply (binary_round_pow2_mul _ m 0); try lia.
    apply (digits_le m 53); exact Hlt.
  - change (Zneg m) with (- Zpos m)%Z at 1.
    rewrite Z.mul_opp_l, <- Zpos_pow2_mul.
    change (- Zpos (pow2_mul k m))%Z with (Zneg (pow2_mul k m)).
    unfold binary_normalize.
    rewrite binary_round_pow2_mul by (try apply (digits_le m 53); lia).
    symmetry. apply (binary_round_pow2_mul _ m 0); try lia.
    apply (digits_le m 53); exact Hlt.
Qed.

Lemma shl_align_fst (m : positive) (e e' : Z) :
  (e' <= e)%Z ->
  fst (shl_align m e e') = pow2_mul (Z.to_nat (e - e')) m.
Proof.
  intros Hle. unfold shl_align.
  destruct (e' - e)%Z as [|d|d] eqn:Hd; cbn [fst].
  - replace (e - e')%Z with 0%Z by lia. reflexivity.
  - lia.
  - rewrite pos_iter_xO. f_equal. lia.
Qed.

Lemma cond_Zopp_Zsign (z : Z) :
  z <> 0%Z -> cond_Zopp (Zsign z) (Zpos (Z.to_pos (Z.abs z))) = z.
Proof. intros Hz. destruct z; [congruence | reflexivity | reflexivity]. Qed.

(** Adding or subtracting the aligned mantissas of two canonical_float floats and
    rounding gives the float of the sum or difference of their integers. *)
Lemma normalize_aligned (op : Z -> Z -> Z) (a b : Z) :
  (forall x y c, op (x * c) (y * c) = op x y * c)%Z ->
  a <> 0%Z -> b <> 0%Z ->
  (Z.abs a < 2 ^ 53)%Z -> (Z.abs b < 2 ^ 53)%Z -> (Z.abs (op a b) < 2 ^ 53)%Z ->
  let ma := pow2_mul (53 - mantissa_digits (Z.to_pos (Z.abs a))) (Z.to_pos (Z.abs a)) in
  let ea := (Z.of_nat (mantissa_digits (Z.to_pos (Z.abs a))) - 53)%Z in
  let mb := pow2_mul (53 - mantissa_digits (Z.to_pos (Z.abs b))) (Z.to_pos (Z.abs b)) in
  let eb := (Z.of_nat (mantissa_digits (Z.to_pos (Z.abs b))) - 53)%Z in
  let ez := Z.min ea eb in
  binary_normalize prec emax
    (op (cond_Zopp (Zsign a) (Zpos (fst (shl_align ma ea ez))))
        (cond_Zopp (Zsign b) (Zpos (fst (shl_align mb eb ez)))))
    ez false
  = SFofZ (op a b).
Proof.
  intros Hop Ha Hb Hla Hlb Hlab ma ea mb eb ez.
  assert (mantissa_digits (Z.to_pos (Z.abs a)) <= 53) as Hda
    by (apply digits_le; destruct a; cbn in *; lia).
  assert (mantissa_digits (Z.to_pos (Z.abs b)) <= 53) as Hdb
    by (apply digits_le; destruct b; cbn in *; lia).
  assert (1 <= mantissa_digits (Z.to_pos (Z.abs a))) as Hda1 by (unfold mantissa_digits; lia).
  assert (1 <= mantissa_digits (Z.to_pos (Z.abs b))) as Hdb1 by (unfold mantissa_digits; lia).
  rewrite !shl_align_fst by (subst ez; lia).
  subst ma mb. rewrite <- !pow2_mul_add.
  set (k := Z.to_nat (- ez)).
  replace (Z.to_nat (ea - ez) + (53 - mantissa_digits (Z.to_pos (Z.abs a)))) with k
    by (subst k ea ez eb; lia).
  replace (Z.to_nat (eb - ez) + (53 - mantissa_digits (Z.to_pos (Z.abs b)))) with k
    by (subst k ea ez eb; lia).
  rewrite !Zpos_pow2_mul.
  assert (forall s x c, cond_Zopp s (x * c) = cond_Zopp s x * c)%Z as Hcond
    by (intros [] x c; cbn; lia).
  rewrite !Hcond, !cond_Zopp_Zsign, Hop by assumption.
  replace ez with (- Z.of_nat k)%Z by (subst k ea ez eb; lia).
  apply binary_normalize_scaled; [exact Hlab | subst k ea ez eb; lia].
Qed.

Lemma SFofZ_add (a b : Z) :
  (Z.abs a < 2 ^ 53)%Z -> (Z.abs b < 2 ^ 53)%Z -> (Z.abs (a + b) < 2 ^ 53)%Z ->
  SF64add (SFofZ a) (SFofZ b) = SFofZ (a + b).
Proof.
  intros Hla Hlb Hlab.
  destruct (Z.eq_dec a 0%Z) as [->|Ha]; destruct (Z.eq_dec b 0%Z) as [->|Hb].
  - reflexivity.
  - rewrite Z.add_0_l, (SFofZ_canonical b) by assumption. reflexivity.
  - rewrite Z.add_0_r, (SFofZ_canonical a) by assumption. reflexivity.
  - rewrite (SFofZ_canonical a), (SFofZ_canonical b) by assumption.
    unfold canonical_float, SF64add, SFadd.
    apply (normalize_aligned Z.add); try assumption. intros; lia.
Qed.

Lemma SFofZ_sub (a b : Z) :
  (Z.abs a < 2 ^ 53)%Z -> (Z.abs b < 2 ^ 53)%Z -> (Z.abs (a - b) < 2 ^ 53)%Z ->
  SF64sub (SFofZ a) (SFofZ b) = SFofZ (a - b).
Proof.
  intros Hla Hlb Hlab.
  destruct (Z.eq_dec a 0%Z) as [->|Ha]; destruct (Z.eq_dec b 0%Z) as [->|Hb].
  - reflexivity.
  - rewrite Z.sub_0_l, (SFofZ_canonical b), (SFofZ_canonical (- b)) by lia.
    cbn. rewrite Z.abs_opp. destruct b; try contradiction; reflexivity.
  - rewrite Z.sub_0_r, (SFofZ_canonical a) by assumption. reflexivity.
  - rewrite (SFofZ_canonical a), (SFofZ_canonical b) by assumption.
    unfold canonical_float, SF64sub, SFsub.
    apply (normalize_aligned Z.sub); try assumption. intros; lia.
Qed.

Lemma SFofZ_valid (z : Z) :
  (Z.abs z < 2 ^ 53)%Z -> valid_binary (SFofZ z) = true.
Proof.
  intros Hlt. destruct (Z.eq_dec z 0%Z) as [->|Hz]; [reflexivity|].
  rewrite SFofZ_canonical by assumption.
  assert (mantissa_digits (Z.to_pos (Z.abs z)) <= 53) as Hd
    by (apply digits_le; destruct z; cbn in *; lia).
  assert (1 <= mantissa_digits (Z.to_pos (Z.abs z))) as Hd1 by (unfold mantissa_digits; lia).
  unfold canonical_float, SpecFloat.valid_binary, bounded, canonical_mantissa.
  rewrite Zdigits_pow2_mul, fexp_small by lia.
  apply andb_true_intro. split.
  - apply Z.eqb_eq. lia.
  - apply Z.leb_le. unfold emax, prec. lia.
Qed.


Lemma Prim2SF_float_of_Z (z : Z) :
  (Z.abs z < 2 ^ 53)%Z -> Prim2SF (float_of_Z z) = SFofZ z.
Proof. intros Hlt. apply Prim2SF_SF2Prim, SFofZ_valid, Hlt. Qed.

Lemma float_of_Z_add (a b : Z) :
  (Z.abs a < 2 ^ 53)%Z -> (Z.abs b < 2 ^ 53)%Z -> (Z.abs (a + b) < 2 ^ 53)%Z ->
  (float_of_Z a + float_of_Z b)%float = float_of_Z (a + b).
Proof.
  intros Hla Hlb Hlab. apply Prim2SF_inj.
  rewrite FloatAxioms.add_spec, !Prim2SF_float_of_Z by assumption.
  apply SFofZ_add; assumption.
Qed.

Lemma float_of_Z_sub (a b : Z) :
  (Z.abs a < 2 ^ 53)%Z -> (Z.abs b < 2 ^ 53)%Z -> (Z.abs (a - b) < 2 ^ 53)%Z ->
  (float_of_Z a - float_of_Z b)%float = float_of_Z (a - b).
Proof.
  intros Hla Hlb Hlab. apply Prim2SF_inj.
  rewrite FloatAxioms.sub_spec, !Prim2SF_float_of_Z by assumption.
  apply SFofZ_sub; assumption.
Qed.

Lemma float_of_Z_eqb_refl (a : Z) :
  (Z.abs a < 2 ^ 53)%Z -> (float_of_Z a =? float_of_Z a)%float = true.
Proof.
  intros Hla. rewrite FloatAxioms.eqb_spec, Prim2SF_float_of_Z by assumption.
  destruct (Z.eq_dec a 0%Z) as [->|Ha]; [reflexivity|].
  rewrite SFofZ_canonical by assumption.
  unfold canonical_float, SFeqb, SFcompare.
  rewrite Z.compare_refl, Pos.compare_cont_refl.
  destruct (Zsign a); reflexivity.
Qed.

Example float_of_Z_50 : float_of_Z 50 = 50%float.
Proof. vm_compute. reflexivity. Qed.
Example float_of_Z_m3 : float_of_Z (-3) = (-3)%float.
Proof. vm_compute. reflexivity. Qed.
Example float_of_Z_two53m1 : float_of_Z 9007199254740991 = 9007199254740991%float.
Proof. vm_compute. reflexivity. Qed.

Lemma float_of_Z_negative (a : Z) :
  (Z.abs a < 2 ^ 53)%Z -> (a < 0)%Z -> (float_of_Z a <? 0)%float = true.
Proof.
  intros Hla Hneg. rewrite FloatAxioms.ltb_spec, Prim2SF_float_of_Z by assumption.
  rewrite SFofZ_canonical by lia.
  destruct a; try lia. reflexivity.
Qed.

(** The two instances: Python [int] is exact everywhere, [float] on the
    integers of magnitude below [2^53]. *)
Lemma int_range_le (a b : Z) : True -> (Z.abs b <= Z.abs a)%Z -> True.
Proof. intros; exact I. Qed.

Lemma int_add_exact (a b : Z) : True -> True -> True -> (a + b = a + b)%Z.
Proof. reflexivity. Qed.

Lemma int_sub_exact (a b : Z) : True -> True -> True -> (a - b = a - b)%Z.
Proof. reflexivity. Qed.

Lemma int_eqb_refl (a : Z) : True -> (a =? a)%Z = true.
Proof. intros _. apply Z.eqb_refl. Qed.

Lemma int_negative (a : Z) : True -> (a < 0)%Z -> (0 >? a)%Z = true.
Proof. intros _ Hneg. apply Z.gtb_lt. exact Hneg. Qed.

#[export] Instance ExactOnIntegers_int : ExactOnIntegers Z := {|
  of_int := fun z => z;
  in_range := fun _ => True;
  in_range_le := int_range_le;
  add_of_int := int_add_exact;
  sub_of_int := int_sub_exact;
  eqb_of_int_refl := int_eqb_refl;
  of_int_negative := int_negative
|}.

Lemma float_range_le (a b : Z) :
  (Z.abs a < 2 ^ 53)%Z -> (Z.abs b <= Z.abs a)%Z -> (Z.abs b < 2 ^ 53)%Z.
Proof. lia. Qed.

#[export] Instance ExactOnIntegers_float : ExactOnIntegers float := {|
  of_int := float_of_Z;
  in_range := fun z => (Z.abs z < 2 ^ 53)%Z;
  in_range_le := float_range_le;
  add_of_int := float_of_Z_add;
  sub_of_int := float_of_Z_sub;
  eqb_of_int_refl := float_of_Z_eqb_refl;
  of_int_negative := float_of_Z_negative
|}.

(** ** validators.py *)

Section ValidatorFacts.
Context {N : Type} `{PyNum N}.
Local Open Scope py_scope.

(** Whatever the number type, [validate_basic_metrics] either raises its
    one error or returns the record of its six inputs and six derived
    values. *)
Lemma validate_basic_metrics_cases (br bp nr np dr dp : N) :
  validate_basic_metrics br bp nr np dr dp = Raise PendingCalculationMismatch
  \/ validate_basic_metrics br bp nr np dr dp =
     Ok {| balance_rape := br; balance_pocso := bp; balance_total := br + bp;
           new_rape := nr; new_pocso := np; new_total := nr + np;
           disposed_rape := dr; disposed_pocso := dp; disposed_total := dr + dp;
           pending_rape := br + nr - dr; pending_pocso := bp + np - dp;
           pending_total := (br + nr - dr) + (bp + np - dp) |}.
Proof.
  unfold validate_basic_metrics.
  destruct (negb _); [left | right]; reflexivity.
Qed.

Lemma validate_month_year_Ok (m y : Z) (b : bool) :
  validate_month_year (N:=N) m y = Ok b ->
  (1 <= m <= 12)%Z /\ (2020 <= y <= 2030)%Z.
Proof.
  unfold validate_month_year.
  destruct (1 <=? m)%Z eqn:H1, (m <=? 12)%Z eqn:H2; cbn; try discriminate.
  destruct (2020 <=? y)%Z eqn:H3, (y <=? 2030)%Z eqn:H4; cbn; try discriminate.
  intros _. lia.
Qed.

Lemma validate_month_year_Raise (m y : Z) (e : ValidationError N) :
  validate_month_year (N:=N) m y = Raise e ->
  validation_kind e = RangeError /\
  ~ ((1 <= m <= 12)%Z /\ (2020 <= y <= 2030)%Z).
Proof.
  unfold validate_month_year.
  destruct (1 <=? m)%Z eqn:H1, (m <=? 12)%Z eqn:H2; cbn;
    try (intros [= <-]; split; [reflexivity | lia]).
  destruct (2020 <=? y)%Z eqn:H3, (y <=? 2030)%Z eqn:H4; cbn;
    try discriminate; intros [= <-]; split; try reflexivity; lia.
Qed.

(** The errors of the three metric validators are never range errors, and
    each validator raises errors of one kind only. *)
Lemma validate_basic_metrics_Raise (br bp nr np dr dp : N) e :
  validate_basic_metrics br bp nr np dr dp = Raise e ->
  validation_kind e = InvariantViolation.
Proof.
  destruct (validate_basic_metrics_cases br bp nr np dr dp) as [-> | ->];
    [intros [= <-]; reflexivity | discriminate].
Qed.

Lemma validate_age_breakdowns_Raise
    (pr pp dr dp a1 a2 a3 a4 a5 a6 a7 a8 b1 b2 b3 b4 b5 b6 : N) e :
  validate_age_breakdowns pr pp dr dp a1 a2 a3 a4 a5 a6 a7 a8 b1 b2 b3 b4 b5 b6
    = Raise e ->
  validation_kind e = SumMismatch.
Proof.
  unfold validate_age_breakdowns.
  repeat (destruct (negb _); [intros [= <-]; reflexivity |]).
  discriminate.
Qed.

Lemma validate_age_breakdowns_Ok
    (pr pp dr dp a1 a2 a3 a4 a5 a6 a7 a8 b1 b2 b3 b4 b5 b6 : N) r :
  validate_age_breakdowns pr pp dr dp a1 a2 a3 a4 a5 a6 a7 a8 b1 b2 b3 b4 b5 b6
    = Ok r ->
  (a1 + a3 + a5 + a7 == pr) = true /\ (a2 + a4 + a6 + a8 == pp) = true
  /\ (b1 + b3 + b5 == dr) = true /\ (b2 + b4 + b6 == dp) = true.
Proof.
  unfold validate_age_breakdowns.
  repeat match goal with
         | |- context [negb (?a == ?b)] =>
             destruct (a == b) eqn:?; cbn [negb]; [|discriminate]
         end.
  intros _. repeat split; assumption.
Qed.

Lemma validate_additional_metrics_Raise
    (pr pp dr dp c1 c2 d1 d2 o1 o2 k1 k2 : N) e :
  validate_additional_metrics pr pp dr dp c1 c2 d1 d2 o1 o2 k1 k2 = Raise e ->
  validation_kind e = SubsetViolation.
Proof.
  unfold validate_additional_metrics.
  repeat (destruct (_ > _); [intros [= <-]; reflexivity |]).
  discriminate.
Qed.

End ValidatorFacts.

(** The four guards in the arithmetic of the number type, whatever it is.
    [validate_age_breakdowns] succeeds exactly when, for each category, the
    sum that Python's [+] gives for the four pendency buckets compares equal,
    by Python's [==], to the given pending value, and the one for the three
    disposal buckets to the given disposed value.  On success the four
    returned totals are those computed sums.  On failure the error is a sum
    mismatch that names the category and the breakdown and carries both sides
    of the failed comparison.  On floats the computed sums are rounded: what
    this says of the sums of the numbers themselves is settled further down,
    on the integers of the exact range and on floats beyond it. *)
Theorem validate_age_breakdowns_spec {N : Type} `{PyNum N}
    (pending_rape pending_pocso disposed_rape disposed_pocso
     p1r p1p p2r p2p p3r p3p p4r p4p d1r d1p d2r d2p d3r d3p : N) :
  let v := validate_age_breakdowns
             pending_rape pending_pocso disposed_rape disposed_pocso
             p1r p1p p2r p2p p3r p3p p4r p4p d1r d1p d2r d2p d3r d3p in
  let bucket_sum (cat : Category) (which : Breakdown) : N :=
    match which, cat with
    | Pendency, RAPE => (p1r + p2r + p3r + p4r)%py
    | Pendency, POCSO => (p1p + p2p + p3p + p4p)%py
    | Disposal, RAPE => (d1r + d2r + d3r)%py
    | Disposal, POCSO => (d1p + d2p + d3p)%py
    end in
  let given (cat : Category) (which : Breakdown) : N :=
    match which, cat with
    | Pendency, RAPE => pending_rape
    | Pendency, POCSO => pending_pocso
    | Disposal, RAPE => disposed_rape
    | Disposal, POCSO => disposed_pocso
    end in
  ((exists r, v = Ok r) <->
   (forall cat which, (bucket_sum cat which == given cat which)%py = true))
  /\ (forall r, v = Ok r ->
        forall cat,
          match cat with
          | RAPE => total_pendency_rape r = bucket_sum RAPE Pendency
                    /\ total_disposal_rape r = bucket_sum RAPE Disposal
          | POCSO => total_pendency_pocso r = bucket_sum POCSO Pendency
                     /\ total_disposal_pocso r = bucket_sum POCSO Disposal
          end)
  /\ (forall e, v = Raise e ->
        validation_kind e = SumMismatch
        /\ exists cat which,
             e = BreakdownSumMismatch cat which (bucket_sum cat which) (given cat which)
             /\ (bucket_sum cat which != given cat which)%py = true).
Proof.
  cbn zeta. unfold validate_age_breakdowns.
  destruct (eqb (p1r + p2r + p3r + p4r)%py pending_rape) eqn:E1; cbn [negb].
  2:{ split; [split|split].
      - intros [r Hr]; discriminate.
      - intros Hall. specialize (Hall RAPE Pendency). cbn in Hall. congruence.
      - discriminate.
      - intros e [= <-]. split; [reflexivity|].
        exists RAPE, Pendency. rewrite E1. split; reflexivity. }
  destruct (eqb (p1p + p2p + p3p + p4p)%py pending_pocso) eqn:E2; cbn [negb].
  2:{ split; [split|split].
      - intros [r Hr]; discriminate.
      - intros Hall. specialize (Hall POCSO Pendency). cbn in Hall. congruence.
      - discriminate.
      - intros e [= <-]. split; [reflexivity|].
        exists POCSO, Pendency. rewrite E2. split; reflexivity. }
  destruct (eqb (d1r + d2r + d3r)%py disposed_rape) eqn:E3; cbn [negb].
  2:{ split; [split|split].
      - intros [r Hr]; discriminate.
      - intros Hall. specialize (Hall RAPE Disposal). cbn in Hall. congruence.
      - discriminate.
      - intros e [= <-]. split; [reflexivity|].
        exists RAPE, Disposal. rewrite E3. split; reflexivity. }
  destruct (eqb (d1p + d2p + d3p)%py disposed_pocso) eqn:E4; cbn [negb].
  2:{ split; [split|split].
      - intros [r Hr]; discriminate.
      - intros Hall. specialize (Hall POCSO Disposal). cbn in Hall. congruence.
      - discriminate.
      - intros e [= <-]. split; [reflexivity|].
        exists POCSO, Disposal. rewrite E4. split; reflexivity. }
  split; [split|split].
  - intros _ [] []; assumption.
  - intros _. eexists; reflexivity.
  - intros r [= <-] []; cbn; split; reflexivity.
  - discriminate.
Qed.

(** On integers a change of any one bucket, by one or by any other amount,
    turns a successful validation into a sum mismatch. *)
Lemma validate_age_breakdowns_int_perturbed
    (pr pp dr dp a1 a2 a3 a4 a5 a6 a7 a8 b1 b2 b3 b4 b5 b6 : Z) r (delta : Z) :
  validate_age_breakdowns pr pp dr dp a1 a2 a3 a4 a5 a6 a7 a8 b1 b2 b3 b4 b5 b6
    = Ok r ->
  delta <> 0%Z ->
  let fails v := exists e, v = Raise e /\ validation_kind e = SumMismatch in
  (fails (validate_age_breakdowns pr pp dr dp (a1 + delta) a2 a3 a4 a5 a6 a7 a8 b1 b2 b3 b4 b5 b6)
  /\ fails (validate_age_breakdowns pr pp dr dp a1 (a2 + delta) a3 a4 a5 a6 a7 a8 b1 b2 b3 b4 b5 b6)
  /\ fails (validate_age_breakdowns pr pp dr dp a1 a2 (a3 + delta) a4 a5 a6 a7 a8 b1 b2 b3 b4 b5 b6)
  /\ fails (validate_age_breakdowns pr pp dr dp a1 a2 a3 (a4 + delta) a5 a6 a7 a8 b1 b2 b3 b4 b5 b6)
  /\ fails (validate_age_breakdowns pr pp dr dp a1 a2 a3 a4 (a5 + delta) a6 a7 a8 b1 b2 b3 b4 b5 b6)
  /\ fails (validate_age_breakdowns pr pp dr dp a1 a2 a3 a4 a5 (a6 + delta) a7 a8 b1 b2 b3 b4 b5 b6)
  /\ fails (validate_age_breakdowns pr pp dr dp a1 a2 a3 a4 a5 a6 (a7 + delta) a8 b1 b2 b3 b4 b5 b6)
  /\ fails (validate_age_breakdowns pr pp dr dp a1 a2 a3 a4 a5 a6 a7 (a8 + delta) b1 b2 b3 b4 b5 b6)
  /\ fails (validate_age_breakdowns pr pp dr dp a1 a2 a3 a4 a5 a6 a7 a8 (b1 + delta) b2 b3 b4 b5 b6)
  /\ fails (validate_age_breakdowns pr pp dr dp a1 a2 a3 a4 a5 a6 a7 a8 b1 (b2 + delta) b3 b4 b5 b6)
  /\ fails (validate_age_breakdowns pr pp dr dp a1 a2 a3 a4 a5 a6 a7 a8 b1 b2 (b3 + delta) b4 b5 b6)
  /\ fails (validate_age_breakdowns pr pp dr dp a1 a2 a3 a4 a5 a6 a7 a8 b1 b2 b3 (b4 + delta) b5 b6)
  /\ fails (validate_age_breakdowns pr pp dr dp a1 a2 a3 a4 a5 a6 a7 a8 b1 b2 b3 b4 (b5 + delta) b6)
  /\ fails (validate_age_breakdowns pr pp dr dp a1 a2 a3 a4 a5 a6 a7 a8 b1 b2 b3 b4 b5 (b6 + delta)))%Z.
Proof.
  intros Hok Hdelta fails.
  apply validate_age_breakdowns_Ok in Hok as (H1 & H2 & H3 & H4).
  cbn in H1, H2, H3, H4. apply Z.eqb_eq in H1, H2, H3, H4.
  repeat split;
    match goal with
    | |- fails ?v =>
        destruct v as [r'|e] eqn:Hv;
        [ exfalso;
          apply validate_age_breakdowns_Ok in Hv as (H1' & H2' & H3' & H4');
          cbn in H1', H2', H3', H4'; apply Z.eqb_eq in H1', H2', H3', H4'; lia
        | exists e; split; [reflexivity|];
          eapply validate_age_breakdowns_Raise; exact Hv ]
    end.
Qed.

(** On floats a bucket of [2^53] absorbs a change by one of its neighbour: both
    calls succeed. *)
Example validate_age_breakdowns_float_perturbed_accepted :
  let two53 := 9007199254740992%float in
  (exists r, validate_age_breakdowns two53 0%float 0%float 0%float
               two53 0%float 0%float 0%float 0%float 0%float 0%float 0%float
               0%float 0%float 0%float 0%float 0%float 0%float = Ok r)
  /\ (exists r, validate_age_breakdowns two53 0%float 0%float 0%float
                  two53 0%float 1%float 0%float 0%float 0%float 0%float 0%float
                  0%float 0%float 0%float 0%float 0%float 0%float = Ok r).
Proof. cbn zeta. split; eexists; vm_compute; reflexivity. Qed.



(** ** [validate_basic_metrics] where the arithmetic is exact, and where it is not *)

Section ExactFacts.
Context {N : Type} `{ExactOnIntegers N}.

(** On integers of the exact range every sum and difference
    [validate_basic_metrics] forms is the integer one, and its self-check
    passes. *)
Lemma validate_basic_metrics_exact (br bp nr np dr dp : Z) :
  in_range (Z.abs br + Z.abs bp + Z.abs nr + Z.abs np + Z.abs dr + Z.abs dp)%Z ->
  validate_basic_metrics (of_int br) (of_int bp) (of_int nr) (of_int np)
                         (of_int dr) (of_int dp)
  = Ok {| balance_rape := of_int br;
          balance_pocso := of_int bp;
          balance_total := of_int (br + bp);
          new_rape := of_int nr;
          new_pocso := of_int np;
          new_total := of_int (nr + np);
          disposed_rape := of_int dr;
          disposed_pocso := of_int dp;
          disposed_total := of_int (dr + dp);
          pending_rape := of_int (br + nr - dr);
          pending_pocso := of_int (bp + np - dp);
          pending_total := of_int (br + nr - dr + (bp + np - dp)) |}.
Proof.
  intros Hrange.
  assert (forall z : Z,
            (Z.abs z <= Z.abs br + Z.abs bp + Z.abs nr + Z.abs np
                        + Z.abs dr + Z.abs dp)%Z -> in_range z) as Hin.
  { intros z Hz. apply (in_range_le _ z Hrange). lia. }
  unfold validate_basic_metrics.
  repeat first [ rewrite add_of_int by (apply Hin; lia)
               | rewrite sub_of_int by (apply Hin; lia) ].
  replace (br + bp + (nr + np) - (dr + dp))%Z
    with (br + nr - dr + (bp + np - dp))%Z by lia.
  rewrite eqb_of_int_refl by (apply Hin; lia). reflexivity.
Qed.

End ExactFacts.

(** C1, where the arithmetic is exact.  For all non-negative integer inputs of
    the exact range (any Python [int]; [float]s holding integers whose total
    is below [2^53]) [validate_basic_metrics] succeeds; the record it returns
    holds the inputs, pending = balance + new - disposed for each category,
    and each of the four totals is the sum of its two per-category values. *)
Theorem validate_basic_metrics_nonnegative {N : Type} `{ExactOnIntegers N}
    (br bp nr np dr dp : Z) :
  (0 <= br)%Z -> (0 <= bp)%Z -> (0 <= nr)%Z -> (0 <= np)%Z ->
  (0 <= dr)%Z -> (0 <= dp)%Z ->
  in_range (br + bp + nr + np + dr + dp)%Z ->
  exists r,
    validate_basic_metrics (of_int br) (of_int bp) (of_int nr) (of_int np)
                           (of_int dr) (of_int dp) = Ok r
    /\ (balance_rape r = of_int br /\ balance_pocso r = of_int bp
        /\ new_rape r = of_int nr /\ new_pocso r = of_int np
        /\ disposed_rape r = of_int dr /\ disposed_pocso r = of_int dp)
    /\ (pending_rape r = of_int (br + nr - dr)
        /\ pending_pocso r = of_int (bp + np - dp))
    /\ (balance_total r = of_int (br + bp)
        /\ new_total r = of_int (nr + np)
        /\ disposed_total r = of_int (dr + dp)
        /\ pending_total r = of_int ((br + nr - dr) + (bp + np - dp)))
    /\ (balance_total r = balance_rape r + balance_pocso r
        /\ new_total r = new_rape r + new_pocso r
        /\ disposed_total r = disposed_rape r + disposed_pocso r
        /\ pending_total r = pending_rape r + pending_pocso r)%py.
Proof.
  intros Hbr Hbp Hnr Hnp Hdr Hdp Hrange.
  assert (forall z : Z, (Z.abs z <= br + bp + nr + np + dr + dp)%Z -> in_range z)
    as Hin.
  { intros z Hz. apply (in_range_le _ z Hrange). lia. }
  eexists. split.
  - apply validate_basic_metrics_exact. apply Hin. lia.
  - cbn. repeat split;
      rewrite add_of_int by (apply Hin; lia); reflexivity.
Qed.

(** The walk-through values of example.py, as floats. *)
Lemma validate_basic_metrics_nonnegative_example :
  exists r,
    validate_basic_metrics 50%float 30%float 5%float 3%float 4%float 2%float = Ok r
    /\ pending_rape r = 51%float /\ pending_pocso r = 31%float
    /\ pending_total r = 82%float.
Proof.
  destruct (validate_basic_metrics_nonnegative (N:=float) 50 30 5 3 4 2)
    as (r & Hr & _ & (Hp1 & Hp2) & (_ & _ & _ & Ht) & _);
    [lia | lia | lia | lia | lia | lia | vm_compute; reflexivity |].
  exists r. exact (conj Hr (conj Hp1 (conj Hp2 Ht))).
Defined.

(** C1 fails on floats in general: six non-negative inputs on which the
    self-check raises.  [1 + 2^53] is not a binary64 number and rounds to
    [2^53], so the right-hand side of the check is [2^53], while the pending
    total is [2 + 2^53]. *)
Lemma validate_basic_metrics_float_rejects_nonnegative :
  let two53 := 9007199254740992%float in
  ((zero <= 1%float)%py = true /\ (zero <= two53)%py = true
   /\ (zero <= 0%float)%py = true)
  /\ validate_basic_metrics 1%float two53 1%float 0%float 0%float 0%float
     = Raise PendingCalculationMismatch
  /\ ~ (exists r, validate_basic_metrics 1%float two53 1%float 0%float 0%float 0%float
                  = Ok r).
Proof.
  cbn zeta. split; [|split].
  - repeat split; vm_compute; reflexivity.
  - vm_compute. reflexivity.
  - intros [r Hr]. vm_compute in Hr. discriminate Hr.
Qed.

(** C8, where the arithmetic is exact.  On integers of the exact range (any
    Python [int]; [float]s holding integers whose magnitudes total less than
    [2^53]) the two sides of the self-check are equal, so
    [validate_basic_metrics] never raises. *)
Theorem pending_self_check_never_fires_exact {N : Type} `{ExactOnIntegers N}
    (br bp nr np dr dp : Z) :
  in_range (Z.abs br + Z.abs bp + Z.abs nr + Z.abs np + Z.abs dr + Z.abs dp)%Z ->
  (forall e,
     validate_basic_metrics (of_int br) (of_int bp) (of_int nr) (of_int np)
                            (of_int dr) (of_int dp) <> Raise e)
  /\ exists r,
       validate_basic_metrics (of_int br) (of_int bp) (of_int nr) (of_int np)
                              (of_int dr) (of_int dp) = Ok r
       /\ pending_total r = of_int (br + bp + (nr + np) - (dr + dp))
       /\ (pending_total r == balance_total r + new_total r - disposed_total r)%py
          = true.
Proof.
  intros Hrange.
  assert (forall z : Z,
            (Z.abs z <= Z.abs br + Z.abs bp + Z.abs nr + Z.abs np
                        + Z.abs dr + Z.abs dp)%Z -> in_range z) as Hin.
  { intros z Hz. apply (in_range_le _ z Hrange). lia. }
  rewrite (validate_basic_metrics_exact br bp nr np dr dp Hrange).
  split; [discriminate|]. eexists. split; [reflexivity|]. cbn.
  repeat first [ rewrite add_of_int by (apply Hin; lia)
               | rewrite sub_of_int by (apply Hin; lia) ].
  replace (br + bp + (nr + np) - (dr + dp))%Z
    with (br + nr - dr + (bp + np - dp))%Z by lia.
  split; [reflexivity|]. apply eqb_of_int_refl. apply Hin. lia.
Qed.

Lemma pending_self_check_never_fires_exact_example :
  exists r,
    validate_basic_metrics 50%float 30%float 5%float 3%float 9%float 2%float = Ok r
    /\ pending_total r = 77%float.
Proof.
  destruct (pending_self_check_never_fires_exact (N:=float) 50 30 5 3 9 2)
    as (_ & r & Hr & Ht & _); [vm_compute; reflexivity|].
  exists r. exact (conj Hr Ht).
Defined.

(** C8 fails on floats in general: the self-check fires.  The pending total
    is [2^53 + 2]; the other side is [(2^53 + 1) + 1 - 0], where both additions
    round back to [2^53]. *)
Lemma pending_self_check_fires_float :
  let two53 := 9007199254740992%float in
  validate_basic_metrics two53 1%float 0%float 1%float 0%float 0%float
  = Raise PendingCalculationMismatch
  /\ ((two53 + 0 - 0) + (1 + 1 - 0) = 9007199254740994)%float
  /\ ((two53 + 1) + (0 + 1) - (0 + 0) = two53)%float.
Proof. cbn zeta. repeat split; vm_compute; reflexivity. Qed.

(** The same happens on small fractional counts:
    [(0.1 + 0.4 - 0) + (0.1 + 0 - 0)] and [(0.1 + 0.1) + (0.4 + 0) - (0 + 0)]
    differ in the last bit. *)
Example pending_self_check_fires_fractional :
  let tenth := 0x1.999999999999ap-4%float in
  let four_tenths := 0x1.999999999999ap-2%float in
  validate_basic_metrics tenth tenth four_tenths 0%float 0%float 0%float
  = Raise PendingCalculationMismatch.
Proof. vm_compute. reflexivity. Qed.

(** C9, where the arithmetic is exact.  No check guards the sign of the
    pending counts: on non-negative integer inputs of the exact range where
    more cases are disposed than balance and new together in some category,
    [validate_basic_metrics] succeeds, the pending count of that category is
    negative, and the pending total is total balance + total new - total
    disposed. *)
Theorem validate_basic_metrics_negative_pending {N : Type} `{ExactOnIntegers N}
    (br bp nr np dr dp : Z) :
  (0 <= br)%Z -> (0 <= bp)%Z -> (0 <= nr)%Z -> (0 <= np)%Z ->
  (0 <= dr)%Z -> (0 <= dp)%Z ->
  in_range (br + bp + nr + np + dr + dp)%Z ->
  (dr > br + nr \/ dp > bp + np)%Z ->
  exists r,
    validate_basic_metrics (of_int br) (of_int bp) (of_int nr) (of_int np)
                           (of_int dr) (of_int dp) = Ok r
    /\ ((dr > br + nr)%Z ->
        pending_rape r = of_int (br + nr - dr)
        /\ (zero > pending_rape r)%py = true)
    /\ ((dp > bp + np)%Z ->
        pending_pocso r = of_int (bp + np - dp)
        /\ (zero > pending_pocso r)%py = true)
    /\ pending_total r = of_int ((br + bp) + (nr + np) - (dr + dp)).
Proof.
  intros Hbr Hbp Hnr Hnp Hdr Hdp Hrange _.
  assert (forall z : Z, (Z.abs z <= br + bp + nr + np + dr + dp)%Z -> in_range z)
    as Hin.
  { intros z Hz. apply (in_range_le _ z Hrange). lia. }
  eexists. split.
  - apply validate_basic_metrics_exact. apply Hin. lia.
  - cbn. split; [|split].
    + intros Hneg. split; [reflexivity|].
      apply of_int_negative; [apply Hin|]; lia.
    + intros Hneg. split; [reflexivity|].
      apply of_int_negative; [apply Hin|]; lia.
    + f_equal. lia.
Qed.

Lemma validate_basic_metrics_negative_pending_example :
  exists r,
    validate_basic_metrics 3%float 30%float 1%float 3%float 9%float 2%float = Ok r
    /\ pending_rape r = (-5)%float
    /\ (pending_rape r <? 0)%float = true
    /\ pending_total r = 26%float.
Proof.
  destruct (validate_basic_metrics_negative_pending (N:=float) 3 30 1 3 9 2)
    as (r & Hr & Hneg & _ & Ht);
    [lia | lia | lia | lia | lia | lia | vm_compute; reflexivity | lia |].
  destruct Hneg as [Hp Hlt]; [lia|].
  exists r. exact (conj Hr (conj Hp (conj Hlt Ht))).
Defined.

(** C9 fails on floats in general: non-negative inputs with [disposed_rape]
    greater than [balance_rape + new_rape] on which the function raises
    instead of returning a negative pending count.  Here [2^53 + 1] rounds to
    [2^53]. *)
Lemma validate_basic_metrics_negative_pending_float_rejected :
  let two53 := 9007199254740992%float in
  ((zero <= 0%float)%py = true /\ (zero <= 2%float)%py = true
   /\ (zero <= two53)%py = true /\ (zero <= 1%float)%py = true)
  /\ (two53 > 0%float + 0%float)%py = true
  /\ validate_basic_metrics 0%float 0%float 0%float 2%float two53 1%float
     = Raise PendingCalculationMismatch.
Proof. cbn zeta. repeat split; vm_compute; reflexivity. Qed.

(** ** The store key *)

(** The decimal rendering of an integer holds digits and at most a leading
    minus sign, never the separator of the key. *)
Lemma pretty_N_go_no_underscore (x : N) (s : string) :
  no_underscore s = true -> no_underscore (pretty_N_go x s) = true.
Proof.
  revert s. induction (N.lt_wf_0 x) as [x _ IH]; intros s Hs.
  assert (x = 0 \/ 0 < x)%N as [->|Hpos] by lia.
  - rewrite pretty_N_go_0. exact Hs.
  - rewrite pretty_N_go_step by exact Hpos. apply IH.
    + apply N.div_lt; [exact Hpos | reflexivity].
    + cbn [no_underscore]. rewrite Hs. unfold pretty_N_char.
      repeat case_match; reflexivity.
Qed.

Lemma pretty_Z_no_underscore (z : Z) : no_underscore (pretty z) = true.
Proof.
  assert (forall p : positive, no_underscore (pretty p) = true) as Hpos.
  { intros p. unfold pretty, pretty_positive, pretty, pretty_N.
    case_decide; [reflexivity|]. apply pretty_N_go_no_underscore. reflexivity. }
  destruct z as [|p|p]; unfold pretty, pretty_Z; [reflexivity|apply Hpos|].
  cbn. apply Hpos.
Qed.

(** Two strings cut at their first underscore agree part by part. *)
Lemma append_underscore_inj (s1 s2 t1 t2 : string) :
  no_underscore s1 = true -> no_underscore s2 = true ->
  s1 +:+ String "_"%char t1 = s2 +:+ String "_"%char t2 ->
  s1 = s2 /\ t1 = t2.
Proof.
  revert s2. induction s1 as [|a s1 IH]; intros [|b s2]; cbn; intros H1 H2 Heq.
  - injection Heq as ->. split; reflexivity.
  - injection Heq as <- _. apply andb_prop in H2 as [H2 _]. discriminate H2.
  - injection Heq as -> _. apply andb_prop in H1 as [H1 _]. discriminate H1.
  - injection Heq as -> Heq.
    apply andb_prop in H1 as [_ H1]. apply andb_prop in H2 as [_ H2].
    destruct (IH s2 H1 H2 Heq) as [-> ->]. split; reflexivity.
Qed.

(** The key determines the court id, the month and the year. *)
Lemma store_key_inj (i1 m1 y1 i2 m2 y2 : Z) :
  store_key i1 m1 y1 = store_key i2 m2 y2 -> i1 = i2 /\ m1 = m2 /\ y1 = y2.
Proof.
  unfold store_key. intros Heq.
  apply append_underscore_inj in Heq as [Hi Heq];
    try apply pretty_Z_no_underscore.
  apply append_underscore_inj in Heq as [Hm Hy];
    try apply pretty_Z_no_underscore.
  apply (inj pretty) in Hi, Hm, Hy. repeat split; assumption.
Qed.

Example store_key_example : store_key 1 1 2025 = "1_1_2025".
Proof. reflexivity. Qed.

(** ** server.py *)

Section ServerFacts.
Context {N : Type} `{PyNum N} `{Database N}.

Lemma filter_inserts_select (calls : list (DbCall N)) (c : DbCall N) :
  is_insert c = false ->
  filter (fun c => is_insert c = true) (calls ++ [c])
  = filter (fun c => is_insert c = true) calls.
Proof.
  intros Hc. rewrite filter_app, filter_cons_False by congruence.
  rewrite filter_nil. apply app_nil_r.
Qed.

Lemma filter_inserts_insert (calls : list (DbCall N)) (row : Row N) :
  filter (fun c => is_insert c = true) (calls ++ [InsertRow row])
  = filter (fun c => is_insert c = true) calls ++ [InsertRow row].
Proof.
  rewrite filter_app, filter_cons_True by reflexivity.
  rewrite filter_nil. reflexivity.
Qed.

Ltac tool_unfold :=
  unfold run, insert_step1_basic_metrics, insert_step2_age_breakdowns,
    insert_step3_additional_metrics, try_except, mbind, mret, Body_bind,
    Body_ret, validated, get_court_by_name, check_existing_data,
    insert_court_monthly_data, query, return_, store_get, store_set,
    store_modify, store_del.

Ltac tool_cases :=
  tool_unfold; repeat case_match; simplify_eq; cbn in *;
  unfold inserts_issued; cbn;
  rewrite ?filter_inserts_insert, ?filter_inserts_select by reflexivity.

(** A failed call leaves the store and the database as they were; unless
    the failure is an exception, it has sent no [INSERT] either. *)
Lemma run_failure_frame (t : ToolCall) (w : World) (k : ErrorKind) :
  response_kind (run t w).1 = Some k ->
  partial_data_store (run t w).2 = partial_data_store w
  /\ db (run t w).2 = db w
  /\ (k <> StorageFailure -> inserts_issued (run t w).2 = inserts_issued w).
Proof.
  destruct t; tool_cases; intros [= <-]; repeat split; congruence.
Qed.

(** Every call keeps the entries of the store well formed. *)
Lemma run_preserves_store_wf (t : ToolCall) (w : World) :
  store_wf (partial_data_store w) ->
  store_wf (partial_data_store (run t w).2).
Proof.
  intros Hwf. destruct t; tool_cases; try exact Hwf.
  - (* step 1 stores a new entry *)
    intros key entry [[<- <-]|[_ Hold]]%lookup_insert_Some; [|eauto].
    repeat split; cbn; try discriminate;
      match goal with
      | Hv : validate_month_year _ _ = Ok _ |- _ =>
          apply validate_month_year_Ok in Hv; lia
      end.
  - (* step 2 updates the entry in place *)
    intros key entry. rewrite alter_alter_eq.
    intros [[<- (old & Hold & ->)]|[_ Hold]]%lookup_alter_Some; [|eauto].
    destruct (Hwf _ _ Hold) as (Hkey & Hper & Hs1 & _).
    repeat split; cbn; try assumption; try apply Hper. eauto.
  - (* step 3 removes the entry *)
    intros key entry [_ Hold]%lookup_delete_Some. eauto.
Qed.

Lemma reachable_store_wf (w : World) :
  reachable w -> store_wf (partial_data_store w).
Proof.
  induction 1 as [d | t w _ IH | d w _ IH]; cbn.
  - intros key entry Hnone. rewrite lookup_empty in Hnone. discriminate.
  - apply run_preserves_store_wf, IH.
  - exact IH.
Qed.

(** A reachable store has no entry for a period out of bounds. *)
Lemma reachable_out_of_bounds_no_entry (w : World) (court_id m y : Z) :
  reachable w -> ~ period_in_bounds m y ->
  partial_data_store w !! store_key court_id m y = None.
Proof.
  intros Hr Hout.
  destruct (partial_data_store w !! store_key court_id m y) as [entry|] eqn:He;
    [|reflexivity].
  destruct (reachable_store_wf w Hr _ _ He) as (Hkey & Hper & _).
  apply store_key_inj in Hkey as (_ & -> & ->). contradiction.
Qed.

(** C4.  Once the court is found, step 2 answers with a step-order
    violation when the store has no entry for the key or the entry's
    [step1_complete] is unset, and step 3 does so when the store has no entry
    for the key or the entry's [step2_complete] is unset. *)
Theorem step_order_enforced
    (name : string) (court : Court) (m y : Z) (w : World)
    (p1r p1p p2r p2p p3r p3p p4r p4p d1r d1p d2r d2p d3r d3p : N)
    (c1r c1p c2r c2p c3r c3p c4r c4p : N) :
  fetchrow_court (db w) name = Ok (Some court) ->
  let entry := partial_data_store w !! store_key (c_id court) m y in
  let step2 := insert_step2_age_breakdowns name m y
                 p1r p1p p2r p2p p3r p3p p4r p4p d1r d1p d2r d2p d3r d3p w in
  let step3 := insert_step3_additional_metrics name m y
                 c1r c1p c2r c2p c3r c3p c4r c4p w in
  ((entry = None \/ exists p, entry = Some p /\ step1_complete p = false) ->
     step2.1 = MustCompleteStep1
     /\ response_kind step2.1 = Some StepOrderViolation)
  /\ ((entry = None \/ exists p, entry = Some p /\ step2_complete p = false) ->
       (step3.1 = MustCompleteStep1First \/ step3.1 = MustCompleteStep2First)
       /\ response_kind step3.1 = Some StepOrderViolation).
Proof.
  intros Hcourt; cbn zeta. split.
  - intros [Hnone | (p & Hsome & Hflag)]; tool_unfold; cbn;
      rewrite Hcourt; cbn; [rewrite Hnone | rewrite Hsome, Hflag];
      cbn; split; reflexivity.
  - intros [Hnone | (p & Hsome & Hflag)]; tool_unfold; cbn;
      rewrite Hcourt; cbn; [rewrite Hnone | rewrite Hsome, Hflag];
      cbn; split; auto.
Qed.

(** A call whose validator raised (the response is the one built by
    [except ValidationError]) or whose step-order check failed leaves the
    store and the database as they were and sends no [INSERT]. *)
Lemma validation_failure_frame (t : ToolCall) (w : World) :
  ((exists e, (run t w).1 = ValidationErrorResponse e)
   \/ (run t w).1 = MustCompleteStep1
   \/ (run t w).1 = MustCompleteStep1First
   \/ (run t w).1 = MustCompleteStep2First) ->
  partial_data_store (run t w).2 = partial_data_store w
  /\ db (run t w).2 = db w
  /\ inserts_issued (run t w).2 = inserts_issued w.
Proof.
  intros Hfail.
  assert (exists k, response_kind (run t w).1 = Some k /\ k <> StorageFailure)
    as (k & Hk & Hne).
  { destruct Hfail as [[e ->] | [-> | [-> | ->]]]; cbn;
      try (eexists; split; [reflexivity | discriminate]).
    exists (validation_kind e). split; [reflexivity|]. destruct e; discriminate. }
  destruct (run_failure_frame t w k Hk) as (Hs & Hd & Hi). auto.
Qed.

(** C5.  A call of step 1, 2 or 3 in which the arithmetic validator raises
    or the step-order check fails returns a failure, leaves the store and the
    database exactly as they were, and sends no [INSERT]. *)
Theorem failed_step_changes_nothing (t : ToolCall) (w : World) :
  validator_raises t w \/ step_order_violated t w ->
  response_kind (run t w).1 <> None
  /\ partial_data_store (run t w).2 = partial_data_store w
  /\ db (run t w).2 = db w
  /\ inserts_issued (run t w).2 = inserts_issued w.
Proof.
  assert (forall b : bool, b = false -> negb b = false -> False) as Hflags
    by (intros [] ? ?; discriminate).
  destruct t; cbn [validator_raises step_order_violated].
  - intros [[[e He] | [e He]] | []]; tool_cases; try congruence;
      repeat split; discriminate.
  - intros [(court & entry & e & Hc & He & Hv) | (court & Hc & Hs)];
      [| destruct Hs as [Hnone | (entry & He & Hflag)] ];
      tool_cases; try congruence;
      try (repeat split; discriminate);
      exfalso;
      match goal with
      | H1 : ?x = Some entry, H2 : ?x = Some _ |- _ =>
          rewrite H1 in H2; injection H2 as <-
      end; eauto; congruence.
  - intros [(court & entry & e & Hc & He & Hv) | (court & Hc & Hs)];
      [| destruct Hs as [Hnone | (entry & He & Hflag)] ];
      tool_cases; try congruence;
      try (repeat split; discriminate);
      exfalso;
      match goal with
      | H1 : ?x = Some entry, H2 : ?x = Some _ |- _ =>
          rewrite H1 in H2; injection H2 as <-
      end; eauto; congruence.
Qed.

(** C7, as the code has it.  Step 1 for a period in bounds, a court that is
    found and a key whose committed record exists answers with a duplicate
    entry and leaves the store, the database and the [INSERT]s sent as they
    were: it creates no entry, so the key has none afterwards if it had none
    before. *)
Theorem duplicate_entry_leaves_store
    (name : string) (court : Court) (m y : Z) (w : World)
    (br bp nr np dr dp : N) :
  period_in_bounds m y ->
  fetchrow_court (db w) name = Ok (Some court) ->
  fetchval_exists (db w) (c_id court) m y = Ok true ->
  let step1 := insert_step1_basic_metrics name m y br bp nr np dr dp w in
  step1.1 = DataAlreadyExists name m y
  /\ response_kind step1.1 = Some DuplicateEntry
  /\ partial_data_store step1.2 = partial_data_store w
  /\ db step1.2 = db w
  /\ inserts_issued step1.2 = inserts_issued w
  /\ (partial_data_store w !! store_key (c_id court) m y = None ->
      partial_data_store step1.2 !! store_key (c_id court) m y = None).
Proof.
  intros [Hm Hy] Hcourt Hexists; cbn zeta.
  tool_unfold. unfold validate_month_year.
  replace (1 <=? m)%Z with true by (symmetry; apply Z.leb_le; lia).
  replace (m <=? 12)%Z with true by (symmetry; apply Z.leb_le; lia).
  replace (2020 <=? y)%Z with true by (symmetry; apply Z.leb_le; lia).
  replace (y <=? 2030)%Z with true by (symmetry; apply Z.leb_le; lia).
  cbn. rewrite Hcourt; cbn. rewrite Hexists; cbn.
  unfold inserts_issued; cbn.
  rewrite !filter_inserts_select by reflexivity.
  repeat split; auto.
Qed.

(** What step 3 does: either it fails before the database is written to,
    or it sends one [INSERT], and then commit and removal go together. *)
Lemma insert_step3_cases
    (name : string) (m y : Z) (w : World) (c1r c1p c2r c2p c3r c3p c4r c4p : N) :
  let step3 := insert_step3_additional_metrics name m y
                 c1r c1p c2r c2p c3r c3p c4r c4p w in
  (inserts_issued step3.2 = inserts_issued w
   /\ response_kind step3.1 <> None
   /\ partial_data_store step3.2 = partial_data_store w
   /\ db step3.2 = db w)
  \/ (exists court entry age extra,
        fetchrow_court (db w) name = Ok (Some court)
        /\ partial_data_store w !! store_key (c_id court) m y = Some entry
        /\ step2_complete entry = true
        /\ age_data entry = Some age
        /\ validate_additional_metrics
             (pending_rape (calculated entry)) (pending_pocso (calculated entry))
             (disposed_rape (calculated entry)) (disposed_pocso (calculated entry))
             c1r c1p c2r c2p c3r c3p c4r c4p = Ok extra
        /\ let row := {| row_court_id := c_id court; row_month := m; row_year := y;
                        row_basic := calculated entry; row_age := age;
                        row_additional := extra |} in
           inserts_issued step3.2 = inserts_issued w ++ [InsertRow row]
           /\ match execute_insert (db w) row with
              | Ok d' =>
                  step3.1 = DataEntryComplete court m y
                              {| partial_data := entry; additional := extra |}
                  /\ db step3.2 = d'
                  /\ partial_data_store step3.2
                     = delete (store_key (c_id court) m y) (partial_data_store w)
              | Raise e =>
                  step3.1 = ErrorResponse e
                  /\ db step3.2 = db w
                  /\ partial_data_store step3.2 = partial_data_store w
              end).
Proof.
  cbn zeta. tool_unfold; cbn. unfold inserts_issued.
  destruct (fetchrow_court (db w) name) as [[court|]|e0] eqn:Hcourt; cbn;
    rewrite ?filter_inserts_select by reflexivity;
    try (left; repeat split; discriminate).
  destruct (partial_data_store w !! store_key (c_id court) m y)
    as [entry|] eqn:Hentry; cbn;
    rewrite ?filter_inserts_select by reflexivity;
    try (left; repeat split; discriminate).
  destruct (step2_complete entry) eqn:Hs2; cbn;
    rewrite ?filter_inserts_select by reflexivity;
    try (left; repeat split; discriminate).
  destruct (validate_additional_metrics _ _ _ _ _ _ _ _ _ _ _ _)
    as [extra|ev] eqn:Hv; cbn;
    rewrite ?filter_inserts_select by reflexivity;
    try (left; repeat split; discriminate).
  destruct (age_data entry) as [age|] eqn:Hage; cbn;
    rewrite ?filter_inserts_select by reflexivity;
    try (left; repeat split; discriminate).
  right. exists court, entry, age, extra. cbn zeta.
  repeat (split; [assumption || reflexivity|]).
  destruct (execute_insert (db w) _) as [d'|e'] eqn:Hx; cbn;
    rewrite filter_inserts_insert, filter_inserts_select by reflexivity;
    repeat split.
Qed.

(** C6.  In a reachable world, look at the [INSERT] step 3 sends.  If the
    database raises on it, the response is that exception, store and database
    are as they were, the entry of the key is still there with both flags
    set, and a further step 3 for the key is not turned away for step order.
    If the database accepts it, the response is the success, the database is
    the one the insert produced and the store is the old one without the key.
    And if step 3 sends no [INSERT], it fails and changes neither. *)
Theorem commit_and_removal_together
    (name : string) (m y : Z) (w : World)
    (c1r c1p c2r c2p c3r c3p c4r c4p : N) :
  reachable w ->
  let step3 := insert_step3_additional_metrics name m y
                 c1r c1p c2r c2p c3r c3p c4r c4p w in
  (forall row e,
      inserts_issued step3.2 = inserts_issued w ++ [InsertRow row] ->
      execute_insert (db w) row = Raise e ->
      step3.1 = ErrorResponse e
      /\ partial_data_store step3.2 = partial_data_store w
      /\ db step3.2 = db w
      /\ (exists court entry,
            fetchrow_court (db w) name = Ok (Some court)
            /\ partial_data_store step3.2 !! store_key (c_id court) m y
               = Some entry
            /\ step1_complete entry = true
            /\ step2_complete entry = true)
      /\ (forall a1 a2 a3 a4 a5 a6 a7 a8,
            response_kind
              (insert_step3_additional_metrics name m y
                 a1 a2 a3 a4 a5 a6 a7 a8 step3.2).1
            <> Some StepOrderViolation))
  /\ (forall row d',
        inserts_issued step3.2 = inserts_issued w ++ [InsertRow row] ->
        execute_insert (db w) row = Ok d' ->
        response_kind step3.1 = None
        /\ db step3.2 = d'
        /\ exists court,
             fetchrow_court (db w) name = Ok (Some court)
             /\ partial_data_store step3.2
                = delete (store_key (c_id court) m y) (partial_data_store w)
             /\ partial_data_store step3.2 !! store_key (c_id court) m y = None)
  /\ (inserts_issued step3.2 = inserts_issued w ->
      response_kind step3.1 <> None
      /\ partial_data_store step3.2 = partial_data_store w
      /\ db step3.2 = db w).
Proof.
  intros Hreach; cbn zeta.
  pose proof (reachable_store_wf w Hreach) as Hwf.
  assert (forall (l : list (DbCall N)) x, l <> l ++ [x]) as Hneq.
  { intros l x Heq. apply (f_equal length) in Heq.
    rewrite length_app in Heq. cbn in Heq. lia. }
  destruct (insert_step3_cases name m y w c1r c1p c2r c2p c3r c3p c4r c4p)
    as [(Hsame & Hfail & Hstore & Hdb)
       | (court & entry & age & extra & Hcourt & Hentry & Hs2 & Hage & Hv
          & Hins & Hexec)];
    cbn zeta in *.
  - split; [|split].
    + intros row e Hins. rewrite Hsame in Hins. destruct (Hneq _ _ Hins).
    + intros row d' Hins. rewrite Hsame in Hins. destruct (Hneq _ _ Hins).
    + intros _. auto.
  - split; [|split].
    + intros row e Hins' Hraise. rewrite Hins in Hins'.
      apply app_inj_tail in Hins' as [_ [= <-]].
      rewrite Hraise in Hexec. destruct Hexec as (Hr & Hdb & Hstore).
      destruct (Hwf _ _ Hentry) as (_ & _ & Hs1 & _).
      repeat split; try assumption.
      * exists court, entry. rewrite Hstore. auto.
      * intros a1 a2 a3 a4 a5 a6 a7 a8.
        destruct (insert_step3_additional_metrics name m y c1r c1p c2r c2p c3r
                    c3p c4r c4p w) as [r3 w3]; cbn in *.
        tool_unfold; cbn. rewrite Hdb, Hcourt; cbn.
        rewrite Hstore, Hentry; cbn. rewrite Hs2; cbn.
        destruct (validate_additional_metrics _ _ _ _ a1 a2 a3 a4 a5 a6 a7 a8)
          as [extra'|ev] eqn:Hv'; cbn.
        -- rewrite Hage.
           match goal with
           | |- context [match execute_insert ?d ?r with _ => _ end] =>
               destruct (execute_insert d r)
           end; cbn; discriminate.
        -- apply validate_additional_metrics_Raise in Hv'. rewrite Hv'.
           discriminate.
    + intros row d' Hins' Hok. rewrite Hins in Hins'.
      apply app_inj_tail in Hins' as [_ [= <-]].
      rewrite Hok in Hexec. destruct Hexec as (Hr & Hdb & Hstore).
      rewrite Hr. repeat split; try assumption.
      exists court. rewrite Hstore. repeat split; try assumption.
      apply lookup_delete_eq.
    + intros Hsame. rewrite Hins in Hsame. symmetry in Hsame.
      destruct (Hneq _ _ Hsame).
Qed.

(** C10.  Only step 1 checks the period.  Step 1 turns a period out of
    bounds away with a range error; steps 2 and 3 never answer with a range
    error.  In a reachable world, for a period out of bounds, steps 2 and 3
    fail in the court lookup or else for step order and for nothing else: once
    the court is found, the store has no entry for the key and both answer
    with a step-order violation. *)
Theorem period_checked_by_step1_only
    (name : string) (m y : Z) (w : World)
    (br bp nr np dr dp : N)
    (p1r p1p p2r p2p p3r p3p p4r p4p d1r d1p d2r d2p d3r d3p : N)
    (c1r c1p c2r c2p c3r c3p c4r c4p : N) :
  let step1 := insert_step1_basic_metrics name m y br bp nr np dr dp w in
  let step2 := insert_step2_age_breakdowns name m y
                 p1r p1p p2r p2p p3r p3p p4r p4p d1r d1p d2r d2p d3r d3p w in
  let step3 := insert_step3_additional_metrics name m y
                 c1r c1p c2r c2p c3r c3p c4r c4p w in
  (~ period_in_bounds m y -> response_kind step1.1 = Some RangeError)
  /\ response_kind step2.1 <> Some RangeError
  /\ response_kind step3.1 <> Some RangeError
  /\ (reachable w -> ~ period_in_bounds m y ->
      (step2.1 = CourtNotFound name \/ (exists e, step2.1 = ErrorResponse e)
       \/ step2.1 = MustCompleteStep1)
      /\ (step3.1 = CourtNotFound name \/ (exists e, step3.1 = ErrorResponse e)
          \/ step3.1 = MustCompleteStep1First)
      /\ forall court, fetchrow_court (db w) name = Ok (Some court) ->
           partial_data_store w !! store_key (c_id court) m y = None
           /\ step2.1 = MustCompleteStep1
           /\ step3.1 = MustCompleteStep1First
           /\ response_kind step2.1 = Some StepOrderViolation
           /\ response_kind step3.1 = Some StepOrderViolation).
Proof.
  cbn zeta. split; [|split; [|split]].
  - intros Hout. tool_unfold.
    destruct (validate_month_year m y) as [b|e] eqn:Hv; cbn.
    + apply validate_month_year_Ok in Hv. contradiction.
    + apply validate_month_year_Raise in Hv as [-> _]. reflexivity.
  - tool_cases; try discriminate.
    match goal with
    | Hv : validate_age_breakdowns _ _ _ _ _ _ _ _ _ _ _ _ _ _ _ _ _ _ = Raise _
      |- _ => apply validate_age_breakdowns_Raise in Hv; rewrite Hv
    end. discriminate.
  - tool_cases; try discriminate.
    match goal with
    | Hv : validate_additional_metrics _ _ _ _ _ _ _ _ _ _ _ _ = Raise _
      |- _ => apply validate_additional_metrics_Raise in Hv; rewrite Hv
    end. discriminate.
  - intros Hreach Hout.
    assert (forall court, fetchrow_court (db w) name = Ok (Some court) ->
              partial_data_store w !! store_key (c_id court) m y = None)
      as Hnone.
    { intros court _. apply reachable_out_of_bounds_no_entry; assumption. }
    tool_unfold; cbn.
    destruct (fetchrow_court (db w) name) as [[court|]|e] eqn:Hcourt; cbn.
    + rewrite (Hnone court eq_refl); cbn.
      split; [auto|]. split; [auto|]. intros court' [= <-].
      split; [exact (Hnone court eq_refl)|]. repeat split.
    + split; [auto|]. split; [auto|]. discriminate.
    + split; [eauto|]. split; [eauto|]. discriminate.
Qed.

(** X9.  Steps 1 and 2 never write to the database: whatever they answer, the
    database is the one they found and no [INSERT] is sent.  Step 1 changes
    the store at most at its own key; step 2 adds no key and removes none.
    Step 3 sends at most one [INSERT] and adds nothing to the store: what it
    leaves is the store it found, or that store without one key. *)
Theorem only_step3_writes_to_database
    (name : string) (m y : Z) (w : World)
    (br bp nr np dr dp : N)
    (p1r p1p p2r p2p p3r p3p p4r p4p d1r d1p d2r d2p d3r d3p : N)
    (c1r c1p c2r c2p c3r c3p c4r c4p : N) :
  let step1 := insert_step1_basic_metrics name m y br bp nr np dr dp w in
  let step2 := insert_step2_age_breakdowns name m y
                 p1r p1p p2r p2p p3r p3p p4r p4p d1r d1p d2r d2p d3r d3p w in
  let step3 := insert_step3_additional_metrics name m y
                 c1r c1p c2r c2p c3r c3p c4r c4p w in
  (db step1.2 = db w
   /\ inserts_issued step1.2 = inserts_issued w
   /\ (partial_data_store step1.2 = partial_data_store w
       \/ exists court entry,
            fetchrow_court (db w) name = Ok (Some court)
            /\ partial_data_store step1.2
               = <[store_key (c_id court) m y := entry]> (partial_data_store w)))
  /\ (db step2.2 = db w
      /\ inserts_issued step2.2 = inserts_issued w
      /\ dom (partial_data_store step2.2) = dom (partial_data_store w))
  /\ ((inserts_issued step3.2 = inserts_issued w
       \/ exists row, inserts_issued step3.2 = inserts_issued w ++ [InsertRow row])
      /\ (partial_data_store step3.2 = partial_data_store w
          \/ exists court,
               fetchrow_court (db w) name = Ok (Some court)
               /\ partial_data_store step3.2
                  = delete (store_key (c_id court) m y) (partial_data_store w))).
Proof.
  cbn zeta. split; [|split].
  - tool_cases; repeat split; eauto.
  - tool_cases; repeat split; rewrite ?dom_alter_L; reflexivity.
  - tool_cases; split; eauto.
Qed.

(** X10.  Workflows do not meet.  A data-entry call for a court that is found and
    a period leaves the entry of every other (court id, month, year) as it
    was: the key of the store tells the three apart. *)
Theorem data_entry_keeps_other_keys
    (name : string) (court : Court) (m y : Z) (w : World)
    (court_id' m' y' : Z)
    (br bp nr np dr dp : N)
    (p1r p1p p2r p2p p3r p3p p4r p4p d1r d1p d2r d2p d3r d3p : N)
    (c1r c1p c2r c2p c3r c3p c4r c4p : N) :
  fetchrow_court (db w) name = Ok (Some court) ->
  (c_id court, m, y) <> (court_id', m', y') ->
  let step1 := insert_step1_basic_metrics name m y br bp nr np dr dp w in
  let step2 := insert_step2_age_breakdowns name m y
                 p1r p1p p2r p2p p3r p3p p4r p4p d1r d1p d2r d2p d3r d3p w in
  let step3 := insert_step3_additional_metrics name m y
                 c1r c1p c2r c2p c3r c3p c4r c4p w in
  partial_data_store step1.2 !! store_key court_id' m' y'
  = partial_data_store w !! store_key court_id' m' y'
  /\ partial_data_store step2.2 !! store_key court_id' m' y'
     = partial_data_store w !! store_key court_id' m' y'
  /\ partial_data_store step3.2 !! store_key court_id' m' y'
     = partial_data_store w !! store_key court_id' m' y'.
Proof.
  intros Hcourt Hother; cbn zeta.
  assert (store_key (c_id court) m y <> store_key court_id' m' y') as Hkey.
  { intros (Hi & Hm & Hy)%store_key_inj. congruence. }
  split; [|split]; tool_unfold; cbn;
    [destruct (validate_month_year m y); cbn; [|reflexivity] | | ];
    rewrite Hcourt; cbn;
    repeat case_match; simplify_eq; cbn;
    rewrite ?lookup_insert_ne, ?lookup_alter_ne, ?lookup_delete_ne by exact Hkey;
    reflexivity.
Qed.

(** X11.  The order of step 1.  A period out of bounds is turned away before any
    query is sent; otherwise the court is looked up and, only if it is
    found, the committed record of (court id, month, year) is looked for.
    Nothing else is sent. *)
Theorem step1_checks_before_it_queries
    (name : string) (m y : Z) (w : World) (br bp nr np dr dp : N) :
  let step1 := insert_step1_basic_metrics name m y br bp nr np dr dp w in
  (~ period_in_bounds m y ->
   db_calls step1.2 = db_calls w
   /\ (step1.1 = ValidationErrorResponse (MonthOutOfRange m)
       \/ step1.1 = ValidationErrorResponse (YearInvalid y)))
  /\ (period_in_bounds m y ->
      match fetchrow_court (db w) name with
      | Ok (Some court) =>
          db_calls step1.2
          = db_calls w ++ [SelectCourt name; SelectExists (c_id court) m y]
      | _ => db_calls step1.2 = db_calls w ++ [SelectCourt name]
      end).
Proof.
  cbn zeta. split.
  - intros Hout. tool_unfold. unfold validate_month_year.
    destruct (negb ((1 <=? m)%Z && (m <=? 12)%Z)) eqn:Hm; cbn; [auto|].
    destruct (negb ((2020 <=? y)%Z && (y <=? 2030)%Z)) eqn:Hy; cbn; [auto|].
    exfalso. apply Hout. unfold period_in_bounds.
    apply negb_false_iff, andb_prop in Hm as [?%Z.leb_le ?%Z.leb_le].
    apply negb_false_iff, andb_prop in Hy as [?%Z.leb_le ?%Z.leb_le]. lia.
  - intros [Hm Hy]. tool_unfold. unfold validate_month_year.
    replace (1 <=? m)%Z with true by (symmetry; apply Z.leb_le; lia).
    replace (m <=? 12)%Z with true by (symmetry; apply Z.leb_le; lia).
    replace (2020 <=? y)%Z with true by (symmetry; apply Z.leb_le; lia).
    replace (y <=? 2030)%Z with true by (symmetry; apply Z.leb_le; lia).
    cbn.
    destruct (fetchrow_court (db w) name) as [[court|]|e]; cbn;
      try reflexivity.
    destruct (fetchval_exists (db w) (c_id court) m y) as [[]|e]; cbn;
      rewrite <- ?app_assoc; try reflexivity.
    destruct (validate_basic_metrics br bp nr np dr dp); cbn;
      rewrite <- ?app_assoc; reflexivity.
Qed.

(** X12.  Step 1 starts the workflow of its key afresh.  When it succeeds, the
    entry it stores replaces whatever the store held for the key: the entry
    has the counts just calculated, [step1_complete] and no age breakdowns,
    so that step 3, run next for the key, is told to complete step 2
    first. *)
Theorem step1_starts_afresh
    (name : string) (m y : Z) (w : World) (br bp nr np dr dp : N)
    (calculated : BasicMetrics N) :
  let step1 := insert_step1_basic_metrics name m y br bp nr np dr dp w in
  step1.1 = Step1Complete name m y calculated ->
  exists court,
    fetchrow_court (db w) name = Ok (Some court)
    /\ validate_basic_metrics br bp nr np dr dp = Ok calculated
    /\ partial_data_store step1.2 !! store_key (c_id court) m y
       = Some {| court_id := c_id court; court_name := name;
                 month := m; year := y; calculated := calculated;
                 step1_complete := true; age_data := None;
                 step2_complete := false |}
    /\ forall c1r c1p c2r c2p c3r c3p c4r c4p,
         (insert_step3_additional_metrics name m y
            c1r c1p c2r c2p c3r c3p c4r c4p step1.2).1
         = MustCompleteStep2First.
Proof.
  cbn zeta. tool_unfold.
  destruct (validate_month_year m y); cbn; [|discriminate].
  destruct (fetchrow_court (db w) name) as [[court|]|e] eqn:Hcourt; cbn;
    try discriminate.
  destruct (fetchval_exists (db w) (c_id court) m y) as [[]|e]; cbn;
    try discriminate.
  destruct (validate_basic_metrics br bp nr np dr dp) as [calc|e]; cbn;
    [|discriminate].
  intros [= <-]. exists court.
  split; [reflexivity|]. split; [reflexivity|].
  split; [apply lookup_insert_eq|].
  intros. rewrite Hcourt; cbn. rewrite lookup_insert_eq; cbn. reflexivity.
Qed.

(** X13.  The three steps in a row.  For a court that is found, a period in bounds
    with no committed record, and values each validator accepts, step 1 and
    step 2 succeed, and step 3 sends one [INSERT]: the row of the court id,
    the month and the year with the values calculated by step 1, the age
    breakdowns of step 2 and the additional metrics of step 3.  In all, five
    queries are sent.  If the database accepts the row, step 3 succeeds and
    the store is the one before step 1 without the key; if the database
    raises, the answer is that exception and the entry stays in the store
    with both flags set. *)
Theorem three_steps_commit_the_row
    (name : string) (court : Court) (m y : Z) (w : World)
    (br bp nr np dr dp : N)
    (p1r p1p p2r p2p p3r p3p p4r p4p d1r d1p d2r d2p d3r d3p : N)
    (c1r c1p c2r c2p c3r c3p c4r c4p : N)
    (calculated : BasicMetrics N) (age : AgeBreakdowns N)
    (extra : AdditionalMetrics N) :
  period_in_bounds m y ->
  fetchrow_court (db w) name = Ok (Some court) ->
  fetchval_exists (db w) (c_id court) m y = Ok false ->
  validate_basic_metrics br bp nr np dr dp = Ok calculated ->
  validate_age_breakdowns
    (pending_rape calculated) (pending_pocso calculated)
    (disposed_rape calculated) (disposed_pocso calculated)
    p1r p1p p2r p2p p3r p3p p4r p4p d1r d1p d2r d2p d3r d3p = Ok age ->
  validate_additional_metrics
    (pending_rape calculated) (pending_pocso calculated)
    (disposed_rape calculated) (disposed_pocso calculated)
    c1r c1p c2r c2p c3r c3p c4r c4p = Ok extra ->
  let step1 := insert_step1_basic_metrics name m y br bp nr np dr dp w in
  let step2 := insert_step2_age_breakdowns name m y
                 p1r p1p p2r p2p p3r p3p p4r p4p d1r d1p d2r d2p d3r d3p
                 step1.2 in
  let step3 := insert_step3_additional_metrics name m y
                 c1r c1p c2r c2p c3r c3p c4r c4p step2.2 in
  let entry := {| court_id := c_id court; court_name := name;
                  month := m; year := y; calculated := calculated;
                  step1_complete := true; age_data := Some age;
                  step2_complete := true |} in
  let row := {| row_court_id := c_id court; row_month := m; row_year := y;
                row_basic := calculated; row_age := age;
                row_additional := extra |} in
  step1.1 = Step1Complete name m y calculated
  /\ step2.1 = Step2Complete name m y age
  /\ partial_data_store step2.2
     = <[store_key (c_id court) m y := entry]> (partial_data_store w)
  /\ db_calls step3.2
     = db_calls w ++ [SelectCourt name; SelectExists (c_id court) m y;
                      SelectCourt name; SelectCourt name; InsertRow row]
  /\ match execute_insert (db w) row with
     | Ok d' =>
         step3.1 = DataEntryComplete court m y
                     {| partial_data := entry; additional := extra |}
         /\ db step3.2 = d'
         /\ partial_data_store step3.2
            = delete (store_key (c_id court) m y) (partial_data_store w)
     | Raise e =>
         step3.1 = ErrorResponse e
         /\ db step3.2 = db w
         /\ partial_data_store step3.2 = partial_data_store step2.2
     end.
Proof.
  intros [Hm Hy] Hcourt Hexists Hbasic Hage Hextra; cbn zeta.
  tool_unfold. unfold validate_month_year.
  replace (1 <=? m)%Z with true by (symmetry; apply Z.leb_le; lia).
  replace (m <=? 12)%Z with true by (symmetry; apply Z.leb_le; lia).
  replace (2020 <=? y)%Z with true by (symmetry; apply Z.leb_le; lia).
  replace (y <=? 2030)%Z with true by (symmetry; apply Z.leb_le; lia).
  cbn. rewrite Hcourt; cbn. rewrite Hexists; cbn. rewrite Hbasic; cbn.
  rewrite Hcourt; cbn. rewrite lookup_insert_eq; cbn. rewrite Hage; cbn.
  rewrite Hcourt; cbn. rewrite !alter_insert_eq, lookup_insert_eq; cbn.
  rewrite Hextra; cbn.
  split; [reflexivity|]. split; [reflexivity|]. split; [reflexivity|].
  destruct (execute_insert (db w) _) as [d'|e]; cbn;
    rewrite <- !app_assoc; cbn.
  - split; [reflexivity|]. split; [reflexivity|]. split; [reflexivity|].
    apply delete_insert_eq.
  - repeat split; reflexivity.
Qed.

(** X27.  Step 2 may be run again.  When it succeeds, the entry of the key keeps
    its court, period and step-1 counts, holds the age breakdowns just
    validated against those counts in place of any it held before, and has
    [step2_complete] set; no other key is touched. *)
Theorem step2_replaces_breakdown
    (name : string) (m y : Z) (w : World)
    (p1r p1p p2r p2p p3r p3p p4r p4p d1r d1p d2r d2p d3r d3p : N)
    (age : AgeBreakdowns N) :
  let step2 := insert_step2_age_breakdowns name m y
                 p1r p1p p2r p2p p3r p3p p4r p4p d1r d1p d2r d2p d3r d3p w in
  step2.1 = Step2Complete name m y age ->
  exists court entry,
    fetchrow_court (db w) name = Ok (Some court)
    /\ partial_data_store w !! store_key (c_id court) m y = Some entry
    /\ step1_complete entry = true
    /\ validate_age_breakdowns
         (pending_rape (calculated entry)) (pending_pocso (calculated entry))
         (disposed_rape (calculated entry)) (disposed_pocso (calculated entry))
         p1r p1p p2r p2p p3r p3p p4r p4p d1r d1p d2r d2p d3r d3p = Ok age
    /\ partial_data_store step2.2
       = <[store_key (c_id court) m y :=
             {| court_id := court_id entry; court_name := court_name entry;
                month := month entry; year := year entry;
                calculated := calculated entry;
                step1_complete := step1_complete entry;
                age_data := Some age; step2_complete := true |}]>
         (partial_data_store w).
Proof.
  cbn zeta. tool_unfold.
  destruct (fetchrow_court (db w) name) as [[court|]|e] eqn:Hcourt; cbn;
    try discriminate.
  destruct (partial_data_store w !! store_key (c_id court) m y)
    as [entry|] eqn:Hentry; cbn; try discriminate.
  destruct (step1_complete entry) eqn:Hflag; cbn; try discriminate.
  destruct (validate_age_breakdowns _ _ _ _ _ _ _ _ _ _ _ _ _ _ _ _ _ _)
    as [age'|e] eqn:Hv; cbn; try discriminate.
  intros [= <-]. exists court, entry.
  split; [reflexivity|]. split; [exact Hentry|]. split; [exact Hflag|].
  split; [exact Hv|].
  rewrite alter_alter_eq. apply map_eq. intros key.
  destruct (decide (key = store_key (c_id court) m y)) as [->|Hne].
  - rewrite lookup_alter_eq, lookup_insert_eq, Hentry. cbn.
    reflexivity.
  - rewrite lookup_alter_ne, lookup_insert_ne by congruence. reflexivity.
Qed.

End ServerFacts.

(** ** validators.py: what is checked, in which order, and what is not *)

Section ValidatorOrder.
Context {N : Type} `{PyNum N}.
Local Open Scope py_scope.

(** X1.  [validate_month_year] returns [True] exactly for a month from 1 to 12 and
    a year from 2020 to 2030, bounds included.  The month is checked first: a
    month out of range is the error reported, whatever the year; the year is
    reported only when the month is in range. *)
Theorem validate_month_year_bounds (m y : Z) :
  (validate_month_year (N:=N) m y = Ok true <-> period_in_bounds m y)
  /\ (~ (1 <= m <= 12)%Z ->
      validate_month_year (N:=N) m y = Raise (MonthOutOfRange m))
  /\ ((1 <= m <= 12)%Z -> ~ (2020 <= y <= 2030)%Z ->
      validate_month_year (N:=N) m y = Raise (YearInvalid y)).
Proof.
  unfold validate_month_year, period_in_bounds.
  destruct (Z.leb_spec 1 m), (Z.leb_spec m 12); cbn;
    try (split; [split; [discriminate | lia] | split; [reflexivity | lia]]);
    destruct (Z.leb_spec 2020 y), (Z.leb_spec y 2030); cbn;
    (split; [split; [try discriminate; lia | try reflexivity; lia]
            | split; [lia | try reflexivity; lia]]).
Qed.

(** X2.  [validate_age_breakdowns] reports the first of its four comparisons that
    fails, in the order RAPE pendency, POCSO pendency, RAPE disposal, POCSO
    disposal, with the bucket sum and the value it was compared with; later
    comparisons are not looked at.  It succeeds when none fails. *)
Theorem validate_age_breakdowns_reports_first_mismatch
    (pending_rape pending_pocso disposed_rape disposed_pocso
     p1r p1p p2r p2p p3r p3p p4r p4p d1r d1p d2r d2p d3r d3p : N) :
  let comparisons :=
    [ (RAPE, Pendency, p1r + p2r + p3r + p4r, pending_rape);
      (POCSO, Pendency, p1p + p2p + p3p + p4p, pending_pocso);
      (RAPE, Disposal, d1r + d2r + d3r, disposed_rape);
      (POCSO, Disposal, d1p + d2p + d3p, disposed_pocso) ] in
  let v := validate_age_breakdowns
             pending_rape pending_pocso disposed_rape disposed_pocso
             p1r p1p p2r p2p p3r p3p p4r p4p d1r d1p d2r d2p d3r d3p in
  match List.find (fun '(_, _, total, given) => total != given) comparisons with
  | Some (cat, which, total, given) =>
      v = Raise (BreakdownSumMismatch cat which total given)
  | None => exists r, v = Ok r
  end.
Proof.
  cbn zeta. unfold validate_age_breakdowns. cbn [List.find].
  repeat match goal with
         | |- context [negb (?a == ?b)] => destruct (a == b); cbn [negb]
         end; try reflexivity.
  eexists. reflexivity.
Qed.

(** X3.  [validate_additional_metrics] reports the first of its six subset checks
    that fails, in the order contested, disposal within five years, pending
    over five years, RAPE before POCSO in each, with the value and the bound
    it exceeds.  It succeeds when none fails. *)
Theorem validate_additional_metrics_reports_first_violation
    (pending_rape pending_pocso disposed_rape disposed_pocso
     contested_rape contested_pocso disposal_5y_rape disposal_5y_pocso
     pending_over_5y_rape pending_over_5y_pocso
     convictions_rape convictions_pocso : N) :
  let checks :=
    [ (Contested, RAPE, contested_rape, disposed_rape);
      (Contested, POCSO, contested_pocso, disposed_pocso);
      (Disposal5y, RAPE, disposal_5y_rape, disposed_rape);
      (Disposal5y, POCSO, disposal_5y_pocso, disposed_pocso);
      (PendingOver5y, RAPE, pending_over_5y_rape, pending_rape);
      (PendingOver5y, POCSO, pending_over_5y_pocso, pending_pocso) ] in
  let v := validate_additional_metrics
             pending_rape pending_pocso disposed_rape disposed_pocso
             contested_rape contested_pocso disposal_5y_rape disposal_5y_pocso
             pending_over_5y_rape pending_over_5y_pocso
             convictions_rape convictions_pocso in
  match List.find (fun '(_, _, value, bound) => value > bound) checks with
  | Some (field, cat, value, bound) =>
      v = Raise (CannotExceed field cat value bound)
  | None => exists r, v = Ok r
  end.
Proof.
  cbn zeta. unfold validate_additional_metrics. cbn [List.find].
  repeat match goal with
         | |- context [if ?a > ?b then _ else _] => destruct (a > b)
         end; try reflexivity.
  eexists. reflexivity.
Qed.

(** X4.  The convictions are not validated.  [validate_additional_metrics] passes
    them through: with other convictions the call fails with the same error
    or succeeds with the same record, the two conviction fields apart.  So a
    conviction count above the disposed count, or a negative one, is
    accepted. *)
Theorem convictions_are_not_validated
    (pr pp dr dp c1 c2 d1 d2 o1 o2 k1 k2 k1' k2' : N) :
  match validate_additional_metrics pr pp dr dp c1 c2 d1 d2 o1 o2 k1 k2,
        validate_additional_metrics pr pp dr dp c1 c2 d1 d2 o1 o2 k1' k2' with
  | Ok r, Ok r' =>
      convictions_rape r = k1 /\ convictions_pocso r = k2
      /\ r' = {| contested_rape := contested_rape r;
                 contested_pocso := contested_pocso r;
                 contested_total := contested_total r;
                 disposal_5y_rape := disposal_5y_rape r;
                 disposal_5y_pocso := disposal_5y_pocso r;
                 disposal_5y_total := disposal_5y_total r;
                 pending_over_5y_rape := pending_over_5y_rape r;
                 pending_over_5y_pocso := pending_over_5y_pocso r;
                 pending_over_5y_total := pending_over_5y_total r;
                 convictions_rape := k1';
                 convictions_pocso := k2' |}
  | Raise e, Raise e' => e = e'
  | _, _ => False
  end.
Proof.
  unfold validate_additional_metrics.
  repeat match goal with
         | |- context [if ?a > ?b then _ else _] => destruct (a > b)
         end; try reflexivity.
  repeat split.
Qed.

End ValidatorOrder.

(** ** Comparing integers as binary64 floats *)

Lemma compare_cont_pow2_mul (k : nat) (m1 m2 : positive) :
  Pos.compare_cont Eq (pow2_mul k m1) (pow2_mul k m2) = Pos.compare_cont Eq m1 m2.
Proof. induction k as [|k IH]; cbn [pow2_mul Pos.compare_cont]; auto. Qed.

(** A mantissa of fewer bits is the smaller one. *)
Lemma mantissa_digits_lt (m1 m2 : positive) :
  mantissa_digits m1 < mantissa_digits m2 -> (m1 < m2)%positive.
Proof.
  unfold mantissa_digits.
  rewrite (digits2_pos_size m1), (digits2_pos_size m2). intros Hlt.
  assert (Zpos m1 < Zpos (2 ^ Pos.size m1))%Z as Hgt by exact (Pos.size_gt m1).
  assert (Zpos (2 ^ Pos.size m2) <= Zpos m2~0)%Z as Hle by exact (Pos.size_le m2).
  rewrite Pos2Z.inj_pow in Hgt, Hle.
  change (Zpos m2~0) with (2 * Zpos m2)%Z in Hle.
  change (Zpos 2) with 2%Z in Hgt, Hle.
  assert (2 ^ (Zpos (Pos.size m1) + 1) <= 2 ^ Zpos (Pos.size m2))%Z as Hpow.
  { apply Z.pow_le_mono_r; lia. }
  rewrite Z.pow_add_r, Z.pow_1_r in Hpow by lia.
  change (Zpos m1 < Zpos m2)%Z. lia.
Qed.

Lemma SFcompare_canonical (s : bool) (m1 m2 : positive) :
  mantissa_digits m1 <= 53 -> mantissa_digits m2 <= 53 ->
  SFcompare (canonical_float s m1) (canonical_float s m2)
  = Some (if s then CompOpp (m1 ?= m2)%positive else (m1 ?= m2)%positive).
Proof.
  intros H1 H2. unfold canonical_float, SFcompare.
  destruct (Z.compare_spec (Z.of_nat (mantissa_digits m1) - 53)
                           (Z.of_nat (mantissa_digits m2) - 53)) as [Heq|Hlt|Hgt].
  - assert (mantissa_digits m1 = mantissa_digits m2) as -> by lia.
    rewrite compare_cont_pow2_mul. destruct s; reflexivity.
  - assert ((m1 ?= m2)%positive = Lt) as ->
      by (apply Pos.compare_lt_iff, mantissa_digits_lt; lia).
    destruct s; reflexivity.
  - assert ((m1 ?= m2)%positive = Gt) as ->
      by (apply Pos.compare_gt_iff, mantissa_digits_lt; lia).
    destruct s; reflexivity.
Qed.

(** Below [2^53] the floats of two integers compare as the integers. *)
Lemma SFcompare_SFofZ (a b : Z) :
  (Z.abs a < 2 ^ 53)%Z -> (Z.abs b < 2 ^ 53)%Z ->
  SFcompare (SFofZ a) (SFofZ b) = Some (a ?= b)%Z.
Proof.
  intros Ha Hb.
  assert (forall z, z <> 0%Z -> (Z.abs z < 2 ^ 53)%Z ->
            mantissa_digits (Z.to_pos (Z.abs z)) <= 53) as Hdigits.
  { intros z Hz Hlt. apply digits_le. change (Z.of_nat 53) with 53%Z. lia. }
  destruct (Z.eq_dec a 0%Z) as [->|Hna], (Z.eq_dec b 0%Z) as [->|Hnb].
  - reflexivity.
  - rewrite (SFofZ_canonical b) by assumption.
    destruct b; [congruence | reflexivity | reflexivity].
  - rewrite (SFofZ_canonical a) by assumption.
    destruct a; [congruence | reflexivity | reflexivity].
  - rewrite (SFofZ_canonical a), (SFofZ_canonical b) by assumption.
    pose proof (Hdigits a Hna Ha) as Hda. pose proof (Hdigits b Hnb Hb) as Hdb.
    destruct a as [|p|p], b as [|q|q]; try congruence;
      try reflexivity;
      unfold Zsign; cbn [Z.abs Z.to_pos Z.ltb Z.compare] in *.
    + rewrite (SFcompare_canonical false) by assumption. reflexivity.
    + rewrite (SFcompare_canonical true) by assumption. reflexivity.
Qed.

Lemma float_of_Z_eqb (a b : Z) :
  (Z.abs a < 2 ^ 53)%Z -> (Z.abs b < 2 ^ 53)%Z ->
  (float_of_Z a =? float_of_Z b)%float = (a =? b)%Z.
Proof.
  intros Ha Hb.
  rewrite FloatAxioms.eqb_spec, !Prim2SF_float_of_Z by assumption.
  unfold SFeqb. rewrite SFcompare_SFofZ by assumption.
  rewrite Z.eqb_compare. reflexivity.
Qed.

Lemma float_of_Z_ltb (a b : Z) :
  (Z.abs a < 2 ^ 53)%Z -> (Z.abs b < 2 ^ 53)%Z ->
  (float_of_Z a <? float_of_Z b)%float = (a <? b)%Z.
Proof.
  intros Ha Hb.
  rewrite FloatAxioms.ltb_spec, !Prim2SF_float_of_Z by assumption.
  unfold SFltb. rewrite SFcompare_SFofZ by assumption. reflexivity.
Qed.

Lemma float_of_Z_leb (a b : Z) :
  (Z.abs a < 2 ^ 53)%Z -> (Z.abs b < 2 ^ 53)%Z ->
  (float_of_Z a <=? float_of_Z b)%float = (a <=? b)%Z.
Proof.
  intros Ha Hb.
  rewrite FloatAxioms.leb_spec, !Prim2SF_float_of_Z by assumption.
  unfold SFleb. rewrite SFcompare_SFofZ by assumption.
  unfold Z.leb. destruct (a ?= b)%Z; reflexivity.
Qed.

Lemma float_of_Z_gtb (a b : Z) :
  (Z.abs a < 2 ^ 53)%Z -> (Z.abs b < 2 ^ 53)%Z ->
  (float_of_Z b <? float_of_Z a)%float = (a >? b)%Z.
Proof.
  intros Ha Hb. rewrite float_of_Z_ltb by assumption. symmetry. apply Z.gtb_ltb.
Qed.

Lemma int_eqb_exact (a b : Z) :
  in_range (N:=Z) a -> in_range (N:=Z) b ->
  eqb (N:=Z) (of_int a) (of_int b) = (a =? b)%Z.
Proof. reflexivity. Qed.

Lemma int_gtb_exact (a b : Z) :
  in_range (N:=Z) a -> in_range (N:=Z) b ->
  gtb (N:=Z) (of_int a) (of_int b) = (a >? b)%Z.
Proof. reflexivity. Qed.

Lemma int_leb_exact (a b : Z) :
  in_range (N:=Z) a -> in_range (N:=Z) b ->
  leb (N:=Z) (of_int a) (of_int b) = (a <=? b)%Z.
Proof. reflexivity. Qed.

#[export] Instance OrderedOnIntegers_int : OrderedOnIntegers Z :=
  Build_OrderedOnIntegers Z _ _ eq_refl int_eqb_exact int_gtb_exact int_leb_exact.

Example float_of_Z_0 : float_of_Z 0 = 0%float.
Proof. vm_compute. reflexivity. Qed.

#[export] Instance OrderedOnIntegers_float : OrderedOnIntegers float :=
  Build_OrderedOnIntegers float _ _
    (eq_sym float_of_Z_0) float_of_Z_eqb float_of_Z_gtb float_of_Z_leb.

(** ** The age breakdowns on exact integers *)

Section ExactSumFacts.
Context {N : Type} `{OrderedOnIntegers N}.

(** Name the magnitude of [x] and keep only its bounds. *)
Ltac magnitude x :=
  let A := fresh "A" in
  assert (- Z.abs x <= x <= Z.abs x)%Z by (clear; lia);
  set (A := Z.abs x) in *; clearbody A.

(** Turn the sums and comparisons of [of_int]s of a call into those of the
    integers; [Hin] gives the range. *)
Ltac integer_sums Hin :=
  unfold validate_age_breakdowns;
  repeat rewrite add_of_int by (apply Hin; lia);
  rewrite !eqb_of_int by (apply Hin; lia).

Ltac integer_guard Hin E :=
  repeat rewrite add_of_int in E by (apply Hin; lia);
  rewrite eqb_of_int in E by (apply Hin; lia);
  apply Z.eqb_eq in E.

(** C2, where the arithmetic is exact.  On counts that are integers of the
    exact range (Python [int]s; [float]s holding integers, the magnitudes of
    the eighteen values and of the change [delta] adding up to less than
    [2^53]), the sums being those of the integers:
    - [validate_age_breakdowns] succeeds exactly when, for each category, the
      four pendency buckets sum to the given pending value and the three
      disposal buckets sum to the given disposed value;
    - on success the four returned totals are those sums;
    - on any mismatch it fails with a sum mismatch, and every error it raises
      is a sum mismatch that names the category and the breakdown and carries
      both sides, which differ;
    - if it succeeds, then with any one of the fourteen buckets changed by
      [delta], one or any other amount that is not zero, up or down, it fails
      with a sum mismatch. *)
Theorem validate_age_breakdowns_exact_sums
    (pr pp dr dp a1 a2 a3 a4 a5 a6 a7 a8 b1 b2 b3 b4 b5 b6 delta : Z) :
  in_range (N:=N)
    (Z.abs pr + Z.abs pp + Z.abs dr + Z.abs dp
     + (Z.abs a1 + Z.abs a2 + Z.abs a3 + Z.abs a4
        + Z.abs a5 + Z.abs a6 + Z.abs a7 + Z.abs a8)
     + (Z.abs b1 + Z.abs b2 + Z.abs b3 + Z.abs b4 + Z.abs b5 + Z.abs b6)
     + Z.abs delta)%Z ->
  let call (a1 a2 a3 a4 a5 a6 a7 a8 b1 b2 b3 b4 b5 b6 : Z) :=
    validate_age_breakdowns (N:=N)
      (of_int pr) (of_int pp) (of_int dr) (of_int dp)
      (of_int a1) (of_int a2) (of_int a3) (of_int a4)
      (of_int a5) (of_int a6) (of_int a7) (of_int a8)
      (of_int b1) (of_int b2) (of_int b3) (of_int b4) (of_int b5) (of_int b6) in
  let v := call a1 a2 a3 a4 a5 a6 a7 a8 b1 b2 b3 b4 b5 b6 in
  let bucket_sum (cat : Category) (which : Breakdown) : Z :=
    match which, cat with
    | Pendency, RAPE => a1 + a3 + a5 + a7
    | Pendency, POCSO => a2 + a4 + a6 + a8
    | Disposal, RAPE => b1 + b3 + b5
    | Disposal, POCSO => b2 + b4 + b6
    end%Z in
  let given (cat : Category) (which : Breakdown) : Z :=
    match which, cat with
    | Pendency, RAPE => pr
    | Pendency, POCSO => pp
    | Disposal, RAPE => dr
    | Disposal, POCSO => dp
    end in
  let fails x := exists e, x = Raise e /\ validation_kind e = SumMismatch in
  ((exists r, v = Ok r) <->
   (forall cat which, bucket_sum cat which = given cat which))
  /\ (forall r, v = Ok r ->
        forall cat,
          match cat with
          | RAPE => total_pendency_rape r = of_int (bucket_sum RAPE Pendency)
                    /\ total_disposal_rape r = of_int (bucket_sum RAPE Disposal)
          | POCSO => total_pendency_pocso r = of_int (bucket_sum POCSO Pendency)
                     /\ total_disposal_pocso r = of_int (bucket_sum POCSO Disposal)
          end)
  /\ (forall cat which, bucket_sum cat which <> given cat which -> fails v)
  /\ (forall e, v = Raise e ->
        validation_kind e = SumMismatch
        /\ exists cat which,
             e = BreakdownSumMismatch cat which
                   (of_int (bucket_sum cat which)) (of_int (given cat which))
             /\ bucket_sum cat which <> given cat which)
  /\ (delta <> 0%Z -> (exists r, v = Ok r) ->
      fails (call (a1 + delta) a2 a3 a4 a5 a6 a7 a8 b1 b2 b3 b4 b5 b6)
      /\ fails (call a1 (a2 + delta) a3 a4 a5 a6 a7 a8 b1 b2 b3 b4 b5 b6)
      /\ fails (call a1 a2 (a3 + delta) a4 a5 a6 a7 a8 b1 b2 b3 b4 b5 b6)
      /\ fails (call a1 a2 a3 (a4 + delta) a5 a6 a7 a8 b1 b2 b3 b4 b5 b6)
      /\ fails (call a1 a2 a3 a4 (a5 + delta) a6 a7 a8 b1 b2 b3 b4 b5 b6)
      /\ fails (call a1 a2 a3 a4 a5 (a6 + delta) a7 a8 b1 b2 b3 b4 b5 b6)
      /\ fails (call a1 a2 a3 a4 a5 a6 (a7 + delta) a8 b1 b2 b3 b4 b5 b6)
      /\ fails (call a1 a2 a3 a4 a5 a6 a7 (a8 + delta) b1 b2 b3 b4 b5 b6)
      /\ fails (call a1 a2 a3 a4 a5 a6 a7 a8 (b1 + delta) b2 b3 b4 b5 b6)
      /\ fails (call a1 a2 a3 a4 a5 a6 a7 a8 b1 (b2 + delta) b3 b4 b5 b6)
      /\ fails (call a1 a2 a3 a4 a5 a6 a7 a8 b1 b2 (b3 + delta) b4 b5 b6)
      /\ fails (call a1 a2 a3 a4 a5 a6 a7 a8 b1 b2 b3 (b4 + delta) b5 b6)
      /\ fails (call a1 a2 a3 a4 a5 a6 a7 a8 b1 b2 b3 b4 (b5 + delta) b6)
      /\ fails (call a1 a2 a3 a4 a5 a6 a7 a8 b1 b2 b3 b4 b5 (b6 + delta)))%Z.
Proof using Type*.
  intros Hrange call v bucket_sum given fails.
  subst call v bucket_sum given fails. cbn beta.
  match type of Hrange with
  | in_range ?total =>
      assert (forall z : Z, (Z.abs z <= total)%Z -> in_range (N:=N) z) as Hin
        by (intros z Hz; apply (in_range_le _ z Hrange);
            rewrite (Z.abs_eq total)
              by (repeat apply Z.add_nonneg_nonneg; apply Z.abs_nonneg);
            exact Hz)
  end.
  clear Hrange.
  magnitude pr. magnitude pp. magnitude dr. magnitude dp.
  magnitude a1. magnitude a2. magnitude a3. magnitude a4.
  magnitude a5. magnitude a6. magnitude a7. magnitude a8.
  magnitude b1. magnitude b2. magnitude b3. magnitude b4.
  magnitude b5. magnitude b6. magnitude delta.
  split; [|split; [|split; [|split]]].
  - (* success exactly when the four sums are the given values *)
    integer_sums Hin. split.
    + intros [r Hr] cat which.
      destruct (Z.eqb_spec (a1 + a3 + a5 + a7) pr); cbn [negb] in Hr; [|discriminate].
      destruct (Z.eqb_spec (a2 + a4 + a6 + a8) pp); cbn [negb] in Hr; [|discriminate].
      destruct (Z.eqb_spec (b1 + b3 + b5) dr); cbn [negb] in Hr; [|discriminate].
      destruct (Z.eqb_spec (b2 + b4 + b6) dp); cbn [negb] in Hr; [|discriminate].
      destruct cat, which; assumption.
    + intros Hall.
      rewrite (proj2 (Z.eqb_eq _ _) (Hall RAPE Pendency)),
              (proj2 (Z.eqb_eq _ _) (Hall POCSO Pendency)),
              (proj2 (Z.eqb_eq _ _) (Hall RAPE Disposal)),
              (proj2 (Z.eqb_eq _ _) (Hall POCSO Disposal)).
      cbn [negb]. eexists; reflexivity.
  - (* the totals *)
    integer_sums Hin. intros r Hr cat.
    repeat (destruct (negb _); [discriminate|]).
    injection Hr as <-. destruct cat; cbn; split; reflexivity.
  - (* any mismatch is reported *)
    intros cat which Hne.
    destruct (validate_age_breakdowns _ _ _ _ _ _ _ _ _ _ _ _ _ _ _ _ _ _)
      as [r|e] eqn:Hv.
    + exfalso. apply validate_age_breakdowns_Ok in Hv as (E1 & E2 & E3 & E4).
      integer_guard Hin E1. integer_guard Hin E2.
      integer_guard Hin E3. integer_guard Hin E4.
      destruct cat, which; contradiction.
    + exists e. split; [reflexivity|].
      eapply validate_age_breakdowns_Raise; exact Hv.
  - (* what an error carries *)
    integer_sums Hin. intros e He.
    destruct (Z.eqb_spec (a1 + a3 + a5 + a7) pr); cbn [negb] in He;
      [|injection He as <-; split; [reflexivity|];
        exists RAPE, Pendency; split; [reflexivity|assumption]].
    destruct (Z.eqb_spec (a2 + a4 + a6 + a8) pp); cbn [negb] in He;
      [|injection He as <-; split; [reflexivity|];
        exists POCSO, Pendency; split; [reflexivity|assumption]].
    destruct (Z.eqb_spec (b1 + b3 + b5) dr); cbn [negb] in He;
      [|injection He as <-; split; [reflexivity|];
        exists RAPE, Disposal; split; [reflexivity|assumption]].
    destruct (Z.eqb_spec (b2 + b4 + b6) dp); cbn [negb] in He;
      [|injection He as <-; split; [reflexivity|];
        exists POCSO, Disposal; split; [reflexivity|assumption]].
    discriminate.
  - (* one bucket changed *)
    intros Hdelta [r Hok].
    apply validate_age_breakdowns_Ok in Hok as (E1 & E2 & E3 & E4).
    integer_guard Hin E1. integer_guard Hin E2.
    integer_guard Hin E3. integer_guard Hin E4.
    repeat split;
      match goal with
      | |- exists e, ?x = Raise e /\ _ =>
          destruct x as [r'|e] eqn:Hv;
          [ exfalso;
            apply validate_age_breakdowns_Ok in Hv as (E1' & E2' & E3' & E4');
            integer_guard Hin E1'; integer_guard Hin E2';
            integer_guard Hin E3'; integer_guard Hin E4'; lia
          | exists e; split; [reflexivity|];
            eapply validate_age_breakdowns_Raise; exact Hv ]
      end.
Qed.

End ExactSumFacts.

(** The counts of [example.py] as floats: the breakdown is accepted with its
    totals, and with the first bucket one more or one less it is rejected. *)
Lemma validate_age_breakdowns_exact_sums_example :
  (exists r,
     validate_age_breakdowns 51%float 31%float 4%float 2%float
       10%float 5%float 15%float 10%float 20%float 12%float 6%float 4%float
       1%float 1%float 2%float 1%float 1%float 0%float = Ok r
     /\ total_pendency_rape r = 51%float /\ total_disposal_rape r = 4%float)
  /\ (exists e,
        validate_age_breakdowns 51%float 31%float 4%float 2%float
          11%float 5%float 15%float 10%float 20%float 12%float 6%float 4%float
          1%float 1%float 2%float 1%float 1%float 0%float = Raise e
        /\ validation_kind e = SumMismatch)
  /\ (exists e,
        validate_age_breakdowns 51%float 31%float 4%float 2%float
          9%float 5%float 15%float 10%float 20%float 12%float 6%float 4%float
          1%float 1%float 2%float 1%float 1%float 0%float = Raise e
        /\ validation_kind e = SumMismatch).
Proof.
  destruct (validate_age_breakdowns_exact_sums (N:=float)
              51 31 4 2 10 5 15 10 20 12 6 4 1 1 2 1 1 0 1)
    as (Hiff & Htotals & _ & _ & Hup); [vm_compute; reflexivity|].
  destruct (validate_age_breakdowns_exact_sums (N:=float)
              51 31 4 2 10 5 15 10 20 12 6 4 1 1 2 1 1 0 (-1))
    as (_ & _ & _ & _ & Hdown); [vm_compute; reflexivity|].
  destruct (proj2 Hiff) as [r Hr]; [intros [] []; reflexivity|].
  split; [|split].
  - exists r. split; [exact Hr|]. exact (Htotals r Hr RAPE).
  - exact (proj1 (Hup ltac:(discriminate) (ex_intro _ r Hr))).
  - exact (proj1 (Hdown ltac:(discriminate) (ex_intro _ r Hr))).
Defined.

(** C2 fails on floats in general, both ways, since the sums are rounded.
    The pendency buckets [2^53, 1, 0, 0] are accepted against a pending count
    of [2^53], with [2^53] as their total, although they sum to [2^53 + 1]:
    the change by one of a bucket of the accepted breakdown [2^53, 0, 0, 0]
    goes unnoticed.  The buckets [2^53, 1, 1, 0] are rejected against a
    pending count of [2^53 + 2], to which they sum: each addition of one
    rounds back to [2^53]. *)
Lemma validate_age_breakdowns_float_sums_rounded :
  let two53 := 9007199254740992%float in
  let calls pending second third :=
    validate_age_breakdowns pending 0%float 0%float 0%float
      two53 0%float second 0%float third 0%float 0%float 0%float
      0%float 0%float 0%float 0%float 0%float 0%float in
  (two53 = of_int (2 ^ 53)
   /\ 9007199254740994%float = of_int (2 ^ 53 + 2)
   /\ 1%float = of_int 1 /\ 0%float = of_int 0)
  /\ (exists r, calls two53 0%float 0%float = Ok r)
  /\ ((exists r, calls two53 1%float 0%float = Ok r
                 /\ total_pendency_rape r = two53)
      /\ (2 ^ 53 + 1 + 0 + 0 =? 2 ^ 53)%Z = false)
  /\ (calls 9007199254740994%float 1%float 1%float
      = Raise (BreakdownSumMismatch RAPE Pendency two53 9007199254740994%float)
      /\ (2 ^ 53 + 1 + 1 + 0 =? 2 ^ 53 + 2)%Z = true).
Proof.
  cbn zeta. repeat split; try (eexists; split); vm_compute; reflexivity.
Qed.

(** ** The validators on exact integers *)

Section ExactOrderFacts.
Context {N : Type} `{OrderedOnIntegers N}.

(** Turn an accepted comparison of sums of [of_int]s into the equation of
    the integers; [Hin] gives the range. *)
Ltac integer_equation Hin E :=
  repeat rewrite add_of_int in E by (apply Hin; lia);
  rewrite eqb_of_int in E by (apply Hin; lia);
  apply Z.eqb_eq in E.

Ltac nonnegative :=
  repeat match goal with
         | H : Forall _ (_ :: _) |- _ => apply Forall_cons in H as [? H]
         end.

(** X5.  Any change of one bucket breaks a breakdown that added up.  On counts
    that are integers of the exact range (Python [int]s; [float]s holding
    integers, all the values and the size of the change adding up to less
    than [2^53]), if [validate_age_breakdowns] succeeds, then with any one of
    the fourteen buckets changed by one, or by any other amount that is not
    zero, it fails with a sum mismatch. *)
Theorem validate_age_breakdowns_perturbed
    (pr pp dr dp a1 a2 a3 a4 a5 a6 a7 a8 b1 b2 b3 b4 b5 b6 delta : Z) :
  Forall (fun x => (0 <= x)%Z)
         [pr; pp; dr; dp; a1; a2; a3; a4; a5; a6; a7; a8; b1; b2; b3; b4; b5; b6] ->
  in_range (N:=N)
    (pr + pp + dr + dp + (a1 + a2 + a3 + a4 + a5 + a6 + a7 + a8)
     + (b1 + b2 + b3 + b4 + b5 + b6) + Z.abs delta)%Z ->
  delta <> 0%Z ->
  let v (a1 a2 a3 a4 a5 a6 a7 a8 b1 b2 b3 b4 b5 b6 : Z) :=
    validate_age_breakdowns (N:=N)
      (of_int pr) (of_int pp) (of_int dr) (of_int dp)
      (of_int a1) (of_int a2) (of_int a3) (of_int a4)
      (of_int a5) (of_int a6) (of_int a7) (of_int a8)
      (of_int b1) (of_int b2) (of_int b3) (of_int b4) (of_int b5) (of_int b6) in
  let fails x := exists e, x = Raise e /\ validation_kind e = SumMismatch in
  (exists r, v a1 a2 a3 a4 a5 a6 a7 a8 b1 b2 b3 b4 b5 b6 = Ok r) ->
  (fails (v (a1 + delta) a2 a3 a4 a5 a6 a7 a8 b1 b2 b3 b4 b5 b6)
   /\ fails (v a1 (a2 + delta) a3 a4 a5 a6 a7 a8 b1 b2 b3 b4 b5 b6)
   /\ fails (v a1 a2 (a3 + delta) a4 a5 a6 a7 a8 b1 b2 b3 b4 b5 b6)
   /\ fails (v a1 a2 a3 (a4 + delta) a5 a6 a7 a8 b1 b2 b3 b4 b5 b6)
   /\ fails (v a1 a2 a3 a4 (a5 + delta) a6 a7 a8 b1 b2 b3 b4 b5 b6)
   /\ fails (v a1 a2 a3 a4 a5 (a6 + delta) a7 a8 b1 b2 b3 b4 b5 b6)
   /\ fails (v a1 a2 a3 a4 a5 a6 (a7 + delta) a8 b1 b2 b3 b4 b5 b6)
   /\ fails (v a1 a2 a3 a4 a5 a6 a7 (a8 + delta) b1 b2 b3 b4 b5 b6)
   /\ fails (v a1 a2 a3 a4 a5 a6 a7 a8 (b1 + delta) b2 b3 b4 b5 b6)
   /\ fails (v a1 a2 a3 a4 a5 a6 a7 a8 b1 (b2 + delta) b3 b4 b5 b6)
   /\ fails (v a1 a2 a3 a4 a5 a6 a7 a8 b1 b2 (b3 + delta) b4 b5 b6)
   /\ fails (v a1 a2 a3 a4 a5 a6 a7 a8 b1 b2 b3 (b4 + delta) b5 b6)
   /\ fails (v a1 a2 a3 a4 a5 a6 a7 a8 b1 b2 b3 b4 (b5 + delta) b6)
   /\ fails (v a1 a2 a3 a4 a5 a6 a7 a8 b1 b2 b3 b4 b5 (b6 + delta)))%Z.
Proof using Type*.
  intros Hpos Hrange Hdelta v fails [r Hok]. subst v fails. cbn beta in *.
  nonnegative.
  match type of Hrange with
  | in_range ?total =>
      assert (forall z : Z, (Z.abs z <= total)%Z -> in_range (N:=N) z) as Hin
        by (intros z Hz; apply (in_range_le _ z Hrange); lia)
  end.
  apply validate_age_breakdowns_Ok in Hok as (E1 & E2 & E3 & E4).
  integer_equation Hin E1. integer_equation Hin E2.
  integer_equation Hin E3. integer_equation Hin E4.
  repeat split;
    match goal with
    | |- exists e, ?x = Raise e /\ _ =>
        destruct x as [r'|e] eqn:Hv;
        [ exfalso;
          apply validate_age_breakdowns_Ok in Hv as (E1' & E2' & E3' & E4');
          integer_equation Hin E1'; integer_equation Hin E2';
          integer_equation Hin E3'; integer_equation Hin E4'; lia
        | exists e; split; [reflexivity|];
          eapply validate_age_breakdowns_Raise; exact Hv ]
    end.
Qed.

(** With a negative pending count and buckets that are not negative,
    [validate_age_breakdowns] fails on a pendency sum; [T] bounds the
    values. *)
Lemma negative_pending_breakdown_mismatch
    (T pr pp gr gp a1 a2 a3 a4 a5 a6 a7 a8 b1 b2 b3 b4 b5 b6 : Z) :
  Forall (fun x => (0 <= x)%Z)
         [gr; gp; a1; a2; a3; a4; a5; a6; a7; a8; b1; b2; b3; b4; b5; b6] ->
  in_range (N:=N) T ->
  (Z.abs pr <= T /\ Z.abs pp <= T /\ gr <= T /\ gp <= T
   /\ a1 + a2 + a3 + a4 + a5 + a6 + a7 + a8 <= T
   /\ b1 + b2 + b3 + b4 + b5 + b6 <= T)%Z ->
  (pr < 0 \/ pp < 0)%Z ->
  exists cat total given,
    validate_age_breakdowns (N:=N)
      (of_int pr) (of_int pp) (of_int gr) (of_int gp)
      (of_int a1) (of_int a2) (of_int a3) (of_int a4)
      (of_int a5) (of_int a6) (of_int a7) (of_int a8)
      (of_int b1) (of_int b2) (of_int b3) (of_int b4) (of_int b5) (of_int b6)
    = Raise (BreakdownSumMismatch cat Pendency total given).
Proof using Type*.
  intros Hpos Hrange Hbound Hneg. nonnegative.
  assert (forall z : Z, (Z.abs z <= T)%Z -> in_range (N:=N) z) as Hin
    by (intros z Hz; apply (in_range_le _ z Hrange); lia).
  unfold validate_age_breakdowns.
  repeat rewrite add_of_int by (apply Hin; lia).
  rewrite !eqb_of_int by (apply Hin; lia).
  destruct (Z.eqb_spec (a1 + a3 + a5 + a7) pr); cbn [negb];
    [|do 3 eexists; reflexivity].
  destruct (Z.eqb_spec (a2 + a4 + a6 + a8) pp); cbn [negb];
    [|do 3 eexists; reflexivity].
  exfalso. lia.
Qed.

(** X6.  A negative pending count cannot be completed with counts that are not
    negative.  [validate_basic_metrics] accepts more disposed cases than
    balance and new cases together and returns a negative pending count; on
    integers of the exact range, [validate_age_breakdowns] then rejects every
    breakdown whose buckets are not negative, with a pendency sum mismatch,
    and [validate_additional_metrics] rejects every choice of subset counts
    that are not negative. *)
Theorem negative_pending_needs_negative_counts
    (br bp nr np dr dp : Z)
    (a1 a2 a3 a4 a5 a6 a7 a8 b1 b2 b3 b4 b5 b6 : Z)
    (c1 c2 d1 d2 o1 o2 : Z) (k1 k2 : N) :
  Forall (fun x => (0 <= x)%Z) [br; bp; nr; np; dr; dp] ->
  Forall (fun x => (0 <= x)%Z)
         [a1; a2; a3; a4; a5; a6; a7; a8; b1; b2; b3; b4; b5; b6] ->
  Forall (fun x => (0 <= x)%Z) [c1; c2; d1; d2; o1; o2] ->
  in_range (N:=N)
    (br + bp + nr + np + dr + dp
     + (a1 + a2 + a3 + a4 + a5 + a6 + a7 + a8)
     + (b1 + b2 + b3 + b4 + b5 + b6)
     + (c1 + c2 + d1 + d2 + o1 + o2))%Z ->
  (dr > br + nr \/ dp > bp + np)%Z ->
  exists calculated,
    validate_basic_metrics (N:=N) (of_int br) (of_int bp) (of_int nr) (of_int np)
                           (of_int dr) (of_int dp) = Ok calculated
    /\ (exists cat total given,
          validate_age_breakdowns
            (pending_rape calculated) (pending_pocso calculated)
            (disposed_rape calculated) (disposed_pocso calculated)
            (of_int a1) (of_int a2) (of_int a3) (of_int a4)
            (of_int a5) (of_int a6) (of_int a7) (of_int a8)
            (of_int b1) (of_int b2) (of_int b3) (of_int b4)
            (of_int b5) (of_int b6)
          = Raise (BreakdownSumMismatch cat Pendency total given))
    /\ (exists field cat value bound,
          validate_additional_metrics
            (pending_rape calculated) (pending_pocso calculated)
            (disposed_rape calculated) (disposed_pocso calculated)
            (of_int c1) (of_int c2) (of_int d1) (of_int d2)
            (of_int o1) (of_int o2) k1 k2
          = Raise (CannotExceed field cat value bound)).
Proof using Type*.
  intros Hbasic Hage Hextra Hrange Hneg. nonnegative.
  match type of Hrange with
  | in_range ?total =>
      assert (forall z : Z, (Z.abs z <= total)%Z -> in_range (N:=N) z) as Hin
        by (intros z Hz; apply (in_range_le _ z Hrange); lia)
  end.
  eexists. split.
  { apply validate_basic_metrics_exact. apply Hin. lia. }
  cbn. split.
  - eapply negative_pending_breakdown_mismatch.
    + repeat (apply Forall_cons; split; [assumption|]). apply Forall_nil; exact I.
    + exact Hrange.
    + lia.
    + lia.
  - unfold validate_additional_metrics.
    rewrite !gtb_of_int by (apply Hin; lia).
    repeat match goal with
           | |- context [if (?a >? ?b)%Z then _ else _] =>
               destruct (Z.gtb_spec a b); [do 4 eexists; reflexivity|]
           end.
    exfalso. lia.
Qed.

End ExactOrderFacts.

Section ExactServerFacts.
Context {N : Type} `{OrderedOnIntegers N} `{Database N}.

(** X14.  Step 1 lets a negative pending count in, and step 2 then turns every
    honest breakdown away.  After a step 1 that succeeds on counts with more
    disposed cases than balance and new cases together, step 2 for the same
    court and period answers every breakdown whose buckets are not negative
    with a pendency sum mismatch, and leaves the entry as step 1 stored it
    (counts being integers of the exact range). *)
Theorem negative_pending_blocks_step2
    (name : string) (m y : Z) (w : World)
    (br bp nr np dr dp : Z)
    (a1 a2 a3 a4 a5 a6 a7 a8 b1 b2 b3 b4 b5 b6 : Z) :
  Forall (fun x => (0 <= x)%Z) [br; bp; nr; np; dr; dp] ->
  Forall (fun x => (0 <= x)%Z)
         [a1; a2; a3; a4; a5; a6; a7; a8; b1; b2; b3; b4; b5; b6] ->
  in_range (N:=N)
    (br + bp + nr + np + dr + dp
     + (a1 + a2 + a3 + a4 + a5 + a6 + a7 + a8)
     + (b1 + b2 + b3 + b4 + b5 + b6))%Z ->
  (dr > br + nr \/ dp > bp + np)%Z ->
  let step1 := insert_step1_basic_metrics name m y
                 (of_int br) (of_int bp) (of_int nr) (of_int np)
                 (of_int dr) (of_int dp) w in
  let step2 := insert_step2_age_breakdowns name m y
                 (of_int a1) (of_int a2) (of_int a3) (of_int a4)
                 (of_int a5) (of_int a6) (of_int a7) (of_int a8)
                 (of_int b1) (of_int b2) (of_int b3) (of_int b4)
                 (of_int b5) (of_int b6) step1.2 in
  response_kind step1.1 = None ->
  (exists cat total given,
     step2.1 = ValidationErrorResponse
                 (BreakdownSumMismatch cat Pendency total given))
  /\ partial_data_store step2.2 = partial_data_store step1.2.
Proof using Type*.
  intros Hbasic Hage Hrange Hneg; cbn zeta.
  assert (forall z : Z,
            (Z.abs z <= br + bp + nr + np + dr + dp
               + (a1 + a2 + a3 + a4 + a5 + a6 + a7 + a8)
               + (b1 + b2 + b3 + b4 + b5 + b6))%Z -> in_range (N:=N) z) as Hin.
  { intros z Hz. apply (in_range_le _ z Hrange). lia. }
  assert (exists cat total given,
            validate_age_breakdowns (N:=N)
              (of_int (br + nr - dr)) (of_int (bp + np - dp))
              (of_int dr) (of_int dp)
              (of_int a1) (of_int a2) (of_int a3) (of_int a4)
              (of_int a5) (of_int a6) (of_int a7) (of_int a8)
              (of_int b1) (of_int b2) (of_int b3) (of_int b4)
              (of_int b5) (of_int b6)
            = Raise (BreakdownSumMismatch cat Pendency total given))
    as (cat & total & given & Hraise).
  { repeat match goal with
           | Hl : Forall _ (_ :: _) |- _ => apply Forall_cons in Hl as [? Hl]
           end.
    eapply negative_pending_breakdown_mismatch.
    - repeat (apply Forall_cons; split; [assumption|]). apply Forall_nil; exact I.
    - exact Hrange.
    - lia.
    - lia. }
  repeat match goal with
         | Hl : Forall _ (_ :: _) |- _ => apply Forall_cons in Hl as [? Hl]
         end.
  unfold insert_step1_basic_metrics, insert_step2_age_breakdowns, try_except,
    mbind, mret, Body_bind, Body_ret, validated, get_court_by_name,
    check_existing_data, query, return_, store_get, store_set, store_modify.
  rewrite validate_basic_metrics_exact by (apply Hin; lia).
  destruct (validate_month_year m y); cbn; [|discriminate].
  destruct (fetchrow_court (db w) name) as [[court|]|e] eqn:Hcourt; cbn;
    try discriminate.
  destruct (fetchval_exists (db w) (c_id court) m y) as [[]|e]; cbn;
    try discriminate.
  intros _. rewrite Hcourt; cbn. rewrite lookup_insert_eq; cbn.
  rewrite Hraise; cbn. split; [|reflexivity]. eauto.
Qed.

(** X28.  The walk-through for all counts.  Take a court that is found, a period
    in bounds with no committed record, and counts that are not negative
    (integers of the exact range) such that, in each category, the pendency
    buckets add up to balance + new - disposed, the disposal buckets add up
    to the disposed count, and contested, five-year disposal and over-five-year
    pending counts are at most the disposed, disposed and pending counts.
    Then steps 1, 2 and 3 run in a row send one [INSERT]: the row of the court
    id, month and year whose derived fields are the integer sums and
    differences.  If the database accepts the row, step 3 succeeds and the
    key has no entry left; if the database raises, the answer is that
    exception. *)
Theorem three_steps_commit_exact_counts
    (name : string) (court : Court) (m y : Z) (w : World)
    (br bp nr np dr dp : Z)
    (a1 a2 a3 a4 a5 a6 a7 a8 b1 b2 b3 b4 b5 b6 : Z)
    (c1 c2 d1 d2 o1 o2 : Z) (k1 k2 : N) :
  period_in_bounds m y ->
  fetchrow_court (db w) name = Ok (Some court) ->
  fetchval_exists (db w) (c_id court) m y = Ok false ->
  Forall (fun x => (0 <= x)%Z) [br; bp; nr; np; dr; dp] ->
  Forall (fun x => (0 <= x)%Z)
         [a1; a2; a3; a4; a5; a6; a7; a8; b1; b2; b3; b4; b5; b6] ->
  Forall (fun x => (0 <= x)%Z) [c1; c2; d1; d2; o1; o2] ->
  in_range (N:=N)
    (br + bp + nr + np + dr + dp
     + (a1 + a2 + a3 + a4 + a5 + a6 + a7 + a8)
     + (b1 + b2 + b3 + b4 + b5 + b6)
     + (c1 + c2 + d1 + d2 + o1 + o2))%Z ->
  (a1 + a3 + a5 + a7 = br + nr - dr /\ a2 + a4 + a6 + a8 = bp + np - dp
   /\ b1 + b3 + b5 = dr /\ b2 + b4 + b6 = dp)%Z ->
  (c1 <= dr /\ c2 <= dp /\ d1 <= dr /\ d2 <= dp
   /\ o1 <= br + nr - dr /\ o2 <= bp + np - dp)%Z ->
  let step1 := insert_step1_basic_metrics name m y
                 (of_int br) (of_int bp) (of_int nr) (of_int np)
                 (of_int dr) (of_int dp) w in
  let step2 := insert_step2_age_breakdowns name m y
                 (of_int a1) (of_int a2) (of_int a3) (of_int a4)
                 (of_int a5) (of_int a6) (of_int a7) (of_int a8)
                 (of_int b1) (of_int b2) (of_int b3) (of_int b4)
                 (of_int b5) (of_int b6) step1.2 in
  let step3 := insert_step3_additional_metrics name m y
                 (of_int c1) (of_int c2) (of_int d1) (of_int d2)
                 (of_int o1) (of_int o2) k1 k2 step2.2 in
  let row :=
    {| row_court_id := c_id court; row_month := m; row_year := y;
       row_basic :=
         {| balance_rape := of_int br; balance_pocso := of_int bp;
            balance_total := of_int (br + bp);
            new_rape := of_int nr; new_pocso := of_int np;
            new_total := of_int (nr + np);
            disposed_rape := of_int dr; disposed_pocso := of_int dp;
            disposed_total := of_int (dr + dp);
            pending_rape := of_int (br + nr - dr);
            pending_pocso := of_int (bp + np - dp);
            pending_total := of_int (br + nr - dr + (bp + np - dp)) |};
       row_age :=
         {| pending_less_2m_rape := of_int a1; pending_less_2m_pocso := of_int a2;
            pending_2_12m_rape := of_int a3; pending_2_12m_pocso := of_int a4;
            pending_12m_5y_rape := of_int a5; pending_12m_5y_pocso := of_int a6;
            pending_beyond_5y_rape := of_int a7;
            pending_beyond_5y_pocso := of_int a8;
            total_pendency_rape := of_int (a1 + a3 + a5 + a7);
            total_pendency_pocso := of_int (a2 + a4 + a6 + a8);
            disposal_within_2m_rape := of_int b1;
            disposal_within_2m_pocso := of_int b2;
            disposal_2_12m_rape := of_int b3; disposal_2_12m_pocso := of_int b4;
            disposal_beyond_12m_rape := of_int b5;
            disposal_beyond_12m_pocso := of_int b6;
            total_disposal_rape := of_int (b1 + b3 + b5);
            total_disposal_pocso := of_int (b2 + b4 + b6) |};
       row_additional :=
         {| contested_rape := of_int c1; contested_pocso := of_int c2;
            contested_total := of_int (c1 + c2);
            disposal_5y_rape := of_int d1; disposal_5y_pocso := of_int d2;
            disposal_5y_total := of_int (d1 + d2);
            pending_over_5y_rape := of_int o1; pending_over_5y_pocso := of_int o2;
            pending_over_5y_total := of_int (o1 + o2);
            convictions_rape := k1; convictions_pocso := k2 |} |} in
  response_kind step1.1 = None
  /\ response_kind step2.1 = None
  /\ inserts_issued step3.2 = inserts_issued w ++ [InsertRow row]
  /\ match execute_insert (db w) row with
     | Ok d' =>
         response_kind step3.1 = None
         /\ db step3.2 = d'
         /\ partial_data_store step3.2 !! store_key (c_id court) m y = None
     | Raise e => step3.1 = ErrorResponse e /\ db step3.2 = db w
     end.
Proof using Type*.
  intros [Hm Hy] Hcourt Hexists Hbasic Hage Hextra Hrange Hsums Hsubset;
    cbn zeta.
  repeat match goal with
         | Hl : Forall _ (_ :: _) |- _ => apply Forall_cons in Hl as [? Hl]
         end.
  match type of Hrange with
  | in_range ?total =>
      assert (forall z : Z, (Z.abs z <= total)%Z -> in_range (N:=N) z) as Hin
        by (intros z Hz; apply (in_range_le _ z Hrange); lia)
  end.
  destruct Hsums as (S1 & S2 & S3 & S4).
  assert (validate_age_breakdowns (N:=N)
            (of_int (br + nr - dr)) (of_int (bp + np - dp))
            (of_int dr) (of_int dp)
            (of_int a1) (of_int a2) (of_int a3) (of_int a4)
            (of_int a5) (of_int a6) (of_int a7) (of_int a8)
            (of_int b1) (of_int b2) (of_int b3) (of_int b4)
            (of_int b5) (of_int b6)
          = Ok {| pending_less_2m_rape := of_int a1;
                  pending_less_2m_pocso := of_int a2;
                  pending_2_12m_rape := of_int a3;
                  pending_2_12m_pocso := of_int a4;
                  pending_12m_5y_rape := of_int a5;
                  pending_12m_5y_pocso := of_int a6;
                  pending_beyond_5y_rape := of_int a7;
                  pending_beyond_5y_pocso := of_int a8;
                  total_pendency_rape := of_int (a1 + a3 + a5 + a7);
                  total_pendency_pocso := of_int (a2 + a4 + a6 + a8);
                  disposal_within_2m_rape := of_int b1;
                  disposal_within_2m_pocso := of_int b2;
                  disposal_2_12m_rape := of_int b3;
                  disposal_2_12m_pocso := of_int b4;
                  disposal_beyond_12m_rape := of_int b5;
                  disposal_beyond_12m_pocso := of_int b6;
                  total_disposal_rape := of_int (b1 + b3 + b5);
                  total_disposal_pocso := of_int (b2 + b4 + b6) |}) as Hv2.
  { unfold validate_age_breakdowns.
    repeat rewrite add_of_int by (apply Hin; lia).
    rewrite !eqb_of_int by (apply Hin; lia).
    rewrite S1, S2, S3, S4, !Z.eqb_refl. reflexivity. }
  assert (validate_additional_metrics (N:=N)
            (of_int (br + nr - dr)) (of_int (bp + np - dp))
            (of_int dr) (of_int dp)
            (of_int c1) (of_int c2) (of_int d1) (of_int d2)
            (of_int o1) (of_int o2) k1 k2
          = Ok {| contested_rape := of_int c1; contested_pocso := of_int c2;
                  contested_total := of_int (c1 + c2);
                  disposal_5y_rape := of_int d1; disposal_5y_pocso := of_int d2;
                  disposal_5y_total := of_int (d1 + d2);
                  pending_over_5y_rape := of_int o1;
                  pending_over_5y_pocso := of_int o2;
                  pending_over_5y_total := of_int (o1 + o2);
                  convictions_rape := k1; convictions_pocso := k2 |}) as Hv3.
  { unfold validate_additional_metrics.
    rewrite !gtb_of_int by (apply Hin; lia).
    repeat match goal with
           | |- context [if (?a >? ?b)%Z then _ else _] =>
               destruct (Z.gtb_spec a b); [exfalso; lia|]
           end.
    repeat rewrite add_of_int by (apply Hin; lia). reflexivity. }
  unfold insert_step1_basic_metrics, insert_step2_age_breakdowns,
    insert_step3_additional_metrics, try_except, mbind, mret, Body_bind,
    Body_ret, validated, get_court_by_name, check_existing_data,
    insert_court_monthly_data, query, return_, store_get, store_set,
    store_modify, store_del, validate_month_year.
  rewrite validate_basic_metrics_exact by (apply Hin; lia).
  replace (1 <=? m)%Z with true by (symmetry; apply Z.leb_le; lia).
  replace (m <=? 12)%Z with true by (symmetry; apply Z.leb_le; lia).
  replace (2020 <=? y)%Z with true by (symmetry; apply Z.leb_le; lia).
  replace (y <=? 2030)%Z with true by (symmetry; apply Z.leb_le; lia).
  cbn. rewrite Hcourt; cbn. rewrite Hexists; cbn.
  rewrite Hcourt; cbn. rewrite lookup_insert_eq; cbn. rewrite Hv2; cbn.
  rewrite Hcourt; cbn. rewrite !alter_insert_eq, lookup_insert_eq; cbn.
  rewrite Hv3; cbn.
  split; [reflexivity|]. split; [reflexivity|].
  unfold inserts_issued.
  destruct (execute_insert (db w) _) as [d'|e]; cbn;
    rewrite filter_inserts_insert, !filter_inserts_select by reflexivity.
  - split; [reflexivity|]. split; [reflexivity|]. split; [reflexivity|].
    apply lookup_delete_eq.
  - repeat split; reflexivity.
Qed.

End ExactServerFacts.

(** ** The validators on NaN *)

(** A float is NaN, the one float that differs from itself, exactly when its
    specification is [S754_nan]. *)
Lemma is_nan_spec (x : float) : is_nan x = true <-> Prim2SF x = S754_nan.
Proof.
  unfold is_nan. rewrite FloatAxioms.eqb_spec. unfold SFeqb.
  destruct (Prim2SF x) as [s| s| |s m e]; cbn.
  - split; discriminate.
  - destruct s; cbn; split; discriminate.
  - split; reflexivity.
  - rewrite Z.compare_refl, Pos.compare_cont_refl.
    destruct s; cbn; split; discriminate.
Qed.

Lemma add_nan (x y : float) :
  is_nan x = true \/ is_nan y = true -> is_nan (x + y) = true.
Proof.
  rewrite !is_nan_spec, FloatAxioms.add_spec. unfold SF64add.
  intros [-> | ->]; [reflexivity|]. destruct (Prim2SF x); reflexivity.
Qed.

Lemma sub_nan (x y : float) :
  is_nan x = true \/ is_nan y = true -> is_nan (x - y) = true.
Proof.
  rewrite !is_nan_spec, FloatAxioms.sub_spec. unfold SF64sub.
  intros [-> | ->]; [reflexivity|]. destruct (Prim2SF x); reflexivity.
Qed.

(** NaN is equal to nothing and greater than nothing, and nothing is greater
    than it. *)
Lemma eqb_nan (x y : float) :
  is_nan x = true \/ is_nan y = true -> (x =? y)%float = false.
Proof.
  rewrite !is_nan_spec, FloatAxioms.eqb_spec. unfold SFeqb.
  intros [-> | ->]; [reflexivity|]. destruct (Prim2SF x); reflexivity.
Qed.

Lemma ltb_nan (x y : float) :
  is_nan x = true \/ is_nan y = true -> (x <? y)%float = false.
Proof.
  rewrite !is_nan_spec, FloatAxioms.ltb_spec. unfold SFltb.
  intros [-> | ->]; [reflexivity|]. destruct (Prim2SF x); reflexivity.
Qed.

Create HintDb nan.
#[local] Hint Resolve add_nan sub_nan : nan.

(** X7.  Steps 1 and 2 let no NaN through.  On floats, [validate_basic_metrics]
    raises its pending mismatch as soon as one of its six counts is NaN, and
    [validate_age_breakdowns] raises a sum mismatch as soon as one of its
    eighteen arguments is NaN: every sum that contains a NaN is NaN, and NaN
    is not equal to anything, itself included. *)
Theorem nan_is_rejected_by_sums
    (br bp nr np dr dp : float)
    (pr pp gr gp a1 a2 a3 a4 a5 a6 a7 a8 b1 b2 b3 b4 b5 b6 : float) :
  (existsb is_nan [br; bp; nr; np; dr; dp] = true ->
   validate_basic_metrics br bp nr np dr dp = Raise PendingCalculationMismatch)
  /\ (existsb is_nan [pr; pp; gr; gp; a1; a2; a3; a4; a5; a6; a7; a8;
                      b1; b2; b3; b4; b5; b6] = true ->
      exists e,
        validate_age_breakdowns pr pp gr gp a1 a2 a3 a4 a5 a6 a7 a8
                                b1 b2 b3 b4 b5 b6 = Raise e
        /\ validation_kind e = SumMismatch).
Proof.
  split.
  - intros Hnan. unfold validate_basic_metrics.
    replace (eqb _ _) with false; [reflexivity|].
    symmetry. apply eqb_nan. left. cbn [existsb] in Hnan.
    cbn [add sub PyNum_float].
    repeat (apply orb_prop in Hnan as [Hnan|Hnan]); try discriminate;
      auto 10 with nan.
  - intros Hnan.
    destruct (validate_age_breakdowns pr pp gr gp a1 a2 a3 a4 a5 a6 a7 a8
                                      b1 b2 b3 b4 b5 b6) as [r|e] eqn:Hv.
    + exfalso. apply validate_age_breakdowns_Ok in Hv as (E1 & E2 & E3 & E4).
      cbn [add eqb PyNum_float] in E1, E2, E3, E4. cbn [existsb] in Hnan.
      assert (forall x y : float,
                (x =? y)%float = true ->
                is_nan x = true \/ is_nan y = true -> False) as Hno.
      { intros x y Heq Hor. rewrite (eqb_nan x y Hor) in Heq. discriminate. }
      repeat (apply orb_prop in Hnan as [Hnan|Hnan]); try discriminate;
        first [ solve [apply (Hno _ _ E1); auto 10 with nan]
              | solve [apply (Hno _ _ E2); auto 10 with nan]
              | solve [apply (Hno _ _ E3); auto 10 with nan]
              | solve [apply (Hno _ _ E4); auto 10 with nan] ].
    + exists e. split; [reflexivity|].
      eapply validate_age_breakdowns_Raise. exact Hv.
Qed.

(** X8.  Step 3 lets NaN through.  On floats, [validate_additional_metrics]
    succeeds when each of its six subset counts is at most its bound or is
    NaN (or the bound is): NaN is not greater than anything.  The NaN is
    returned in the record, and the total of its field is NaN. *)
Theorem nan_is_accepted_by_subset_checks
    (pr pp dr dp c1 c2 d1 d2 o1 o2 k1 k2 : float) :
  let passes (value bound : float) :=
    (value <=? bound)%float || is_nan value || is_nan bound in
  passes c1 dr && passes c2 dp && passes d1 dr && passes d2 dp
  && passes o1 pr && passes o2 pp = true ->
  exists r,
    validate_additional_metrics pr pp dr dp c1 c2 d1 d2 o1 o2 k1 k2 = Ok r
    /\ (contested_rape r = c1 /\ contested_pocso r = c2
        /\ disposal_5y_rape r = d1 /\ disposal_5y_pocso r = d2
        /\ pending_over_5y_rape r = o1 /\ pending_over_5y_pocso r = o2)
    /\ (is_nan c1 = true \/ is_nan c2 = true -> is_nan (contested_total r) = true)
    /\ (is_nan d1 = true \/ is_nan d2 = true -> is_nan (disposal_5y_total r) = true)
    /\ (is_nan o1 = true \/ is_nan o2 = true ->
        is_nan (pending_over_5y_total r) = true).
Proof.
  cbn zeta. intros Hpass.
  assert (forall value bound : float,
            (value <=? bound)%float || is_nan value || is_nan bound = true ->
            gtb value bound = false) as Hgt.
  { intros value bound [[Hle | Hn]%orb_prop | Hn]%orb_prop.
    - apply (leb_not_gtb (N:=float)). exact Hle.
    - apply ltb_nan. auto.
    - apply ltb_nan. auto. }
  repeat (apply andb_prop in Hpass as [Hpass ?]).
  unfold validate_additional_metrics.
  rewrite !Hgt by assumption.
  eexists. split; [reflexivity|]. cbn.
  split; [repeat split|]. repeat split; apply add_nan.
Qed.

(** ** db.py: the statements of the two views *)

(** X18.  The statement [query_ftsc_summary] and [query_spc_data] build is the
    view's [SELECT] with one comparison per filter that is given, in the
    order of the arguments, the placeholders numbered from [$1] without a gap,
    followed by the [ORDER BY]; the parameters are the values of those
    filters in the same order.  With no filter the statement has no
    comparison and no parameter. *)
Theorem view_queries_number_their_filters
    (court_name district_name : option string) (month year : option Z) :
  (let given := given_str "district_name" district_name
                ++ given_int "month" month ++ given_int "year" year in
   query_ftsc_summary district_name month year
   = ("SELECT * FROM ftsc_district_summary WHERE 1=1"
        +:+ numbered_filters (given.*1) 1
        +:+ " ORDER BY display_order, year, month",
      given.*2))
  /\ (let given := given_str "court_name" court_name
                   ++ given_str "district_name" district_name
                   ++ given_int "month" month ++ given_int "year" year in
      query_spc_data court_name district_name month year
      = ("SELECT * FROM spc_court_data WHERE 1=1"
           +:+ numbered_filters (given.*1) 1
           +:+ " ORDER BY display_order, court_name, year, month",
         given.*2)).
Proof.
  cbn zeta. unfold query_ftsc_summary, query_spc_data, given_str, given_int.
  split.
  - destruct district_name as [d|]; [destruct (str_truth d)|];
      (destruct month as [m|]; [destruct (int_truth m)|]);
      (destruct year as [y|]; [destruct (int_truth y)|]); reflexivity.
  - destruct court_name as [c|]; [destruct (str_truth c)|];
      (destruct district_name as [d|]; [destruct (str_truth d)|]);
      (destruct month as [m|]; [destruct (int_truth m)|]);
      (destruct year as [y|]; [destruct (int_truth y)|]); reflexivity.
Qed.

(** X19.  Every parameter has its placeholder: the placeholders of the statement,
    read from left to right, are [$1], [$2], ... up to the number of
    parameters passed with it. *)
Theorem view_queries_placeholders_match_params
    (court_name district_name : option string) (month year : option Z) :
  (let q := query_ftsc_summary district_name month year in
   placeholders q.1 = (fun i => Z.of_nat (S i)) <$> seq 0 (length q.2))
  /\ (let q := query_spc_data court_name district_name month year in
      placeholders q.1 = (fun i => Z.of_nat (S i)) <$> seq 0 (length q.2)).
Proof.
  cbn zeta. unfold query_ftsc_summary, query_spc_data.
  split.
  - destruct district_name as [d|]; [destruct (str_truth d)|];
      (destruct month as [m|]; [destruct (int_truth m)|]);
      (destruct year as [y|]; [destruct (int_truth y)|]); reflexivity.
  - destruct court_name as [c|]; [destruct (str_truth c)|];
      (destruct district_name as [d|]; [destruct (str_truth d)|]);
      (destruct month as [m|]; [destruct (int_truth m)|]);
      (destruct year as [y|]; [destruct (int_truth y)|]); reflexivity.
Qed.

(** The text of the two statements. *)
Lemma view_query_texts
    (court_name district_name : option string) (month year : option Z) :
  let column (name : string) (given : bool) : list string :=
    if given then [name] else [] in
  (query_ftsc_summary district_name month year).1
  = "SELECT * FROM ftsc_district_summary WHERE 1=1"
      +:+ numbered_filters
            (column "district_name" (opt_str_truth district_name)
             ++ column "month" (opt_int_truth month)
             ++ column "year" (opt_int_truth year)) 1
      +:+ " ORDER BY display_order, year, month"
  /\ (query_spc_data court_name district_name month year).1
     = "SELECT * FROM spc_court_data WHERE 1=1"
         +:+ numbered_filters
               (column "court_name" (opt_str_truth court_name)
                ++ column "district_name" (opt_str_truth district_name)
                ++ column "month" (opt_int_truth month)
                ++ column "year" (opt_int_truth year)) 1
         +:+ " ORDER BY display_order, court_name, year, month".
Proof.
  cbn zeta. unfold query_ftsc_summary, query_spc_data, opt_str_truth, opt_int_truth.
  split.
  - destruct district_name as [d|]; [cbn; destruct (str_truth d)|];
      (destruct month as [m|]; [cbn; destruct (int_truth m)|]);
      (destruct year as [y|]; [cbn; destruct (int_truth y)|]); reflexivity.
  - destruct court_name as [c|]; [cbn; destruct (str_truth c)|];
      (destruct district_name as [d|]; [cbn; destruct (str_truth d)|]);
      (destruct month as [m|]; [cbn; destruct (int_truth m)|]);
      (destruct year as [y|]; [cbn; destruct (int_truth y)|]); reflexivity.
Qed.

(** X20.  The values of the filters never enter the text of the statement, which
    depends only on which filters are given: two calls that give the same
    filters send the same text, whatever the values. *)
Theorem view_queries_text_ignores_values
    (court_name court_name' district_name district_name' : option string)
    (month month' year year' : option Z) :
  opt_str_truth court_name = opt_str_truth court_name' ->
  opt_str_truth district_name = opt_str_truth district_name' ->
  opt_int_truth month = opt_int_truth month' ->
  opt_int_truth year = opt_int_truth year' ->
  (query_ftsc_summary district_name month year).1
  = (query_ftsc_summary district_name' month' year').1
  /\ (query_spc_data court_name district_name month year).1
     = (query_spc_data court_name' district_name' month' year').1.
Proof.
  intros Hc Hd Hm Hy.
  destruct (view_query_texts court_name district_name month year) as [-> ->].
  destruct (view_query_texts court_name' district_name' month' year') as [-> ->].
  rewrite Hc, Hd, Hm, Hy. split; reflexivity.
Qed.

(** X21.  A filter that is the empty string or zero is dropped like one that is
    not given: the statement and its parameters are those of the call
    without it. *)
Theorem view_queries_drop_falsy_filters
    (court_name district_name : option string) (month year : option Z) :
  (query_ftsc_summary (Some EmptyString) month year
   = query_ftsc_summary None month year
   /\ query_ftsc_summary district_name (Some 0%Z) year
      = query_ftsc_summary district_name None year
   /\ query_ftsc_summary district_name month (Some 0%Z)
      = query_ftsc_summary district_name month None)
  /\ (query_spc_data (Some EmptyString) district_name month year
      = query_spc_data None district_name month year
      /\ query_spc_data court_name (Some EmptyString) month year
         = query_spc_data court_name None month year
      /\ query_spc_data court_name district_name (Some 0%Z) year
         = query_spc_data court_name district_name None year
      /\ query_spc_data court_name district_name month (Some 0%Z)
         = query_spc_data court_name district_name month None).
Proof. repeat split. Qed.

Lemma view_queries_text_ignores_values_example :
  (query_ftsc_summary (Some "Thiruvananthapuram") (Some 1%Z) (Some 2025%Z)).1
  = (query_ftsc_summary (Some "x' OR '1'='1") (Some 12%Z) (Some 2020%Z)).1
  /\ (query_ftsc_summary (Some "x' OR '1'='1") (Some 12%Z) (Some 2020%Z)).1
     = "SELECT * FROM ftsc_district_summary WHERE 1=1 AND district_name = $1 AND month = $2 AND year = $3 ORDER BY display_order, year, month".
Proof.
  split; [|reflexivity].
  apply (view_queries_text_ignores_values None None
           (Some "Thiruvananthapuram") (Some "x' OR '1'='1")
           (Some 1%Z) (Some 12%Z) (Some 2025%Z) (Some 2020%Z));
    reflexivity.
Defined.

(** ** server.py: looking up and deleting committed data *)

Section OtherToolFacts.
Context {N : Type} `{PyNum N} `{Database N} `{!DatabaseDelete N}.

Ltac other_unfold :=
  unfold get_court_info, check_data_exists, delete_monthly_data,
    try_except_Exception, on_world, delete_court_monthly_data,
    mbind, mret, Tool_bind, Tool_ret, get_court_by_name, check_existing_data,
    query, return_.

Ltac other_cases :=
  other_unfold; repeat case_match; simplify_eq; cbn in *;
  unfold inserts_issued; cbn;
  rewrite ?filter_inserts_select by reflexivity.

(** X22.  [get_court_info] and [check_data_exists] only read: they leave the
    partial-data store, the database and the [DELETE]s sent as they were,
    and what they add to the queries sent are [SELECT]s, one for the court
    and, in [check_data_exists] once the court is found, one for the
    record. *)
Theorem lookup_tools_only_read (name : string) (m y : Z) (s : Server) :
  let info := get_court_info name s in
  let check := check_data_exists name m y s in
  (partial_data_store (world info.2) = partial_data_store (world s)
   /\ db (world info.2) = db (world s)
   /\ delete_calls info.2 = delete_calls s
   /\ db_calls (world info.2) = db_calls (world s) ++ [SelectCourt name])
  /\ (partial_data_store (world check.2) = partial_data_store (world s)
      /\ db (world check.2) = db (world s)
      /\ delete_calls check.2 = delete_calls s
      /\ (db_calls (world check.2) = db_calls (world s) ++ [SelectCourt name]
          \/ exists court,
               fetchrow_court (db (world s)) name = Ok (Some court)
               /\ db_calls (world check.2)
                  = db_calls (world s)
                    ++ [SelectCourt name; SelectExists (c_id court) m y])).
Proof.
  cbn zeta. split.
  - other_cases; repeat split.
  - other_cases; repeat split; auto;
      right; eexists; (split; [reflexivity|]); rewrite <- app_assoc; reflexivity.
Qed.

(** X23.  [check_data_exists] foretells step 1.  When it answers that data exists,
    step 1 for the same court and a period in bounds, run next, is turned
    away as a duplicate; when it answers that no data was found, step 1 gets
    past the duplicate check: it answers with what [validate_basic_metrics]
    makes of its six counts. *)
Theorem check_data_exists_foretells_step1
    (name : string) (m y : Z) (s : Server) (br bp nr np dr dp : N) :
  period_in_bounds m y ->
  let check := check_data_exists name m y s in
  let step1 := insert_step1_basic_metrics name m y br bp nr np dr dp
                 (world check.2) in
  (check.1 = DataExists name m y -> step1.1 = DataAlreadyExists name m y)
  /\ (check.1 = NoDataFound name m y ->
      match validate_basic_metrics br bp nr np dr dp with
      | Ok calculated => step1.1 = Step1Complete name m y calculated
      | Raise e => step1.1 = ValidationErrorResponse e
      end).
Proof.
  intros [Hm Hy]; cbn zeta.
  assert (validate_month_year (N:=N) m y = Ok true) as Hperiod.
  { unfold validate_month_year.
    replace (1 <=? m)%Z with true by (symmetry; apply Z.leb_le; lia).
    replace (m <=? 12)%Z with true by (symmetry; apply Z.leb_le; lia).
    replace (2020 <=? y)%Z with true by (symmetry; apply Z.leb_le; lia).
    replace (y <=? 2030)%Z with true by (symmetry; apply Z.leb_le; lia).
    reflexivity. }
  other_unfold; cbn.
  unfold insert_step1_basic_metrics, try_except, mbind, mret, Body_bind,
    Body_ret, validated, get_court_by_name, check_existing_data, query,
    return_, store_set.
  rewrite Hperiod.
  destruct (fetchrow_court (db (world s)) name) as [[court|]|e] eqn:Hcourt; cbn;
    try (split; discriminate).
  destruct (fetchval_exists (db (world s)) (c_id court) m y) as [[]|e] eqn:Hex;
    cbn; rewrite ?Hcourt; cbn; rewrite ?Hex; cbn;
    try (split; discriminate).
  - split; [reflexivity | discriminate].
  - split; [discriminate|]. intros _.
    destruct (validate_basic_metrics br bp nr np dr dp); reflexivity.
Qed.

(** [delete_monthly_data] never touches the partial-data store and sends no
    [INSERT], whatever it answers. *)
Lemma delete_monthly_data_frame (name : string) (m y : Z) (s : Server) :
  let del := delete_monthly_data name m y s in
  partial_data_store (world del.2) = partial_data_store (world s)
  /\ inserts_issued (world del.2) = inserts_issued (world s).
Proof. cbn zeta. other_cases; repeat split. Qed.

(** What [delete_monthly_data] does, by the answers of the database. *)
Lemma delete_monthly_data_cases (name : string) (m y : Z) (s : Server) :
  let del := delete_monthly_data name m y s in
  let d := db (world s) in
  match fetchrow_court d name with
  | Raise e =>
      del.1 = StepReply (ErrorResponse e)
      /\ db (world del.2) = d /\ delete_calls del.2 = delete_calls s
  | Ok None =>
      del.1 = StepReply (CourtNotFound name)
      /\ db (world del.2) = d /\ delete_calls del.2 = delete_calls s
  | Ok (Some court) =>
      match fetchval_exists d (c_id court) m y with
      | Raise e =>
          del.1 = StepReply (ErrorResponse e)
          /\ db (world del.2) = d /\ delete_calls del.2 = delete_calls s
      | Ok false =>
          del.1 = NoDataToDelete name m y
          /\ db (world del.2) = d /\ delete_calls del.2 = delete_calls s
      | Ok true =>
          delete_calls del.2 = delete_calls s ++ [(c_id court, m, y)]
          /\ match execute_delete d (c_id court) m y with
             | Ok d' => del.1 = DeletedData name m y /\ db (world del.2) = d'
             | Raise e =>
                 del.1 = StepReply (ErrorResponse e) /\ db (world del.2) = d
             end
      end
  end.
Proof.
  cbn zeta. other_unfold; cbn.
  destruct (fetchrow_court (db (world s)) name) as [[court|]|e]; cbn;
    try (repeat split; reflexivity).
  destruct (fetchval_exists (db (world s)) (c_id court) m y) as [[]|e]; cbn;
    try (repeat split; reflexivity).
  destruct (execute_delete (db (world s)) (c_id court) m y); cbn;
    repeat split; reflexivity.
Qed.

(** X24.  Deleting what is not there.  When the court is not found, or it is found
    and the database holds no record of (court id, month, year),
    [delete_monthly_data] says so, sends no [DELETE] and leaves the database,
    the partial-data store and the [INSERT]s sent as they were. *)
Theorem delete_monthly_data_without_record
    (name : string) (m y : Z) (s : Server) :
  let del := delete_monthly_data name m y s in
  (fetchrow_court (db (world s)) name = Ok None
   \/ exists court,
        fetchrow_court (db (world s)) name = Ok (Some court)
        /\ fetchval_exists (db (world s)) (c_id court) m y = Ok false) ->
  (del.1 = StepReply (CourtNotFound name) \/ del.1 = NoDataToDelete name m y)
  /\ delete_calls del.2 = delete_calls s
  /\ db (world del.2) = db (world s)
  /\ partial_data_store (world del.2) = partial_data_store (world s)
  /\ inserts_issued (world del.2) = inserts_issued (world s).
Proof.
  cbn zeta. intros Hnone.
  pose proof (delete_monthly_data_cases name m y s) as Hcases.
  pose proof (delete_monthly_data_frame name m y s) as [Hstore Hins].
  cbn zeta in *.
  destruct Hnone as [Hc | (court & Hc & Hex)]; rewrite Hc in Hcases;
    [| rewrite Hex in Hcases ];
    destruct Hcases as (-> & -> & ->); auto 10.
Qed.

(** X25.  A [DELETE] is sent for a checked key only, and once.  Whenever
    [delete_monthly_data] sends a [DELETE] or answers that it deleted, the
    court was found under the name, the database had just answered that a
    record of (court id, month, year) exists, and the one [DELETE] sent is
    for that court id, month and year; the answer is the success exactly when
    the database accepts the [DELETE].  The period is not checked: this holds
    for every month and year.  The partial-data store is left as it was. *)
Theorem delete_monthly_data_deletes_checked_key
    (name : string) (m y : Z) (s : Server) :
  let del := delete_monthly_data name m y s in
  (delete_calls del.2 <> delete_calls s \/ del.1 = DeletedData name m y) ->
  exists court,
    fetchrow_court (db (world s)) name = Ok (Some court)
    /\ fetchval_exists (db (world s)) (c_id court) m y = Ok true
    /\ delete_calls del.2 = delete_calls s ++ [(c_id court, m, y)]
    /\ partial_data_store (world del.2) = partial_data_store (world s)
    /\ match execute_delete (db (world s)) (c_id court) m y with
       | Ok d' => del.1 = DeletedData name m y /\ db (world del.2) = d'
       | Raise e =>
           del.1 = StepReply (ErrorResponse e)
           /\ db (world del.2) = db (world s)
       end.
Proof.
  cbn zeta. intros Hsent.
  pose proof (delete_monthly_data_cases name m y s) as Hcases.
  pose proof (delete_monthly_data_frame name m y s) as [Hstore _].
  cbn zeta in *.
  destruct (fetchrow_court (db (world s)) name) as [[court|]|e] eqn:Hcourt;
    [ destruct (fetchval_exists (db (world s)) (c_id court) m y) as [[]|e]
        eqn:Hex | | ].
  - destruct Hcases as [Hcalls Hexec]. exists court.
    split; [reflexivity|]. split; [exact Hex|]. auto.
  - destruct Hcases as (Hr & _ & Hcalls).
    destruct Hsent as [Hsent | Hsent]; [contradiction | congruence].
  - destruct Hcases as (Hr & _ & Hcalls).
    destruct Hsent as [Hsent | Hsent]; [contradiction | congruence].
  - destruct Hcases as (Hr & _ & Hcalls).
    destruct Hsent as [Hsent | Hsent]; [contradiction | congruence].
  - destruct Hcases as (Hr & _ & Hcalls).
    destruct Hsent as [Hsent | Hsent]; [contradiction | congruence].
Qed.

(** X26.  "Delete it first if you want to re-enter."  After step 1 has been turned
    away as a duplicate, [delete_monthly_data] for the same court and period,
    run next, sends the [DELETE] of the key that step 1 found committed. *)
Theorem duplicate_entry_can_be_deleted
    (name : string) (m y : Z) (s : Server) (br bp nr np dr dp : N) :
  let step1 := insert_step1_basic_metrics name m y br bp nr np dr dp (world s) in
  let del := delete_monthly_data name m y
               {| world := step1.2; delete_calls := delete_calls s |} in
  step1.1 = DataAlreadyExists name m y ->
  exists court,
    fetchrow_court (db (world s)) name = Ok (Some court)
    /\ delete_calls del.2 = delete_calls s ++ [(c_id court, m, y)]
    /\ (forall d', execute_delete (db (world s)) (c_id court) m y = Ok d' ->
          del.1 = DeletedData name m y /\ db (world del.2) = d').
Proof.
  cbn zeta.
  unfold insert_step1_basic_metrics, try_except, mbind, mret, Body_bind,
    Body_ret, validated, get_court_by_name, check_existing_data, query,
    return_, store_set.
  destruct (validate_month_year m y); cbn; [|discriminate].
  destruct (fetchrow_court (db (world s)) name) as [[court|]|e] eqn:Hcourt; cbn;
    try discriminate.
  destruct (fetchval_exists (db (world s)) (c_id court) m y) as [[]|e] eqn:Hex;
    cbn; try discriminate.
  2:{ destruct (validate_basic_metrics br bp nr np dr dp); cbn; discriminate. }
  intros _. exists court. split; [reflexivity|].
  other_unfold; cbn. rewrite Hcourt; cbn. rewrite Hex; cbn.
  destruct (execute_delete (db (world s)) (c_id court) m y) as [d'|e]; cbn.
  - split; [reflexivity|]. intros d'' [= <-]. split; reflexivity.
  - split; [reflexivity|]. discriminate.
Qed.

End OtherToolFacts.

(** ** The server over time: what every state satisfies *)

Section ConsistencyFacts.
Context {N : Type} `{PyNum N}.
Local Open Scope py_scope.

Lemma validate_basic_metrics_consistent (br bp nr np dr dp : N) b :
  validate_basic_metrics br bp nr np dr dp = Ok b -> basic_consistent b.
Proof.
  unfold validate_basic_metrics.
  destruct (_ == _) eqn:Hcheck; cbn [negb]; [|discriminate].
  intros [= <-]. repeat split. exact Hcheck.
Qed.

Lemma validate_age_breakdowns_consistent
    (b : BasicMetrics N) (a1 a2 a3 a4 a5 a6 a7 a8 b1 b2 b3 b4 b5 b6 : N) a :
  validate_age_breakdowns
    (pending_rape b) (pending_pocso b) (disposed_rape b) (disposed_pocso b)
    a1 a2 a3 a4 a5 a6 a7 a8 b1 b2 b3 b4 b5 b6 = Ok a ->
  age_consistent b a.
Proof.
  intros Hv.
  pose proof (validate_age_breakdowns_Ok _ _ _ _ _ _ _ _ _ _ _ _ _ _ _ _ _ _ _ Hv)
    as (E1 & E2 & E3 & E4).
  revert Hv. unfold validate_age_breakdowns. rewrite E1, E2, E3, E4. cbn [negb].
  intros [= <-]. repeat split; assumption.
Qed.

Lemma validate_additional_metrics_consistent
    (b : BasicMetrics N) (c1 c2 d1 d2 o1 o2 k1 k2 : N) x :
  validate_additional_metrics
    (pending_rape b) (pending_pocso b) (disposed_rape b) (disposed_pocso b)
    c1 c2 d1 d2 o1 o2 k1 k2 = Ok x ->
  additional_consistent b x.
Proof.
  unfold validate_additional_metrics.
  repeat match goal with
         | |- context [if ?u > ?v then _ else _] =>
             destruct (u > v) eqn:?; [discriminate|]
         end.
  intros [= <-]. repeat split; assumption.
Qed.

End ConsistencyFacts.

Section ReachFacts.
Context {N : Type} `{PyNum N} `{Database N} `{!DatabaseDelete N}.

Lemma call_consistent_select (calls : list (DbCall N)) (c : DbCall N) :
  is_insert c = false ->
  Forall call_consistent calls -> Forall call_consistent (calls ++ [c]).
Proof.
  intros Hc Hcalls. apply Forall_app. split; [exact Hcalls|].
  apply Forall_cons. split; [|apply Forall_nil; exact I].
  destruct c; try exact I. discriminate Hc.
Qed.

(** Every data-entry call keeps the world consistent. *)
Lemma run_preserves_world_consistent (t : ToolCall) (w : World) :
  world_consistent w -> world_consistent (run t w).2.
Proof.
  intros (Hwf & Hentries & Hcalls).
  split; [apply run_preserves_store_wf; exact Hwf|].
  destruct t as [name m y ? ? ? ? ? ?
                |name m y ? ? ? ? ? ? ? ? ? ? ? ? ? ?
                |name m y ? ? ? ? ? ? ? ?].
  - (* step 1 *)
    unfold run, insert_step1_basic_metrics, try_except, mbind, mret,
      Body_bind, Body_ret, validated, get_court_by_name, check_existing_data,
      query, return_, store_set.
    destruct (validate_month_year m y); cbn; [|auto].
    destruct (fetchrow_court (db w) name) as [[court|]|e]; cbn;
      try (split; [exact Hentries | apply call_consistent_select; auto]).
    destruct (fetchval_exists (db w) (c_id court) m y) as [[]|e]; cbn;
      try (split; [exact Hentries
                  | repeat (apply call_consistent_select; [reflexivity|]); auto]).
    destruct (validate_basic_metrics _ _ _ _ _ _) as [b|e] eqn:Hv; cbn;
      try (split; [exact Hentries
                  | repeat (apply call_consistent_select; [reflexivity|]); auto]).
    split; [| repeat (apply call_consistent_select; [reflexivity|]); auto].
    intros key entry [[<- <-]|[_ Hold]]%lookup_insert_Some; [|eauto].
    split; cbn; [|discriminate].
    eapply validate_basic_metrics_consistent. exact Hv.
  - (* step 2 *)
    unfold run, insert_step2_age_breakdowns, try_except, mbind, mret,
      Body_bind, Body_ret, validated, get_court_by_name, query, return_,
      store_get, store_modify.
    destruct (fetchrow_court (db w) name) as [[court|]|e]; cbn;
      try (split; [exact Hentries | apply call_consistent_select; auto]).
    destruct (partial_data_store w !! store_key (c_id court) m y)
      as [entry|] eqn:Hentry; cbn;
      try (split; [exact Hentries | apply call_consistent_select; auto]).
    destruct (step1_complete entry); cbn;
      try (split; [exact Hentries | apply call_consistent_select; auto]).
    destruct (validate_age_breakdowns _ _ _ _ _ _ _ _ _ _ _ _ _ _ _ _ _ _)
      as [age|e] eqn:Hv; cbn;
      try (split; [exact Hentries | apply call_consistent_select; auto]).
    split; [| apply call_consistent_select; auto].
    intros key entry'. rewrite alter_alter_eq.
    intros [[<- (old & Hold & ->)]|[_ Hold]]%lookup_alter_Some; [|eauto].
    rewrite Hentry in Hold. injection Hold as <-.
    destruct (Hentries _ _ Hentry) as [Hbasic _].
    split; cbn; [exact Hbasic|]. intros age' [= <-].
    eapply validate_age_breakdowns_consistent. exact Hv.
  - (* step 3 *)
    unfold run, insert_step3_additional_metrics, try_except, mbind, mret,
      Body_bind, Body_ret, validated, get_court_by_name, query, return_,
      store_get, store_del, insert_court_monthly_data.
    destruct (fetchrow_court (db w) name) as [[court|]|e]; cbn;
      try (split; [exact Hentries | apply call_consistent_select; auto]).
    destruct (partial_data_store w !! store_key (c_id court) m y)
      as [entry|] eqn:Hentry; cbn;
      try (split; [exact Hentries | apply call_consistent_select; auto]).
    destruct (step2_complete entry); cbn;
      try (split; [exact Hentries | apply call_consistent_select; auto]).
    destruct (validate_additional_metrics _ _ _ _ _ _ _ _ _ _ _ _)
      as [extra|e] eqn:Hv; cbn;
      try (split; [exact Hentries | apply call_consistent_select; auto]).
    destruct (age_data entry) as [age|] eqn:Hage; cbn;
      try (split; [exact Hentries | apply call_consistent_select; auto]).
    assert (Forall call_consistent
              ((db_calls w ++ [SelectCourt name])
               ++ [InsertRow {| row_court_id := c_id court; row_month := m;
                                row_year := y;
                                row_basic := calculated entry; row_age := age;
                                row_additional := extra |}])) as Hsent.
    { apply Forall_app. split; [apply call_consistent_select; auto|].
      apply Forall_cons. split; [|apply Forall_nil; exact I].
      destruct (Hwf _ _ Hentry) as (Hkey & Hperiod & _).
      apply store_key_inj in Hkey as (_ & Hm & Hy).
      destruct (Hentries _ _ Hentry) as [Hbasic Hagec].
      split; [|split; [|split]]; cbn.
      - rewrite Hm, Hy. exact Hperiod.
      - exact Hbasic.
      - apply Hagec. exact Hage.
      - eapply validate_additional_metrics_consistent. exact Hv. }
    destruct (execute_insert (db w) _) as [d'|e]; cbn.
    + split; [|exact Hsent].
      intros key entry' [_ Hold]%lookup_delete_Some. eauto.
    + split; [exact Hentries | exact Hsent].
Qed.

Ltac other_unfold :=
  unfold get_court_info, check_data_exists, delete_monthly_data,
    try_except_Exception, on_world, delete_court_monthly_data,
    mbind, mret, Tool_bind, Tool_ret, get_court_by_name, check_existing_data,
    query, return_.

(** So does every other call: it leaves the store alone and sends no
    [INSERT]. *)
Lemma serve_preserves_world_consistent (c : Call) (s : Server) :
  world_consistent (world s) -> world_consistent (world (serve c s)).
Proof.
  destruct c as [t|name|name m y|name m y]; cbn [serve world].
  - apply run_preserves_world_consistent.
  - intros (Hwf & Hentries & Hcalls).
    other_unfold; repeat case_match; simplify_eq; cbn;
      (split; [exact Hwf | split; [exact Hentries|]]);
      repeat (apply call_consistent_select; [reflexivity|]); exact Hcalls.
  - intros (Hwf & Hentries & Hcalls).
    other_unfold; repeat case_match; simplify_eq; cbn;
      (split; [exact Hwf | split; [exact Hentries|]]);
      repeat (apply call_consistent_select; [reflexivity|]); exact Hcalls.
  - intros (Hwf & Hentries & Hcalls).
    other_unfold; repeat case_match; simplify_eq; cbn;
      (split; [exact Hwf | split; [exact Hentries|]]);
      repeat (apply call_consistent_select; [reflexivity|]); exact Hcalls.
Qed.

Lemma server_reachable_consistent (s : Server) :
  server_reachable s -> world_consistent (world s).
Proof.
  induction 1 as [d | c s _ IH | d s _ IH].
  - split; [|split]; cbn.
    + intros key entry Hnone. rewrite lookup_empty in Hnone. discriminate.
    + intros key entry Hnone. rewrite lookup_empty in Hnone. discriminate.
    + apply Forall_nil. exact I.
  - apply serve_preserves_world_consistent, IH.
  - exact IH.
Qed.

(** The worlds of the data-entry tools alone are among those of the
    server. *)
Lemma reachable_server_reachable (w : World) (calls : list (Z * Z * Z)) :
  reachable w ->
  calls = [] -> server_reachable {| world := w; delete_calls := calls |}.
Proof.
  intros Hreach ->. induction Hreach as [d | t w _ IH | d w _ IH].
  - apply server_start.
  - apply (server_serve (DataEntry t) _ IH).
  - apply (server_db d _ IH).
Qed.

(** X15.  Nothing inconsistent is committed.  In every state the server can
    reach, whatever the calls and whatever other clients did to the database
    in between, every row it has sent in an [INSERT] has a period in bounds
    and satisfies the relations of the three validators: the pending counts
    and totals as [validate_basic_metrics] computes and checks them, the
    bucket sums of [validate_age_breakdowns] equal to the pending and disposed
    counts of the row, and no subset count of
    [validate_additional_metrics] above its bound. *)
Theorem committed_rows_are_consistent (s : Server) (row : Row N) :
  server_reachable s ->
  InsertRow row ∈ db_calls (world s) ->
  row_consistent row.
Proof.
  intros Hreach Hin.
  destruct (server_reachable_consistent s Hreach) as (_ & _ & Hcalls).
  rewrite Forall_forall in Hcalls. exact (Hcalls _ Hin).
Qed.


(** X17.  Step 3 never misses a key.  In every state the server can reach, once
    step 3 has found the court, an entry with [step2_complete] and
    additional metrics that pass, it sends its [INSERT]: the entry holds the
    age breakdowns that [insert_court_monthly_data] reads, so the row is
    built without a [KeyError], and the only exception step 3 can then
    answer with is one the database raises on that [INSERT]. *)
Theorem step3_sends_its_insert
    (s : Server) (name : string) (court : Court) (m y : Z)
    (entry : PartialData N) (extra : AdditionalMetrics N)
    (c1r c1p c2r c2p c3r c3p c4r c4p : N) :
  server_reachable s ->
  fetchrow_court (db (world s)) name = Ok (Some court) ->
  partial_data_store (world s) !! store_key (c_id court) m y = Some entry ->
  step2_complete entry = true ->
  validate_additional_metrics
    (pending_rape (calculated entry)) (pending_pocso (calculated entry))
    (disposed_rape (calculated entry)) (disposed_pocso (calculated entry))
    c1r c1p c2r c2p c3r c3p c4r c4p = Ok extra ->
  let step3 := insert_step3_additional_metrics name m y
                 c1r c1p c2r c2p c3r c3p c4r c4p (world s) in
  exists age,
    age_data entry = Some age
    /\ let row := {| row_court_id := c_id court; row_month := m;
                     row_year := y; row_basic := calculated entry;
                     row_age := age; row_additional := extra |} in
       db_calls step3.2 = db_calls (world s) ++ [SelectCourt name; InsertRow row]
       /\ match execute_insert (db (world s)) row with
          | Ok d' =>
              step3.1 = DataEntryComplete court m y
                          {| partial_data := entry; additional := extra |}
          | Raise e => step3.1 = ErrorResponse e
          end.
Proof.
  intros Hreach Hcourt Hentry Hflag Hv; cbn zeta.
  destruct (server_reachable_consistent s Hreach) as (Hwf & _ & _).
  destruct (Hwf _ _ Hentry) as (_ & _ & _ & Hs2).
  destruct (Hs2 Hflag) as [age Hage]. exists age. split; [exact Hage|].
  unfold insert_step3_additional_metrics, try_except, mbind, mret,
    Body_bind, Body_ret, validated, get_court_by_name, query, return_,
    store_get, store_del, insert_court_monthly_data.
  cbn. rewrite Hcourt; cbn. rewrite Hentry; cbn. rewrite Hflag; cbn.
  rewrite Hv; cbn. rewrite Hage.
  destruct (execute_insert (db (world s)) _) as [d'|e]; cbn;
    rewrite <- app_assoc; split; reflexivity.
Qed.

End ReachFacts.

(** ** The walk-through, and the theorems at work on it *)

Local Open Scope float_scope.

(** The three steps of example.py commit the record and empty the store. *)
Example walk_through :
  let w1 := (run example_step1 start_world).2 in
  let w2 := (run example_step2 w1).2 in
  let w3 := (run example_step3 w2).2 in
  (exists calculated,
     (run example_step1 start_world).1
     = Step1Complete "FTSC Attingal" 1 2025 calculated
     /\ pending_rape calculated = 51%float
     /\ pending_pocso calculated = 31%float
     /\ pending_total calculated = 82%float)
  /\ response_kind (run example_step2 w1).1 = None
  /\ response_kind (run example_step3 w2).1 = None
  /\ fetchval_exists (db w3) 1 1 2025 = Ok true
  /\ partial_data_store w3 !! store_key 1 1 2025 = None.
Proof.
  cbn zeta. split; [|repeat split; vm_compute; reflexivity].
  eexists. split; [vm_compute; reflexivity|]. repeat split.
Qed.

(** Steps 2 and 3 on the empty store. *)
Lemma step_order_enforced_on_empty_store :
  (run example_step2 start_world).1 = MustCompleteStep1
  /\ response_kind (run example_step3 start_world).1 = Some StepOrderViolation.
Proof.
  destruct (step_order_enforced (N:=float) "FTSC Attingal" attingal 1 2025 start_world
              10 5 15 10 20 12 6 4 1 1 2 1 1 0 3 2 3 2 6 4 2 1 eq_refl)
    as [Hstep2 Hstep3].
  split.
  - apply Hstep2. left. vm_compute. reflexivity.
  - apply Hstep3. left. vm_compute. reflexivity.
Defined.

(** Step 2 with a pendency bucket off by one, after step 1: the validator
    raises and the entry stored by step 1 is untouched. *)
Lemma failed_step_changes_nothing_on_bad_buckets :
  let w1 := (run example_step1 start_world).2 in
  let bad_step2 :=
    Step2 "FTSC Attingal" 1 2025 11 5 15 10 20 12 6 4 1 1 2 1 1 0 in
  validator_raises bad_step2 w1
  /\ (run bad_step2 w1).1
     = ValidationErrorResponse (BreakdownSumMismatch RAPE Pendency 52 51)
  /\ partial_data_store (run bad_step2 w1).2 = partial_data_store w1
  /\ inserts_issued (run bad_step2 w1).2 = inserts_issued w1.
Proof.
  cbn zeta.
  assert (validator_raises
            (Step2 "FTSC Attingal" 1 2025 11 5 15 10 20 12 6 4 1 1 2 1 1 0)
            (run example_step1 start_world).2) as Hraises.
  { exists attingal. do 2 eexists. split; [reflexivity|].
    split; vm_compute; reflexivity. }
  destruct (failed_step_changes_nothing _ _ (or_introl Hraises))
    as (_ & Hstore & _ & Hins).
  split; [exact Hraises|]. split; [vm_compute; reflexivity|].
  exact (conj Hstore Hins).
Defined.

(** Steps 1 and 2 have run; the record of the same key is then committed by
    another client; step 3 sends its [INSERT], the unique key refuses it, and
    the entry stays in the store with both flags set. *)
Lemma commit_and_removal_together_on_refused_insert :
  let w2 := with_committed_db
              (run example_step2 (run example_step1 start_world).2).2 in
  reachable w2
  /\ (run example_step3 w2).1
     = ErrorResponse (DatabaseError "duplicate key value violates unique constraint")
  /\ partial_data_store (run example_step3 w2).2 = partial_data_store w2
  /\ exists entry,
       partial_data_store (run example_step3 w2).2 !! store_key 1 1 2025 = Some entry
       /\ step1_complete entry = true /\ step2_complete entry = true.
Proof.
  cbn zeta.
  assert (reachable (with_committed_db
                       (run example_step2 (run example_step1 start_world).2).2))
    as Hreach.
  { unfold with_committed_db. apply reachable_db. do 2 apply reachable_run.
    apply reachable_start. }
  split; [exact Hreach|].
  destruct (commit_and_removal_together "FTSC Attingal" 1 2025 _ 3 2 3 2 6 4 2 1 Hreach)
    as [Hrefused _].
  edestruct Hrefused as (Hresp & Hstore & _ & (court & entry & Hcourt & Hentry) & _).
  - vm_compute. reflexivity.
  - vm_compute. reflexivity.
  - split; [exact Hresp|]. split; [exact Hstore|].
    exists entry. vm_compute in Hcourt. injection Hcourt as <-. exact Hentry.
Defined.

(** C7 as stated fails.  Step 1 has stored an entry for FTSC Attingal, 1/2025;
    another client then commits the record of that key; a second step 1 for
    the key is turned away as a duplicate, and the entry of the first is still
    in the store. *)
Lemma duplicate_entry_keeps_existing_entry :
  let w1 := with_committed_db (run example_step1 start_world).2 in
  reachable w1
  /\ fetchval_exists (db w1) 1 1 2025 = Ok true
  /\ (run example_step1 w1).1 = DataAlreadyExists "FTSC Attingal" 1 2025
  /\ exists entry,
       partial_data_store (run example_step1 w1).2 !! store_key 1 1 2025
       = Some entry.
Proof.
  cbn zeta. split; [|split; [|split]].
  - unfold with_committed_db. apply reachable_db. apply reachable_run.
    apply reachable_start.
  - vm_compute. reflexivity.
  - vm_compute. reflexivity.
  - eexists. vm_compute. reflexivity.
Qed.

(** Step 1 for a committed key on a server whose store is empty: a duplicate,
    and still no entry for the key. *)
Lemma duplicate_entry_leaves_store_empty :
  let w0 := with_committed_db start_world in
  (run example_step1 w0).1 = DataAlreadyExists "FTSC Attingal" 1 2025
  /\ partial_data_store (run example_step1 w0).2 !! store_key 1 1 2025 = None.
Proof.
  cbn zeta.
  assert (period_in_bounds 1 2025) as Hperiod by (unfold period_in_bounds; lia).
  destruct (duplicate_entry_leaves_store "FTSC Attingal" attingal 1 2025
              (with_committed_db start_world) 50 30 5 3 4 2
              Hperiod eq_refl eq_refl)
    as (Hresp & _ & _ & _ & _ & Hnone).
  split; [exact Hresp|]. apply Hnone. vm_compute. reflexivity.
Defined.

(** Step 1 has stored an entry for 1/2025; steps 2 and 3 for month 13 of the
    same court find no entry, and step 1 for month 13 is a range error. *)
Lemma period_checked_by_step1_only_month_13 :
  let w1 := (run example_step1 start_world).2 in
  response_kind
    (run (Step1 "FTSC Attingal" 13 2025 50 30 5 3 4 2) w1).1 = Some RangeError
  /\ (run (Step2 "FTSC Attingal" 13 2025 10 5 15 10 20 12 6 4 1 1 2 1 1 0) w1).1
     = MustCompleteStep1
  /\ (run (Step3 "FTSC Attingal" 13 2025 3 2 3 2 6 4 2 1) w1).1
     = MustCompleteStep1First.
Proof.
  cbn zeta.
  assert (~ period_in_bounds 13 2025) as Hout by (unfold period_in_bounds; lia).
  assert (reachable (run example_step1 start_world).2) as Hreach.
  { apply reachable_run. apply reachable_start. }
  destruct (period_checked_by_step1_only "FTSC Attingal" 13 2025
              (run example_step1 start_world).2
              50 30 5 3 4 2 10 5 15 10 20 12 6 4 1 1 2 1 1 0 3 2 3 2 6 4 2 1)
    as (Hstep1 & _ & _ & Hsteps).
  destruct (Hsteps Hreach Hout) as (_ & _ & Hfound).
  destruct (Hfound attingal eq_refl) as (_ & Hstep2 & Hstep3 & _).
  exact (conj (Hstep1 Hout) (conj Hstep2 Hstep3)).
Defined.

(** ** The further theorems at work *)

(** Month 12 of 2030 is the last period accepted; month 13 is reported
    before the year 2031 is looked at. *)
Lemma validate_month_year_bounds_example :
  validate_month_year (N:=float) 12 2030 = Ok true
  /\ validate_month_year (N:=float) 13 2031 = Raise (MonthOutOfRange 13)
  /\ validate_month_year (N:=float) 12 2031 = Raise (YearInvalid 2031).
Proof.
  destruct (validate_month_year_bounds (N:=float) 12 2030) as [[_ Hok] _].
  destruct (validate_month_year_bounds (N:=float) 13 2031) as (_ & Hmonth & _).
  destruct (validate_month_year_bounds (N:=float) 12 2031) as (_ & _ & Hyear).
  split; [|split].
  - apply Hok. unfold period_in_bounds. lia.
  - apply Hmonth. lia.
  - apply Hyear; lia.
Defined.

(** The breakdown of example.py adds up; with the first bucket 11 instead
    of 10, or the last 1 instead of 0, it does not. *)
Lemma validate_age_breakdowns_perturbed_example :
  (exists e,
     validate_age_breakdowns 51 31 4 2 11 5 15 10 20 12 6 4 1 1 2 1 1 0 = Raise e
     /\ validation_kind e = SumMismatch)
  /\ (exists e,
        validate_age_breakdowns 51 31 4 2 10 5 15 10 20 12 6 4 1 1 2 1 1 1 = Raise e
        /\ validation_kind e = SumMismatch).
Proof.
  assert (Forall (fun x => (0 <= x)%Z)
            [51; 31; 4; 2; 10; 5; 15; 10; 20; 12; 6; 4; 1; 1; 2; 1; 1; 0]%Z)
    as Hpos by (repeat constructor; lia).
  destruct (validate_age_breakdowns_perturbed (N:=float)
              51 31 4 2 10 5 15 10 20 12 6 4 1 1 2 1 1 0 1 Hpos)
    as (Hfirst & _ & _ & _ & _ & _ & _ & _ & _ & _ & _ & _ & _ & Hlast).
  - vm_compute. reflexivity.
  - lia.
  - eexists. vm_compute. reflexivity.
  - split; [exact Hfirst | exact Hlast].
Defined.

(** Three balance, one new and nine disposed RAPE cases: step 1 returns a
    pending count of -5, and neither the breakdown nor the additional
    metrics of example.py get past it. *)
Lemma negative_pending_needs_negative_counts_example :
  exists calculated,
    validate_basic_metrics 3 30 1 3 9 2 = Ok calculated
    /\ (exists cat total given,
          validate_age_breakdowns
            (pending_rape calculated) (pending_pocso calculated)
            (disposed_rape calculated) (disposed_pocso calculated)
            10 5 15 10 20 12 6 4 1 1 2 1 1 0
          = Raise (BreakdownSumMismatch cat Pendency total given))
    /\ (exists field cat value bound,
          validate_additional_metrics
            (pending_rape calculated) (pending_pocso calculated)
            (disposed_rape calculated) (disposed_pocso calculated)
            3 2 3 2 6 4 2 1
          = Raise (CannotExceed field cat value bound)).
Proof.
  destruct (negative_pending_needs_negative_counts (N:=float)
              3 30 1 3 9 2 10 5 15 10 20 12 6 4 1 1 2 1 1 0 3 2 3 2 6 4 2 1)
    as (calculated & Hbasic & Hage & Hextra).
  - repeat constructor; lia.
  - repeat constructor; lia.
  - repeat constructor; lia.
  - vm_compute. reflexivity.
  - lia.
  - exists calculated. exact (conj Hbasic (conj Hage Hextra)).
Defined.

(** The same counts through the tools: step 1 succeeds, step 2 answers the
    breakdown of example.py with a pendency sum mismatch. *)
Lemma negative_pending_blocks_step2_example :
  let step1 := run (Step1 "FTSC Attingal" 1 2025 3 30 1 3 9 2) start_world in
  let step2 := run example_step2 step1.2 in
  response_kind step1.1 = None
  /\ (exists cat total given,
        step2.1 = ValidationErrorResponse
                    (BreakdownSumMismatch cat Pendency total given))
  /\ partial_data_store step2.2 = partial_data_store step1.2.
Proof.
  cbn zeta. split; [vm_compute; reflexivity|].
  destruct (negative_pending_blocks_step2 (N:=float) "FTSC Attingal" 1 2025
              start_world 3 30 1 3 9 2 10 5 15 10 20 12 6 4 1 1 2 1 1 0)
    as [Hreply Hstore].
  - repeat constructor; lia.
  - repeat constructor; lia.
  - vm_compute. reflexivity.
  - lia.
  - vm_compute. reflexivity.
  - exact (conj Hreply Hstore).
Defined.

(** A NaN balance is turned away by step 1's validator, a NaN bucket by
    step 2's. *)
Lemma nan_is_rejected_by_sums_example :
  validate_basic_metrics nan 30 5 3 4 2 = Raise PendingCalculationMismatch
  /\ exists e,
       validate_age_breakdowns 51 31 4 2 10 5 15 10 20 12 6 4 1 1 2 1 1 nan
       = Raise e
       /\ validation_kind e = SumMismatch.
Proof.
  destruct (nan_is_rejected_by_sums
              nan 30 5 3 4 2 51 31 4 2 10 5 15 10 20 12 6 4 1 1 2 1 1 nan)
    as [Hbasic Hage].
  split; [apply Hbasic | apply Hage]; vm_compute; reflexivity.
Defined.

(** A NaN count of contested RAPE cases passes step 3's validator, and the
    total of contested cases it returns is NaN. *)
Lemma nan_is_accepted_by_subset_checks_example :
  exists r,
    validate_additional_metrics 51 31 4 2 nan 2 3 2 6 4 2 1 = Ok r
    /\ is_nan (contested_rape r) = true
    /\ is_nan (contested_total r) = true.
Proof.
  destruct (nan_is_accepted_by_subset_checks 51 31 4 2 nan 2 3 2 6 4 2 1)
    as (r & Hr & (Hc & _) & Htotal & _); [vm_compute; reflexivity|].
  exists r. split; [exact Hr|]. split.
  - rewrite Hc. vm_compute. reflexivity.
  - apply Htotal. left. vm_compute. reflexivity.
Defined.

(** After step 1 for 1/2025, a step 1 for 2/2025 of the same court leaves
    the entry of 1/2025 as it was. *)
Lemma data_entry_keeps_other_keys_example :
  let w1 := (run example_step1 start_world).2 in
  let w2 := (run (Step1 "FTSC Attingal" 2 2025 50 30 5 3 4 2) w1).2 in
  partial_data_store w2 !! store_key 1 1 2025
  = partial_data_store w1 !! store_key 1 1 2025
  /\ is_Some (partial_data_store w2 !! store_key 1 2 2025).
Proof.
  cbn zeta. split; [|eexists; vm_compute; reflexivity].
  assert ((c_id attingal, 2, 2025)%Z <> (1, 1, 2025)%Z) as Hother
    by (cbn; intros [= ?]).
  assert (fetchrow_court (db (run example_step1 start_world).2) "FTSC Attingal"
          = Ok (Some attingal)) as Hcourt by (vm_compute; reflexivity).
  destruct (data_entry_keeps_other_keys (N:=float) "FTSC Attingal" attingal
              2 2025 (run example_step1 start_world).2 1 1 2025
              50 30 5 3 4 2 10 5 15 10 20 12 6 4 1 1 2 1 1 0 3 2 3 2 6 4 2 1
              Hcourt Hother) as [Hstep1 _].
  exact Hstep1.
Defined.

(** Step 1 for month 13 sends nothing; for month 1 it looks up the court,
    then the record. *)
Lemma step1_checks_before_it_queries_example :
  db_calls (run (Step1 "FTSC Attingal" 13 2025 50 30 5 3 4 2) start_world).2 = []
  /\ db_calls (run example_step1 start_world).2
     = [SelectCourt "FTSC Attingal"; SelectExists 1 1 2025].
Proof.
  destruct (step1_checks_before_it_queries (N:=float) "FTSC Attingal" 13 2025
              start_world 50 30 5 3 4 2) as [Hout _].
  destruct (step1_checks_before_it_queries (N:=float) "FTSC Attingal" 1 2025
              start_world 50 30 5 3 4 2) as [_ Hin].
  split.
  - apply Hout. unfold period_in_bounds. lia.
  - apply Hin. unfold period_in_bounds. lia.
Defined.

(** Steps 1 and 2 have run; step 1 is run again; step 3 is told to complete
    step 2 first. *)
Lemma step1_starts_afresh_example :
  let w2 := (run example_step2 (run example_step1 start_world).2).2 in
  let w3 := (run example_step1 w2).2 in
  response_kind (run example_step3 w2).1 = None
  /\ (run example_step3 w3).1 = MustCompleteStep2First.
Proof.
  cbn zeta. split; [vm_compute; reflexivity|].
  edestruct (step1_starts_afresh (N:=float) "FTSC Attingal" 1 2025
               (run example_step2 (run example_step1 start_world).2).2
               50 30 5 3 4 2) as (court & _ & _ & _ & Hstep3).
  - vm_compute. reflexivity.
  - apply Hstep3.
Defined.

(** The walk-through of example.py, by the theorem: the row it commits. *)
Lemma three_steps_commit_the_row_example :
  let w2 := (run example_step2 (run example_step1 start_world).2).2 in
  exists row,
    last (db_calls (run example_step3 w2).2) = Some (InsertRow row)
    /\ row_court_id row = 1%Z /\ row_month row = 1%Z /\ row_year row = 2025%Z
    /\ pending_total (row_basic row) = 82
    /\ total_pendency_rape (row_age row) = 51
    /\ contested_total (row_additional row) = 5.
Proof.
  cbn zeta.
  edestruct (three_steps_commit_the_row (N:=float) "FTSC Attingal" attingal
               1 2025 start_world 50 30 5 3 4 2
               10 5 15 10 20 12 6 4 1 1 2 1 1 0 3 2 3 2 6 4 2 1)
    as (_ & _ & _ & Hcalls & _).
  - unfold period_in_bounds. lia.
  - reflexivity.
  - reflexivity.
  - vm_compute. reflexivity.
  - vm_compute. reflexivity.
  - vm_compute. reflexivity.
  - eexists. split.
    + change (run example_step3
                (run example_step2 (run example_step1 start_world).2).2)
        with (insert_step3_additional_metrics "FTSC Attingal" 1 2025
                3 2 3 2 6 4 2 1
                (insert_step2_age_breakdowns "FTSC Attingal" 1 2025
                   10 5 15 10 20 12 6 4 1 1 2 1 1 0
                   (insert_step1_basic_metrics "FTSC Attingal" 1 2025
                      50 30 5 3 4 2 start_world).2).2).
      rewrite Hcalls. reflexivity.
    + repeat split; vm_compute; reflexivity.
Defined.

(** [check_data_exists] on the example server: no data before the
    walk-through, so step 1 stores its entry; data once the record is
    committed, so step 1 is a duplicate. *)
Lemma check_data_exists_foretells_step1_example :
  (check_data_exists "FTSC Attingal" 1 2025 start_server).1
  = NoDataFound "FTSC Attingal" 1 2025
  /\ response_kind
       (run example_step1
          (world (check_data_exists "FTSC Attingal" 1 2025 start_server).2)).1
     = None
  /\ (check_data_exists "FTSC Attingal" 1 2025 committed_server).1
     = DataExists "FTSC Attingal" 1 2025
  /\ (run example_step1
        (world (check_data_exists "FTSC Attingal" 1 2025 committed_server).2)).1
     = DataAlreadyExists "FTSC Attingal" 1 2025.
Proof.
  assert (period_in_bounds 1 2025) as Hperiod by (unfold period_in_bounds; lia).
  destruct (check_data_exists_foretells_step1 (N:=float) "FTSC Attingal" 1 2025
              start_server 50 30 5 3 4 2 Hperiod) as [_ Hnone].
  destruct (check_data_exists_foretells_step1 (N:=float) "FTSC Attingal" 1 2025
              committed_server 50 30 5 3 4 2 Hperiod) as [Hexists _].
  split; [vm_compute; reflexivity|]. split; [|split].
  - assert ((check_data_exists "FTSC Attingal" 1 2025 start_server).1
            = NoDataFound "FTSC Attingal" 1 2025) as Hcheck
      by (vm_compute; reflexivity).
    specialize (Hnone Hcheck). cbn [run example_step1].
    destruct (validate_basic_metrics 50 30 5 3 4 2) as [calculated|e] eqn:Hv.
    + rewrite Hnone. reflexivity.
    + vm_compute in Hv. discriminate Hv.
  - vm_compute. reflexivity.
  - apply Hexists. vm_compute. reflexivity.
Defined.

(** Nothing is committed for FTSC Attingal, 1/2025, on the example server:
    nothing is deleted. *)
Lemma delete_monthly_data_without_record_example :
  (delete_monthly_data "FTSC Attingal" 1 2025 start_server).1
  = NoDataToDelete "FTSC Attingal" 1 2025
  /\ delete_calls (delete_monthly_data "FTSC Attingal" 1 2025 start_server).2 = []
  /\ (delete_monthly_data "No such court" 1 2025 start_server).1
     = StepReply (CourtNotFound "No such court").
Proof.
  destruct (delete_monthly_data_without_record (N:=float) "FTSC Attingal"
              1 2025 start_server) as (_ & Hcalls & _).
  { right. exists attingal. split; reflexivity. }
  destruct (delete_monthly_data_without_record (N:=float) "No such court"
              1 2025 start_server) as (_ & _ & _).
  { left. reflexivity. }
  split; [vm_compute; reflexivity|]. split; [exact Hcalls|].
  vm_compute. reflexivity.
Defined.

(** The committed record of the walk-through is deleted with one [DELETE],
    for court 1, month 1, year 2025. *)
Lemma delete_monthly_data_deletes_checked_key_example :
  let del := delete_monthly_data "FTSC Attingal" 1 2025 committed_server in
  del.1 = DeletedData "FTSC Attingal" 1 2025
  /\ delete_calls del.2 = [(1, 1, 2025)%Z]
  /\ fetchval_exists (db (world committed_server)) 1 1 2025 = Ok true
  /\ fetchval_exists (db (world del.2)) 1 1 2025 = Ok false.
Proof.
  cbn zeta.
  destruct (delete_monthly_data_deletes_checked_key (N:=float) "FTSC Attingal"
              1 2025 committed_server)
    as (court & Hcourt & _ & Hcalls & _).
  { right. vm_compute. reflexivity. }
  split; [vm_compute; reflexivity|]. split.
  - rewrite Hcalls. vm_compute in Hcourt. injection Hcourt as <-. reflexivity.
  - split; vm_compute; reflexivity.
Defined.

(** Step 1 for the committed key is a duplicate; the delete that follows
    sends the [DELETE] and succeeds. *)
Lemma duplicate_entry_can_be_deleted_example :
  let step1 := run example_step1 (world committed_server) in
  let del := delete_monthly_data "FTSC Attingal" 1 2025
               {| world := step1.2; delete_calls := [] |} in
  step1.1 = DataAlreadyExists "FTSC Attingal" 1 2025
  /\ delete_calls del.2 = [(1, 1, 2025)%Z]
  /\ del.1 = DeletedData "FTSC Attingal" 1 2025.
Proof.
  cbn zeta.
  assert ((run example_step1 (world committed_server)).1
          = DataAlreadyExists "FTSC Attingal" 1 2025) as Hdup
    by (vm_compute; reflexivity).
  destruct (duplicate_entry_can_be_deleted (N:=float) "FTSC Attingal" 1 2025
              committed_server 50 30 5 3 4 2 Hdup)
    as (court & Hcourt & Hcalls & Hdone).
  vm_compute in Hcourt. injection Hcourt as <-.
  split; [exact Hdup|]. split; [exact Hcalls|].
  edestruct Hdone as [Hreply _]; [reflexivity | exact Hreply].
Defined.

(** The server after the walk-through: the one row it has sent is
    consistent. *)
Lemma committed_rows_are_consistent_example :
  let s := serve (DataEntry example_step3)
             (serve (DataEntry example_step2)
                (serve (DataEntry example_step1) start_server)) in
  exists row,
    last (db_calls (world s)) = Some (InsertRow row) /\ row_consistent row.
Proof.
  cbn zeta. eexists. split; [vm_compute; reflexivity|].
  eapply (committed_rows_are_consistent (N:=float)
            (serve (DataEntry example_step3)
               (serve (DataEntry example_step2)
                  (serve (DataEntry example_step1) start_server)))).
  - do 3 apply server_serve. apply server_start.
  - apply last_Some_elem_of. vm_compute. reflexivity.
Defined.


(** Step 3 of the walk-through sends its [INSERT] and succeeds. *)
Lemma step3_sends_its_insert_example :
  let s := serve (DataEntry example_step2)
             (serve (DataEntry example_step1) start_server) in
  length (db_calls (run example_step3 (world s)).2)
  = S (S (length (db_calls (world s))))
  /\ response_kind (run example_step3 (world s)).1 = None.
Proof.
  cbn zeta.
  assert (server_reachable
            (serve (DataEntry example_step2)
               (serve (DataEntry example_step1) start_server))) as Hreach
    by (do 2 apply server_serve; apply server_start).
  epose proof (step3_sends_its_insert (N:=float) _ "FTSC Attingal" attingal
                 1 2025 _ _ 3 2 3 2 6 4 2 1 Hreach eq_refl) as Hthm.
  edestruct Hthm as (age & _ & Hcalls & _).
  - vm_compute. reflexivity.
  - reflexivity.
  - vm_compute. reflexivity.
  - split; [|vm_compute; reflexivity].
    cbn [run example_step3]. rewrite Hcalls.
    rewrite length_app. cbn. lia.
Defined.

(** Step 2 run a second time, with other buckets that add up: the entry
    holds the second breakdown. *)
Lemma step2_replaces_breakdown_example :
  let w2 := (run example_step2 (run example_step1 start_world).2).2 in
  let again := run (Step2 "FTSC Attingal" 1 2025
                          11 5 14 10 20 12 6 4 1 1 2 1 1 0) w2 in
  exists entry age,
    partial_data_store again.2 !! store_key 1 1 2025 = Some entry
    /\ age_data entry = Some age
    /\ pending_less_2m_rape age = 11
    /\ pending_rape (calculated entry) = 51
    /\ step2_complete entry = true.
Proof.
  cbn zeta.
  edestruct (step2_replaces_breakdown (N:=float) "FTSC Attingal" 1 2025
               (run example_step2 (run example_step1 start_world).2).2
               11 5 14 10 20 12 6 4 1 1 2 1 1 0)
    as (court & entry & Hcourt & Hentry & _ & _ & Hstore).
  - vm_compute. reflexivity.
  - vm_compute in Hcourt. injection Hcourt as <-.
    vm_compute in Hentry. injection Hentry as <-.
    do 2 eexists. split.
    + cbn [run]. rewrite Hstore. apply lookup_insert_eq.
    + repeat split.
Defined.

(** The counts of example.py satisfy the equations and bounds: the three
    steps send the one [INSERT] of a row with 82 pending cases. *)
Lemma three_steps_commit_exact_counts_example :
  let step3 := run example_step3
                 (run example_step2 (run example_step1 start_world).2).2 in
  response_kind step3.1 = None
  /\ exists row,
       inserts_issued step3.2 = inserts_issued start_world ++ [InsertRow row]
       /\ pending_total (row_basic row) = 82
       /\ total_disposal_pocso (row_age row) = 2
       /\ pending_over_5y_total (row_additional row) = 10.
Proof.
  cbn zeta. split; [vm_compute; reflexivity|].
  destruct (three_steps_commit_exact_counts (N:=float)
              "FTSC Attingal" attingal 1 2025 start_world
              50 30 5 3 4 2 10 5 15 10 20 12 6 4 1 1 2 1 1 0 3 2 3 2 6 4 2 1)
    as (_ & _ & Hins & _).
  - unfold period_in_bounds. lia.
  - reflexivity.
  - reflexivity.
  - repeat constructor; lia.
  - repeat constructor; lia.
  - repeat constructor; lia.
  - vm_compute. reflexivity.
  - lia.
  - lia.
  - eexists. split; [exact Hins|]. repeat split; vm_compute; reflexivity.
Defined.
